(** * Aresplot on-device protocol engine (aresplot_client.c)

    A shallow embedding of the firmware side of the Aresplot
    monitoring protocol: the byte-driven frame receiver, the command
    handlers, the acknowledgement slot, the sample scheduler and the
    frame transmitter, followed by the properties established for
    them.

    Conventions of the embedding.
    - A C unsigned integer of width w is a [Z] in [0, 2^w); every
      place where C truncates is written with [u8], [u16] or [u32].
    - A C array is a [list] of its declared size. Indexing goes
      through [load] and [store], which fail ([None]) outside the
      array; a function of the engine therefore returns
      [option world], and [None] stands for an access outside an
      array of the engine.
    - The file-scope variables of the C file are the fields of
      [world], under their C names. The remaining fields are the
      environment the engine talks to: the device memory reached
      through monitored addresses, the millisecond tick, the packets
      handed to the transport, and two call logs used to state the
      properties (frames handed to [process_received_frame], calls of
      [queue_ack_response]).
    - The critical-section callbacks delimit regions and have no
      effect of their own in a sequential run; they are not
      represented. *)

From Stdlib Require Import ZArith List Lia Bool.
From Stdlib Require Import Floats.SpecFloat.
From stdpp Require Import base option list.

Open Scope Z_scope.

(** ** Configuration and protocol constants *)

Definition ARESPLOT_MAX_VARS_TO_MONITOR : Z := 10.
Definition ARESPLOT_SHARED_BUFFER_SIZE : Z := 128.
Definition ARESPLOT_DEFAULT_SAMPLE_PERIOD_MS : Z := 10.

Definition ARESPLOT_SOP : Z := 0xA5.
Definition ARESPLOT_EOP : Z := 0x5A.

Definition ARESPLOT_CMD_START_MONITOR : Z := 0x01.
Definition ARESPLOT_CMD_SET_VARIABLE : Z := 0x02.
Definition ARESPLOT_CMD_SET_SAMPLE_RATE : Z := 0x03.
Definition ARESPLOT_CMD_MONITOR_DATA : Z := 0x81.
Definition ARESPLOT_CMD_ACK : Z := 0x82.

(** [aresplot_original_type_t]. The tag of a variable arrives as a raw
    byte that the handlers cast to the enumeration, so that a stored
    tag can be any byte value: tags are kept as numbers. *)
Definition ARES_TYPE_INT8 : Z := 0x00.
Definition ARES_TYPE_UINT8 : Z := 0x01.
Definition ARES_TYPE_INT16 : Z := 0x02.
Definition ARES_TYPE_UINT16 : Z := 0x03.
Definition ARES_TYPE_INT32 : Z := 0x04.
Definition ARES_TYPE_UINT32 : Z := 0x05.
Definition ARES_TYPE_FLOAT32 : Z := 0x06.
Definition ARES_TYPE_FLOAT64 : Z := 0x07.
Definition ARES_TYPE_BOOL : Z := 0x08.

Inductive aresplot_ack_status_t : Type :=
  | ARES_STATUS_OK
  | ARES_STATUS_ERROR_CHECKSUM
  | ARES_STATUS_ERROR_UNKNOWN_CMD
  | ARES_STATUS_ERROR_INVALID_PAYLOAD
  | ARES_STATUS_ERROR_ADDR_INVALID
  | ARES_STATUS_ERROR_TYPE_UNSUPPORTED
  | ARES_STATUS_ERROR_RATE_UNACHIEVABLE
  | ARES_STATUS_ERROR_MCU_BUSY_OR_LIMIT
  | ARES_STATUS_ERROR_GENERAL_FAIL.

(** The enumerator values, as used by the cast [(uint8_t)status]. *)
Definition status_code (st : aresplot_ack_status_t) : Z :=
  match st with
  | ARES_STATUS_OK => 0x00
  | ARES_STATUS_ERROR_CHECKSUM => 0x01
  | ARES_STATUS_ERROR_UNKNOWN_CMD => 0x02
  | ARES_STATUS_ERROR_INVALID_PAYLOAD => 0x03
  | ARES_STATUS_ERROR_ADDR_INVALID => 0x04
  | ARES_STATUS_ERROR_TYPE_UNSUPPORTED => 0x05
  | ARES_STATUS_ERROR_RATE_UNACHIEVABLE => 0x06
  | ARES_STATUS_ERROR_MCU_BUSY_OR_LIMIT => 0x07
  | ARES_STATUS_ERROR_GENERAL_FAIL => 0xFF
  end.

Record aresplot_var_info_t : Type := VarInfo {
  ptr : Z;
  type : Z
}.

Inductive aresplot_rx_state_t : Type :=
  | ARES_RX_STATE_WAIT_SOP
  | ARES_RX_STATE_WAIT_CMD
  | ARES_RX_STATE_WAIT_LEN1
  | ARES_RX_STATE_WAIT_LEN2
  | ARES_RX_STATE_WAIT_PAYLOAD
  | ARES_RX_STATE_WAIT_CHECKSUM
  | ARES_RX_STATE_WAIT_EOP.

(** ** Machine integers and arrays *)

Definition u8 (x : Z) : Z := x mod 256.
Definition u16 (x : Z) : Z := x mod 65536.
Definition u32 (x : Z) : Z := x mod 4294967296.

Definition is_u8 (x : Z) : Prop := 0 <= x < 256.

(** [a[i]] as a value: fails outside the array. *)
Definition load {A : Type} (a : list A) (i : Z) : option A :=
  if (0 <=? i) && (i <? Z.of_nat (length a)) then a !! Z.to_nat i else None.

(** [a[i] = v]: fails outside the array. *)
Definition store {A : Type} (a : list A) (i : Z) (v : A) : option (list A) :=
  if (0 <=? i) && (i <? Z.of_nat (length a))
  then Some (<[Z.to_nat i := v]> a) else None.

(** [for (i = start; i < start + n; ++i) body]: the body threads a value and
    may fail. *)
Fixpoint for_loop {A : Type} (n : nat) (i : Z)
    (body : Z -> A -> option A) (a : A) : option A :=
  match n with
  | O => Some a
  | S n' => a' ← body i a; for_loop n' (i + 1) body a'
  end.

(** [memcpy(&dst[off], src, len)]. *)
Definition memcpy (dst : list Z) (off : Z) (src : list Z) (len : Z)
    : option (list Z) :=
  for_loop (Z.to_nat len) 0
    (fun i d => b ← load src i; store d (off + i) b) dst.

(** The little-endian value of four bytes, as the handlers assemble it. *)
Definition le32 (b0 b1 b2 b3 : Z) : Z :=
  u32 (Z.lor (Z.lor (Z.lor b0 (Z.shiftl b1 8)) (Z.shiftl b2 16))
             (Z.shiftl b3 24)).

(** ** The state of the engine and of its environment *)

Record world : Type := World {
  (* receiver *)
  g_rx_state : aresplot_rx_state_t;
  g_rx_payload_buffer : list Z;
  g_rx_payload_len : Z;
  g_rx_payload_idx : Z;
  g_rx_cmd : Z;
  g_rx_checksum_calculated : Z;
  (* monitored variables *)
  g_monitor_vars : list aresplot_var_info_t;
  g_num_monitor_vars : Z;
  g_monitoring_active : Z;
  (* sample clock *)
  g_sample_period_ms : Z;
  g_last_sample_time_ms : Z;
  (* transmit assembly buffer *)
  g_tx_assembly_buffer : list Z;
  (* acknowledgement slot *)
  g_ack_pending : Z;
  g_ack_cmd_to_ack : Z;
  g_ack_status_to_send : aresplot_ack_status_t;
  (* environment: device memory, tick, transport *)
  memory : Z -> Z;
  tick_source : nat -> Z;
  tick_reads : nat;
  sent_packets : list (list Z);
  (* call logs *)
  log_dispatched : list (Z * list Z);
  log_acks : list (Z * aresplot_ack_status_t)
}.

(** Assignment to one variable: [set_x v s] is [s] with [x] set to [v]. *)
Definition set_g_rx_state (v : aresplot_rx_state_t) (s : world) : world :=
  World v (g_rx_payload_buffer s) (g_rx_payload_len s) (g_rx_payload_idx s)
    (g_rx_cmd s) (g_rx_checksum_calculated s) (g_monitor_vars s)
    (g_num_monitor_vars s) (g_monitoring_active s) (g_sample_period_ms s)
    (g_last_sample_time_ms s) (g_tx_assembly_buffer s) (g_ack_pending s)
    (g_ack_cmd_to_ack s) (g_ack_status_to_send s) (memory s) (tick_source s)
    (tick_reads s) (sent_packets s) (log_dispatched s) (log_acks s).
Definition set_g_rx_payload_buffer (v : list Z) (s : world) : world :=
  World (g_rx_state s) v (g_rx_payload_len s) (g_rx_payload_idx s)
    (g_rx_cmd s) (g_rx_checksum_calculated s) (g_monitor_vars s)
    (g_num_monitor_vars s) (g_monitoring_active s) (g_sample_period_ms s)
    (g_last_sample_time_ms s) (g_tx_assembly_buffer s) (g_ack_pending s)
    (g_ack_cmd_to_ack s) (g_ack_status_to_send s) (memory s) (tick_source s)
    (tick_reads s) (sent_packets s) (log_dispatched s) (log_acks s).
Definition set_g_rx_payload_len (v : Z) (s : world) : world :=
  World (g_rx_state s) (g_rx_payload_buffer s) v (g_rx_payload_idx s)
    (g_rx_cmd s) (g_rx_checksum_calculated s) (g_monitor_vars s)
    (g_num_monitor_vars s) (g_monitoring_active s) (g_sample_period_ms s)
    (g_last_sample_time_ms s) (g_tx_assembly_buffer s) (g_ack_pending s)
    (g_ack_cmd_to_ack s) (g_ack_status_to_send s) (memory s) (tick_source s)
    (tick_reads s) (sent_packets s) (log_dispatched s) (log_acks s).
Definition set_g_rx_payload_idx (v : Z) (s : world) : world :=
  World (g_rx_state s) (g_rx_payload_buffer s) (g_rx_payload_len s) v
    (g_rx_cmd s) (g_rx_checksum_calculated s) (g_monitor_vars s)
    (g_num_monitor_vars s) (g_monitoring_active s) (g_sample_period_ms s)
    (g_last_sample_time_ms s) (g_tx_assembly_buffer s) (g_ack_pending s)
    (g_ack_cmd_to_ack s) (g_ack_status_to_send s) (memory s) (tick_source s)
    (tick_reads s) (sent_packets s) (log_dispatched s) (log_acks s).
Definition set_g_rx_cmd (v : Z) (s : world) : world :=
  World (g_rx_state s) (g_rx_payload_buffer s) (g_rx_payload_len s)
    (g_rx_payload_idx s) v (g_rx_checksum_calculated s) (g_monitor_vars s)
    (g_num_monitor_vars s) (g_monitoring_active s) (g_sample_period_ms s)
    (g_last_sample_time_ms s) (g_tx_assembly_buffer s) (g_ack_pending s)
    (g_ack_cmd_to_ack s) (g_ack_status_to_send s) (memory s) (tick_source s)
    (tick_reads s) (sent_packets s) (log_dispatched s) (log_acks s).
Definition set_g_rx_checksum_calculated (v : Z) (s : world) : world :=
  World (g_rx_state s) (g_rx_payload_buffer s) (g_rx_payload_len s)
    (g_rx_payload_idx s) (g_rx_cmd s) v (g_monitor_vars s)
    (g_num_monitor_vars s) (g_monitoring_active s) (g_sample_period_ms s)
    (g_last_sample_time_ms s) (g_tx_assembly_buffer s) (g_ack_pending s)
    (g_ack_cmd_to_ack s) (g_ack_status_to_send s) (memory s) (tick_source s)
    (tick_reads s) (sent_packets s) (log_dispatched s) (log_acks s).
Definition set_g_monitor_vars (v : list aresplot_var_info_t) (s : world)
    : world :=
  World (g_rx_state s) (g_rx_payload_buffer s) (g_rx_payload_len s)
    (g_rx_payload_idx s) (g_rx_cmd s) (g_rx_checksum_calculated s) v
    (g_num_monitor_vars s) (g_monitoring_active s) (g_sample_period_ms s)
    (g_last_sample_time_ms s) (g_tx_assembly_buffer s) (g_ack_pending s)
    (g_ack_cmd_to_ack s) (g_ack_status_to_send s) (memory s) (tick_source s)
    (tick_reads s) (sent_packets s) (log_dispatched s) (log_acks s).
Definition set_g_num_monitor_vars (v : Z) (s : world) : world :=
  World (g_rx_state s) (g_rx_payload_buffer s) (g_rx_payload_len s)
    (g_rx_payload_idx s) (g_rx_cmd s) (g_rx_checksum_calculated s)
    (g_monitor_vars s) v (g_monitoring_active s) (g_sample_period_ms s)
    (g_last_sample_time_ms s) (g_tx_assembly_buffer s) (g_ack_pending s)
    (g_ack_cmd_to_ack s) (g_ack_status_to_send s) (memory s) (tick_source s)
    (tick_reads s) (sent_packets s) (log_dispatched s) (log_acks s).
Definition set_g_monitoring_active (v : Z) (s : world) : world :=
  World (g_rx_state s) (g_rx_payload_buffer s) (g_rx_payload_len s)
    (g_rx_payload_idx s) (g_rx_cmd s) (g_rx_checksum_calculated s)
    (g_monitor_vars s) (g_num_monitor_vars s) v (g_sample_period_ms s)
    (g_last_sample_time_ms s) (g_tx_assembly_buffer s) (g_ack_pending s)
    (g_ack_cmd_to_ack s) (g_ack_status_to_send s) (memory s) (tick_source s)
    (tick_reads s) (sent_packets s) (log_dispatched s) (log_acks s).
Definition set_g_sample_period_ms (v : Z) (s : world) : world :=
  World (g_rx_state s) (g_rx_payload_buffer s) (g_rx_payload_len s)
    (g_rx_payload_idx s) (g_rx_cmd s) (g_rx_checksum_calculated s)
    (g_monitor_vars s) (g_num_monitor_vars s) (g_monitoring_active s) v
    (g_last_sample_time_ms s) (g_tx_assembly_buffer s) (g_ack_pending s)
    (g_ack_cmd_to_ack s) (g_ack_status_to_send s) (memory s) (tick_source s)
    (tick_reads s) (sent_packets s) (log_dispatched s) (log_acks s).
Definition set_g_last_sample_time_ms (v : Z) (s : world) : world :=
  World (g_rx_state s) (g_rx_payload_buffer s) (g_rx_payload_len s)
    (g_rx_payload_idx s) (g_rx_cmd s) (g_rx_checksum_calculated s)
    (g_monitor_vars s) (g_num_monitor_vars s) (g_monitoring_active s)
    (g_sample_period_ms s) v (g_tx_assembly_buffer s) (g_ack_pending s)
    (g_ack_cmd_to_ack s) (g_ack_status_to_send s) (memory s) (tick_source s)
    (tick_reads s) (sent_packets s) (log_dispatched s) (log_acks s).
Definition set_g_tx_assembly_buffer (v : list Z) (s : world) : world :=
  World (g_rx_state s) (g_rx_payload_buffer s) (g_rx_payload_len s)
    (g_rx_payload_idx s) (g_rx_cmd s) (g_rx_checksum_calculated s)
    (g_monitor_vars s) (g_num_monitor_vars s) (g_monitoring_active s)
    (g_sample_period_ms s) (g_last_sample_time_ms s) v (g_ack_pending s)
    (g_ack_cmd_to_ack s) (g_ack_status_to_send s) (memory s) (tick_source s)
    (tick_reads s) (sent_packets s) (log_dispatched s) (log_acks s).
Definition set_g_ack_pending (v : Z) (s : world) : world :=
  World (g_rx_state s) (g_rx_payload_buffer s) (g_rx_payload_len s)
    (g_rx_payload_idx s) (g_rx_cmd s) (g_rx_checksum_calculated s)
    (g_monitor_vars s) (g_num_monitor_vars s) (g_monitoring_active s)
    (g_sample_period_ms s) (g_last_sample_time_ms s)
    (g_tx_assembly_buffer s) v (g_ack_cmd_to_ack s) (g_ack_status_to_send s)
    (memory s) (tick_source s) (tick_reads s) (sent_packets s)
    (log_dispatched s) (log_acks s).
Definition set_g_ack_cmd_to_ack (v : Z) (s : world) : world :=
  World (g_rx_state s) (g_rx_payload_buffer s) (g_rx_payload_len s)
    (g_rx_payload_idx s) (g_rx_cmd s) (g_rx_checksum_calculated s)
    (g_monitor_vars s) (g_num_monitor_vars s) (g_monitoring_active s)
    (g_sample_period_ms s) (g_last_sample_time_ms s)
    (g_tx_assembly_buffer s) (g_ack_pending s) v (g_ack_status_to_send s)
    (memory s) (tick_source s) (tick_reads s) (sent_packets s)
    (log_dispatched s) (log_acks s).
Definition set_g_ack_status_to_send (v : aresplot_ack_status_t) (s : world)
    : world :=
  World (g_rx_state s) (g_rx_payload_buffer s) (g_rx_payload_len s)
    (g_rx_payload_idx s) (g_rx_cmd s) (g_rx_checksum_calculated s)
    (g_monitor_vars s) (g_num_monitor_vars s) (g_monitoring_active s)
    (g_sample_period_ms s) (g_last_sample_time_ms s)
    (g_tx_assembly_buffer s) (g_ack_pending s) (g_ack_cmd_to_ack s) v
    (memory s) (tick_source s) (tick_reads s) (sent_packets s)
    (log_dispatched s) (log_acks s).
Definition set_memory (v : Z -> Z) (s : world) : world :=
  World (g_rx_state s) (g_rx_payload_buffer s) (g_rx_payload_len s)
    (g_rx_payload_idx s) (g_rx_cmd s) (g_rx_checksum_calculated s)
    (g_monitor_vars s) (g_num_monitor_vars s) (g_monitoring_active s)
    (g_sample_period_ms s) (g_last_sample_time_ms s)
    (g_tx_assembly_buffer s) (g_ack_pending s) (g_ack_cmd_to_ack s)
    (g_ack_status_to_send s) v (tick_source s) (tick_reads s)
    (sent_packets s) (log_dispatched s) (log_acks s).
Definition set_tick_reads (v : nat) (s : world) : world :=
  World (g_rx_state s) (g_rx_payload_buffer s) (g_rx_payload_len s)
    (g_rx_payload_idx s) (g_rx_cmd s) (g_rx_checksum_calculated s)
    (g_monitor_vars s) (g_num_monitor_vars s) (g_monitoring_active s)
    (g_sample_period_ms s) (g_last_sample_time_ms s)
    (g_tx_assembly_buffer s) (g_ack_pending s) (g_ack_cmd_to_ack s)
    (g_ack_status_to_send s) (memory s) (tick_source s) v (sent_packets s)
    (log_dispatched s) (log_acks s).
Definition set_sent_packets (v : list (list Z)) (s : world) : world :=
  World (g_rx_state s) (g_rx_payload_buffer s) (g_rx_payload_len s)
    (g_rx_payload_idx s) (g_rx_cmd s) (g_rx_checksum_calculated s)
    (g_monitor_vars s) (g_num_monitor_vars s) (g_monitoring_active s)
    (g_sample_period_ms s) (g_last_sample_time_ms s)
    (g_tx_assembly_buffer s) (g_ack_pending s) (g_ack_cmd_to_ack s)
    (g_ack_status_to_send s) (memory s) (tick_source s) (tick_reads s) v
    (log_dispatched s) (log_acks s).
Definition set_log_dispatched (v : list (Z * list Z)) (s : world) : world :=
  World (g_rx_state s) (g_rx_payload_buffer s) (g_rx_payload_len s)
    (g_rx_payload_idx s) (g_rx_cmd s) (g_rx_checksum_calculated s)
    (g_monitor_vars s) (g_num_monitor_vars s) (g_monitoring_active s)
    (g_sample_period_ms s) (g_last_sample_time_ms s)
    (g_tx_assembly_buffer s) (g_ack_pending s) (g_ack_cmd_to_ack s)
    (g_ack_status_to_send s) (memory s) (tick_source s) (tick_reads s)
    (sent_packets s) v (log_acks s).
Definition set_log_acks (v : list (Z * aresplot_ack_status_t)) (s : world)
    : world :=
  World (g_rx_state s) (g_rx_payload_buffer s) (g_rx_payload_len s)
    (g_rx_payload_idx s) (g_rx_cmd s) (g_rx_checksum_calculated s)
    (g_monitor_vars s) (g_num_monitor_vars s) (g_monitoring_active s)
    (g_sample_period_ms s) (g_last_sample_time_ms s)
    (g_tx_assembly_buffer s) (g_ack_pending s) (g_ack_cmd_to_ack s)
    (g_ack_status_to_send s) (memory s) (tick_source s) (tick_reads s)
    (sent_packets s) (log_dispatched s) v.

(** ** IEEE-754 binary32 values and the C conversions

    A C [float] is carried as its 32-bit pattern, which is what
    [memcpy] moves between a [float] and four bytes. The numeric
    conversions go through [spec_float] at precision 24 and maximal
    exponent 128. The target is little-endian, as the handlers assume
    when they copy the wire's little-endian float bytes into a
    [float]. *)

Definition decode_f32 (x : Z) : spec_float :=
  let s := Z.testbit x 31 in
  let e := Z.land (Z.shiftr x 23) 255 in
  let m := Z.land x 0x7FFFFF in
  if e =? 0 then
    if m =? 0 then S754_zero s else S754_finite s (Z.to_pos m) (-149)
  else if e =? 255 then
    if m =? 0 then S754_infinity s else S754_nan
  else S754_finite s (Z.to_pos (m + 0x800000)) (e - 150).

Definition encode_f32 (f : spec_float) : Z :=
  match f with
  | S754_zero s => if s then 0x80000000 else 0
  | S754_infinity s => (if s then 0x80000000 else 0) + 0x7F800000
  | S754_nan => 0x7FC00000
  | S754_finite s m e =>
      (if s then 0x80000000 else 0) + (e + 149) * 0x800000 + Zpos m
  end.

(** [(float)z] for an integer [z]: rounding to nearest, ties to even. *)
Definition float_of_int (z : Z) : Z :=
  encode_f32 (binary_normalize 24 128 z 0 false).

Definition F32_ZERO : Z := 0.
Definition F32_ONE : Z := 0x3F800000.

(** The integral part of a finite float (the fractional part is
    discarded); nothing for an infinity or a NaN. *)
Definition float_trunc (f : spec_float) : option Z :=
  match f with
  | S754_zero _ => Some 0
  | S754_finite s m e =>
      Some (cond_Zopp s (if 0 <=? e then Zpos m * 2 ^ e
                         else Zpos m / 2 ^ (- e)))
  | _ => None
  end.

(** [float_val != 0.0f]: false exactly for the two zeros. *)
Definition float_is_nonzero (bits : Z) : bool :=
  match decode_f32 bits with
  | S754_zero _ => false
  | _ => true
  end.

(** Two's complement reading of a [w]-bit pattern. *)
Definition sint (w : Z) (v : Z) : Z :=
  if v <? 2 ^ (w - 1) then v else v - 2 ^ w.

(** ** Device memory, byte addressed *)

Definition mem_write (m : Z -> Z) (a v : Z) : Z -> Z :=
  fun x => if x =? a then u8 v else m x.

Definition read_u8 (m : Z -> Z) (a : Z) : Z := u8 (m a).
Definition read_u16 (m : Z -> Z) (a : Z) : Z :=
  read_u8 m a + 256 * read_u8 m (a + 1).
Definition read_u32 (m : Z -> Z) (a : Z) : Z :=
  read_u8 m a + 256 * read_u8 m (a + 1) + 65536 * read_u8 m (a + 2)
  + 16777216 * read_u8 m (a + 3).

Definition write_u8 (m : Z -> Z) (a v : Z) : Z -> Z := mem_write m a v.
Definition write_u16 (m : Z -> Z) (a v : Z) : Z -> Z :=
  mem_write (mem_write m a v) (a + 1) (Z.shiftr v 8).
Definition write_u32 (m : Z -> Z) (a v : Z) : Z -> Z :=
  mem_write (mem_write (mem_write (mem_write m a v)
    (a + 1) (Z.shiftr v 8)) (a + 2) (Z.shiftr v 16)) (a + 3) (Z.shiftr v 24).

(** ** The collaborators *)

(** [aresplot_user_get_tick_ms]: the k-th call returns the k-th value
    of the tick source, as a 32-bit number. *)
Definition aresplot_user_get_tick_ms (s : world) : Z * world :=
  (u32 (tick_source s (tick_reads s)), set_tick_reads (S (tick_reads s)) s).

(** [aresplot_user_send_packet]: the transport receives the first
    [length] bytes of [data]. *)
Definition aresplot_user_send_packet (data : list Z) (length : Z)
    (s : world) : world :=
  set_sent_packets (sent_packets s ++ [take (Z.to_nat length) data]) s.

(** ** Internal helpers *)

Definition calculate_checksum (cmd len : Z) (payload : list Z) : option Z :=
  let checksum := 0 in
  let checksum := u8 (Z.lxor checksum cmd) in
  let checksum := u8 (Z.lxor checksum (u8 (Z.land len 0xFF))) in
  let checksum := u8 (Z.lxor checksum (u8 (Z.land (Z.shiftr len 8) 0xFF))) in
  for_loop (Z.to_nat len) 0
    (fun i checksum => b ← load payload i; Some (u8 (Z.lxor checksum b)))
    checksum.

(** The payload pointer is the list it points to; callers never pass
    NULL. *)
Definition assemble_and_send_frame_internal (cmd : Z) (payload : list Z)
    (len : Z) (s : world) : option world :=
  let frame_idx := 0 in
  let total_frame_len := u16 (1 + 1 + 2 + len + 1 + 1) in
  if ARESPLOT_SHARED_BUFFER_SIZE <? total_frame_len then Some s
  else
    buf ← store (g_tx_assembly_buffer s) frame_idx ARESPLOT_SOP;
    let frame_idx := u16 (frame_idx + 1) in
    buf ← store buf frame_idx cmd;
    let frame_idx := u16 (frame_idx + 1) in
    buf ← store buf frame_idx (u8 (Z.land len 0xFF));
    let frame_idx := u16 (frame_idx + 1) in
    buf ← store buf frame_idx (u8 (Z.land (Z.shiftr len 8) 0xFF));
    let frame_idx := u16 (frame_idx + 1) in
    '(buf, frame_idx) ←
      (if 0 <? len then
         buf ← memcpy buf frame_idx payload len;
         Some (buf, u16 (frame_idx + len))
       else Some (buf, frame_idx));
    checksum ← calculate_checksum cmd len payload;
    buf ← store buf frame_idx checksum;
    let frame_idx := u16 (frame_idx + 1) in
    buf ← store buf frame_idx ARESPLOT_EOP;
    let frame_idx := u16 (frame_idx + 1) in
    Some (aresplot_user_send_packet buf frame_idx
            (set_g_tx_assembly_buffer buf s)).

(** The last line records the call in the log of acknowledgements. *)
Definition queue_ack_response (ack_cmd_id : Z)
    (status : aresplot_ack_status_t) (s : world) : world :=
  let s := set_g_ack_cmd_to_ack ack_cmd_id s in
  let s := set_g_ack_status_to_send status s in
  let s := set_g_ack_pending 1 s in
  set_log_acks (log_acks s ++ [(ack_cmd_id, status)]) s.

(** Four consecutive bytes of an array, combined as the handlers do:
    [p[0] | p[1] << 8 | p[2] << 16 | p[3] << 24]. *)
Definition load_le32 (p : list Z) (off : Z) : option Z :=
  b0 ← load p off; b1 ← load p (off + 1);
  b2 ← load p (off + 2); b3 ← load p (off + 3);
  Some (le32 b0 b1 b2 b3).

(** ** Command handlers *)

Definition handle_cmd_start_monitor (s : world) : option world :=
  num_vars_requested ← load (g_rx_payload_buffer s) 0;
  let s := set_g_monitoring_active 0 s in
  let s := set_g_num_monitor_vars 0 s in
  '(status, s) ←
    (if num_vars_requested =? 0 then Some (ARES_STATUS_OK, s)
     else if ARESPLOT_MAX_VARS_TO_MONITOR <? num_vars_requested then
       Some (ARES_STATUS_ERROR_MCU_BUSY_OR_LIMIT, s)
     else if negb (g_rx_payload_len s =? 1 + num_vars_requested * 5) then
       Some (ARES_STATUS_ERROR_INVALID_PAYLOAD, s)
     else
       let s := set_g_num_monitor_vars num_vars_requested s in
       vars ← for_loop (Z.to_nat (g_num_monitor_vars s)) 0
         (fun i vars =>
            temp_addr ← load_le32 (g_rx_payload_buffer s) (1 + i * 5);
            ty ← load (g_rx_payload_buffer s) (1 + i * 5 + 4);
            store vars i (VarInfo temp_addr ty))
         (g_monitor_vars s);
       let s := set_g_monitor_vars vars s in
       let s := set_g_monitoring_active 1 s in
       let '(now, s) := aresplot_user_get_tick_ms s in
       let s := set_g_last_sample_time_ms now s in
       Some (ARES_STATUS_OK, s));
  Some (queue_ack_response ARESPLOT_CMD_START_MONITOR status s).

Definition handle_cmd_set_sample_rate (s : world) : option world :=
  if negb (g_rx_payload_len s =? 4) then
    Some (queue_ack_response ARESPLOT_CMD_SET_SAMPLE_RATE
            ARES_STATUS_ERROR_INVALID_PAYLOAD s)
  else
    rate_hz ← load_le32 (g_rx_payload_buffer s) 0;
    let s :=
      if rate_hz =? 0 then
        set_g_sample_period_ms ARESPLOT_DEFAULT_SAMPLE_PERIOD_MS s
      else
        let period_ms := 1000 / rate_hz in
        let period_ms :=
          if (period_ms =? 0) && negb (rate_hz =? 0) then 1 else period_ms in
        set_g_sample_period_ms period_ms s in
    let '(now, s) := aresplot_user_get_tick_ms s in
    let s := set_g_last_sample_time_ms now s in
    Some (queue_ack_response ARESPLOT_CMD_SET_SAMPLE_RATE ARES_STATUS_OK s).

Section Engine.

(** C leaves undefined the result of converting a float whose integral
    part does not fit the integer type (or that is an infinity or a
    NaN). Targets differ in the value they produce; the engine is
    modelled for any of them: the value is [cast_out_of_range ty bits]
    for the type tag [ty] and the float pattern [bits]. *)
Variable cast_out_of_range : Z -> Z -> Z.

(** [(T)float_val] for the integer type of tag [ty] with range
    [lo..hi]. *)
Definition cast_float (ty lo hi : Z) (float_val : Z) : Z :=
  match float_trunc (decode_f32 float_val) with
  | Some z =>
      if (lo <=? z) && (z <=? hi) then z else cast_out_of_range ty float_val
  | None => cast_out_of_range ty float_val
  end.

Definition handle_cmd_set_variable (s : world) : option world :=
  if negb (g_rx_payload_len s =? 9) then
    Some (queue_ack_response ARESPLOT_CMD_SET_VARIABLE
            ARES_STATUS_ERROR_INVALID_PAYLOAD s)
  else
    let p_payload := g_rx_payload_buffer s in
    addr ← load_le32 p_payload 0;
    original_type ← load p_payload 4;
    float_val ← load_le32 p_payload 5;
    let wr (m : Z -> Z) :=
      Some (queue_ack_response ARESPLOT_CMD_SET_VARIABLE ARES_STATUS_OK
              (set_memory m s)) in
    if original_type =? ARES_TYPE_INT8 then
      wr (write_u8 (memory s) addr
            (cast_float ARES_TYPE_INT8 (-128) 127 float_val))
    else if original_type =? ARES_TYPE_UINT8 then
      wr (write_u8 (memory s) addr
            (cast_float ARES_TYPE_UINT8 0 255 float_val))
    else if original_type =? ARES_TYPE_INT16 then
      wr (write_u16 (memory s) addr
            (cast_float ARES_TYPE_INT16 (-32768) 32767 float_val))
    else if original_type =? ARES_TYPE_UINT16 then
      wr (write_u16 (memory s) addr
            (cast_float ARES_TYPE_UINT16 0 65535 float_val))
    else if original_type =? ARES_TYPE_INT32 then
      wr (write_u32 (memory s) addr
            (cast_float ARES_TYPE_INT32 (-2147483648) 2147483647 float_val))
    else if original_type =? ARES_TYPE_UINT32 then
      wr (write_u32 (memory s) addr
            (cast_float ARES_TYPE_UINT32 0 4294967295 float_val))
    else if original_type =? ARES_TYPE_FLOAT32 then
      wr (write_u32 (memory s) addr float_val)
    else if original_type =? ARES_TYPE_BOOL then
      wr (write_u8 (memory s) addr (if float_is_nonzero float_val then 1 else 0))
    else
      Some (queue_ack_response ARESPLOT_CMD_SET_VARIABLE
              ARES_STATUS_ERROR_TYPE_UNSUPPORTED s).

(** The first line records the frame handed over in the log of
    dispatched frames. *)
Definition process_received_frame (s : world) : option world :=
  let s := set_log_dispatched
             (log_dispatched s ++
              [(g_rx_cmd s,
                take (Z.to_nat (g_rx_payload_len s)) (g_rx_payload_buffer s))])
             s in
  if g_rx_cmd s =? ARESPLOT_CMD_START_MONITOR then handle_cmd_start_monitor s
  else if g_rx_cmd s =? ARESPLOT_CMD_SET_VARIABLE then handle_cmd_set_variable s
  else if g_rx_cmd s =? ARESPLOT_CMD_SET_SAMPLE_RATE then
    handle_cmd_set_sample_rate s
  else Some (queue_ack_response (g_rx_cmd s) ARES_STATUS_ERROR_UNKNOWN_CMD s).

(** ** Public API *)

Definition aresplot_init (s : world) : world :=
  let s := set_g_rx_state ARES_RX_STATE_WAIT_SOP s in
  let s := set_g_num_monitor_vars 0 s in
  let s := set_g_monitoring_active 0 s in
  let s := set_g_sample_period_ms ARESPLOT_DEFAULT_SAMPLE_PERIOD_MS s in
  let s := set_g_last_sample_time_ms 0 s in
  set_g_ack_pending 0 s.

(** The state variable only ever holds one of the seven enumerators,
    so that the [default] case of the switch is not reachable. *)
Definition aresplot_rx_feed_byte (byte : Z) (s : world) : option world :=
  match g_rx_state s with
  | ARES_RX_STATE_WAIT_SOP =>
      if byte =? ARESPLOT_SOP then
        let s := set_g_rx_state ARES_RX_STATE_WAIT_CMD s in
        Some (set_g_rx_checksum_calculated 0 s)
      else Some s
  | ARES_RX_STATE_WAIT_CMD =>
      let s := set_g_rx_cmd byte s in
      let s := set_g_rx_checksum_calculated
                 (u8 (Z.lxor (g_rx_checksum_calculated s) byte)) s in
      Some (set_g_rx_state ARES_RX_STATE_WAIT_LEN1 s)
  | ARES_RX_STATE_WAIT_LEN1 =>
      let s := set_g_rx_payload_len byte s in
      let s := set_g_rx_checksum_calculated
                 (u8 (Z.lxor (g_rx_checksum_calculated s) byte)) s in
      Some (set_g_rx_state ARES_RX_STATE_WAIT_LEN2 s)
  | ARES_RX_STATE_WAIT_LEN2 =>
      let s := set_g_rx_payload_len
                 (u16 (Z.lor (g_rx_payload_len s) (u16 (Z.shiftl byte 8)))) s in
      let s := set_g_rx_checksum_calculated
                 (u8 (Z.lxor (g_rx_checksum_calculated s) byte)) s in
      if ARESPLOT_SHARED_BUFFER_SIZE <? g_rx_payload_len s then
        Some (set_g_rx_state ARES_RX_STATE_WAIT_SOP s)
      else if g_rx_payload_len s =? 0 then
        Some (set_g_rx_state ARES_RX_STATE_WAIT_CHECKSUM s)
      else
        let s := set_g_rx_payload_idx 0 s in
        Some (set_g_rx_state ARES_RX_STATE_WAIT_PAYLOAD s)
  | ARES_RX_STATE_WAIT_PAYLOAD =>
      buf ← store (g_rx_payload_buffer s) (g_rx_payload_idx s) byte;
      let s := set_g_rx_payload_buffer buf s in
      let s := set_g_rx_payload_idx (u16 (g_rx_payload_idx s + 1)) s in
      let s := set_g_rx_checksum_calculated
                 (u8 (Z.lxor (g_rx_checksum_calculated s) byte)) s in
      if g_rx_payload_len s <=? g_rx_payload_idx s then
        Some (set_g_rx_state ARES_RX_STATE_WAIT_CHECKSUM s)
      else Some s
  | ARES_RX_STATE_WAIT_CHECKSUM =>
      if byte =? g_rx_checksum_calculated s then
        Some (set_g_rx_state ARES_RX_STATE_WAIT_EOP s)
      else
        let s := queue_ack_response (g_rx_cmd s) ARES_STATUS_ERROR_CHECKSUM s in
        Some (set_g_rx_state ARES_RX_STATE_WAIT_SOP s)
  | ARES_RX_STATE_WAIT_EOP =>
      s ← (if byte =? ARESPLOT_EOP then process_received_frame s else Some s);
      Some (set_g_rx_state ARES_RX_STATE_WAIT_SOP s)
  end.

Definition aresplot_rx_feed_packet (data : list Z) (length : Z) (s : world)
    : option world :=
  for_loop (Z.to_nat length) 0
    (fun i s => b ← load data i; aresplot_rx_feed_byte b s) s.

End Engine.

(** ** Sampling and the periodic service *)

(** The value sent for one table entry: the body of the sampling loop
    (NULL test, then the switch over the declared type), as a float
    pattern. *)
Definition temp_float_val_of (m : Z -> Z) (v : aresplot_var_info_t) : Z :=
  if ptr v =? 0 then F32_ZERO
  else if type v =? ARES_TYPE_INT8 then
    float_of_int (sint 8 (read_u8 m (ptr v)))
  else if type v =? ARES_TYPE_UINT8 then float_of_int (read_u8 m (ptr v))
  else if type v =? ARES_TYPE_INT16 then
    float_of_int (sint 16 (read_u16 m (ptr v)))
  else if type v =? ARES_TYPE_UINT16 then float_of_int (read_u16 m (ptr v))
  else if type v =? ARES_TYPE_INT32 then
    float_of_int (sint 32 (read_u32 m (ptr v)))
  else if type v =? ARES_TYPE_UINT32 then float_of_int (read_u32 m (ptr v))
  else if type v =? ARES_TYPE_FLOAT32 then read_u32 m (ptr v)
  else if type v =? ARES_TYPE_BOOL then
    (if negb (read_u8 m (ptr v) =? 0) then F32_ONE else F32_ZERO)
  else F32_ZERO.

(** [out[idx++] = b]. *)
Definition push_byte (b : Z) (st : list Z * Z) : option (list Z * Z) :=
  out ← store st.1 st.2 b; Some (out, u16 (st.2 + 1)).

(** The four bytes of a 32-bit pattern, lowest first, appended at the
    running index. *)
Definition push_le32 (x : Z) (st : list Z * Z) : option (list Z * Z) :=
  st ← push_byte (u8 (Z.land x 0xFF)) st;
  st ← push_byte (u8 (Z.land (Z.shiftr x 8) 0xFF)) st;
  st ← push_byte (u8 (Z.land (Z.shiftr x 16) 0xFF)) st;
  push_byte (u8 (Z.land (Z.shiftr x 24) 0xFF)) st.

(** Returns the output buffer and [*out_payload_len]. *)
Definition send_monitor_data_payload_assembly (out_payload_buffer : list Z)
    (s : world) : option (list Z * Z * world) :=
  let payload_idx := 0 in
  if (g_monitoring_active s =? 0) || (g_num_monitor_vars s =? 0) then
    Some (out_payload_buffer, 0, s)
  else
    let current_num_vars := g_num_monitor_vars s in
    local_monitor_vars ←
      for_loop (Z.to_nat current_num_vars) 0
        (fun i l => v ← load (g_monitor_vars s) i; store l i v)
        (replicate (Z.to_nat ARESPLOT_MAX_VARS_TO_MONITOR) (VarInfo 0 0));
    let '(timestamp, s) := aresplot_user_get_tick_ms s in
    st ← push_le32 timestamp (out_payload_buffer, payload_idx);
    st ← for_loop (Z.to_nat current_num_vars) 0
           (fun i st =>
              v ← load local_monitor_vars i;
              push_le32 (temp_float_val_of (memory s) v) st)
           st;
    Some (st.1, u16 (4 + current_num_vars * 4), s).

(** The elapsed time computed by the service, with the 32-bit
    arithmetic of the source written out. *)
Definition time_diff (current_time_ms last_sample : Z) : Z :=
  if last_sample <=? current_time_ms then u32 (current_time_ms - last_sample)
  else u32 (u32 (u32 (0xFFFFFFFF - last_sample) + current_time_ms) + 1).

(** The test that guards the sampling branch of the service. *)
Definition sample_due (current_time_ms last_sample sample_period : Z) : bool :=
  sample_period <=? time_diff current_time_ms last_sample.

Definition aresplot_service_tick (s : world) : option world :=
  let '(ack_cmd_to_process, status_to_process, process_ack, s) :=
    if negb (g_ack_pending s =? 0) then
      (g_ack_cmd_to_ack s, g_ack_status_to_send s, 1, set_g_ack_pending 0 s)
    else (0, ARES_STATUS_OK, 0, s) in
  s ← (if negb (process_ack =? 0) then
         let ack_payload := [ack_cmd_to_process;
                             u8 (status_code status_to_process)] in
         assemble_and_send_frame_internal ARESPLOT_CMD_ACK ack_payload 2 s
       else Some s);
  if negb (g_monitoring_active s =? 0) && (0 <? g_num_monitor_vars s) then
    let '(current_time_ms, s) := aresplot_user_get_tick_ms s in
    let last_sample := g_last_sample_time_ms s in
    let sample_period := g_sample_period_ms s in
    if sample_due current_time_ms last_sample sample_period then
      let monitor_data_payload :=
        replicate (Z.to_nat (4 + ARESPLOT_MAX_VARS_TO_MONITOR * 4)) 0 in
      '(monitor_data_payload, monitor_data_payload_len, s) ←
        send_monitor_data_payload_assembly monitor_data_payload s;
      s ← (if 0 <? monitor_data_payload_len then
             assemble_and_send_frame_internal ARESPLOT_CMD_MONITOR_DATA
               monitor_data_payload monitor_data_payload_len s
           else Some s);
      Some (set_g_last_sample_time_ms current_time_ms s)
    else Some s
  else Some s.

(** ** Runs of the engine *)

(** The state of the statics at start-up (C zero-initialises them),
    over a device memory and a tick source, before [aresplot_init]. *)
Definition zero_world (m : Z -> Z) (ticks : nat -> Z) : world :=
  World ARES_RX_STATE_WAIT_SOP
    (replicate (Z.to_nat ARESPLOT_SHARED_BUFFER_SIZE) 0) 0 0 0 0
    (replicate (Z.to_nat ARESPLOT_MAX_VARS_TO_MONITOR) (VarInfo 0 0)) 0 0 0 0
    (replicate (Z.to_nat ARESPLOT_SHARED_BUFFER_SIZE) 0) 0 0 ARES_STATUS_OK
    m ticks 0 [] [] [].

(** The declared sizes of the arrays. *)
Definition wf (s : world) : Prop :=
  Z.of_nat (length (g_rx_payload_buffer s)) = ARESPLOT_SHARED_BUFFER_SIZE /\
  Z.of_nat (length (g_tx_assembly_buffer s)) = ARESPLOT_SHARED_BUFFER_SIZE /\
  Z.of_nat (length (g_monitor_vars s)) = ARESPLOT_MAX_VARS_TO_MONITOR.

Section Runs.

Variable cast_out_of_range : Z -> Z -> Z.

(** Feeding the bytes of a list one by one. *)
Fixpoint feed_bytes (bytes : list Z) (s : world) : option world :=
  match bytes with
  | [] => Some s
  | b :: rest =>
      s' ← aresplot_rx_feed_byte cast_out_of_range b s; feed_bytes rest s'
  end.

(** The calls the collaborators make into the engine after start-up. *)
Inductive api_call : Type :=
  | FeedByte (byte : Z)
  | ServiceTick.

Definition api_step (c : api_call) (s : world) : option world :=
  match c with
  | FeedByte b => aresplot_rx_feed_byte cast_out_of_range (u8 b) s
  | ServiceTick => aresplot_service_tick s
  end.

Fixpoint run (calls : list api_call) (s : world) : option world :=
  match calls with
  | [] => Some s
  | c :: rest => s' ← api_step c s; run rest s'
  end.

End Runs.

(** ** The wire format

    [SOP | CMD | LEN (2, little-endian) | PAYLOAD | CHECKSUM | EOP], with
    the checksum the XOR of the command byte, the two length bytes and
    the payload bytes. *)

(** The running XOR of a list of bytes, from an initial byte. *)
Definition xor_fold (c : Z) (bs : list Z) : Z :=
  foldl (fun c b => u8 (Z.lxor c b)) c bs.

Definition frame_checksum (cmd : Z) (payload : list Z) : Z :=
  let len := Z.of_nat (length payload) in
  xor_fold
    (u8 (Z.lxor (u8 (Z.lxor (u8 (Z.lxor 0 cmd)) (u8 (Z.land len 0xFF))))
           (u8 (Z.land (Z.shiftr len 8) 0xFF))))
    payload.

Definition frame_of (cmd : Z) (payload : list Z) : list Z :=
  let len := Z.of_nat (length payload) in
  [ARESPLOT_SOP; cmd; u8 (Z.land len 0xFF); u8 (Z.land (Z.shiftr len 8) 0xFF)]
  ++ payload ++ [frame_checksum cmd payload; ARESPLOT_EOP].

(** ** Vocabulary of the statements *)

(** The array [a] with the bytes [bs] written from index [i] on. *)
Definition write_at {A : Type} (a : list A) (i : nat) (bs : list A) : list A :=
  take i a ++ bs ++ drop (i + length bs) a.

(** Everything of a world but the transmit buffer and the packets sent. *)
Definition with_tx (buf : list Z) (pkts : list (list Z)) (s : world) : world :=
  set_sent_packets pkts (set_g_tx_assembly_buffer buf s).

(** The receiver's variables are the same in both worlds. *)
Definition same_rx (s s' : world) : Prop :=
  g_rx_state s' = g_rx_state s /\
  g_rx_payload_buffer s' = g_rx_payload_buffer s /\
  g_rx_payload_len s' = g_rx_payload_len s /\
  g_rx_payload_idx s' = g_rx_payload_idx s /\
  g_rx_cmd s' = g_rx_cmd s /\
  g_rx_checksum_calculated s' = g_rx_checksum_calculated s.

(** What a handler leaves behind: array sizes, receiver variables,
    dispatch log and transport untouched, a table count within the
    capacity, exactly one acknowledgement queued for [cmd]. *)
Definition handled (cmd : Z) (s s' : world) : Prop :=
  wf s' /\ same_rx s s' /\
  log_dispatched s' = log_dispatched s /\
  sent_packets s' = sent_packets s /\
  (g_num_monitor_vars s <= ARESPLOT_MAX_VARS_TO_MONITOR ->
   g_num_monitor_vars s' <= ARESPLOT_MAX_VARS_TO_MONITOR) /\
  exists status,
    log_acks s' = log_acks s ++ [(cmd, status)] /\
    g_ack_pending s' = 1 /\ g_ack_cmd_to_ack s' = cmd /\
    g_ack_status_to_send s' = status.

(** A world with the receiver's six variables replaced. *)
Definition rx_upd (st : aresplot_rx_state_t) (buf : list Z)
    (len idx cmd cks : Z) (s : world) : world :=
  set_g_rx_state st (set_g_rx_payload_buffer buf (set_g_rx_payload_len len
    (set_g_rx_payload_idx idx (set_g_rx_cmd cmd
      (set_g_rx_checksum_calculated cks s))))).

(** The checksum accumulated over the command and length bytes. *)
Definition header_checksum (cmd lo hi : Z) : Z :=
  u8 (Z.lxor (u8 (Z.lxor (u8 (Z.lxor 0 cmd)) lo)) hi).

(** The header of the frame of [cmd] with a payload of [n] bytes. *)
Definition frame_header (cmd : Z) (n : nat) : list Z :=
  [ARESPLOT_SOP; cmd; u8 (Z.land (Z.of_nat n) 0xFF);
   u8 (Z.land (Z.shiftr (Z.of_nat n) 8) 0xFF)].

(** The checksum the receiver has accumulated after the header of a
    frame and a payload [bs] of the declared length. *)
Definition received_checksum (cmd : Z) (bs : list Z) : Z :=
  xor_fold (header_checksum cmd (Z.of_nat (length bs)) 0) bs.

(** The receiver's bounds: while payload bytes are awaited the write
    index is below the declared length, and from AwaitPayload to
    AwaitEnd the declared length is within the buffer capacity. *)
Definition rx_inv (s : world) : Prop :=
  match g_rx_state s with
  | ARES_RX_STATE_WAIT_PAYLOAD =>
      0 <= g_rx_payload_idx s < g_rx_payload_len s /\
      g_rx_payload_len s <= ARESPLOT_SHARED_BUFFER_SIZE
  | ARES_RX_STATE_WAIT_CHECKSUM | ARES_RX_STATE_WAIT_EOP =>
      0 <= g_rx_payload_len s <= ARESPLOT_SHARED_BUFFER_SIZE
  | _ => True
  end.

(** The invariant of the engine: array sizes, receiver bounds, a table
    count within the capacity, and every dispatched payload within the
    buffer capacity. *)
Definition inv (s : world) : Prop :=
  wf s /\ rx_inv s /\
  g_num_monitor_vars s <= ARESPLOT_MAX_VARS_TO_MONITOR /\
  Forall (fun e : Z * list Z =>
            Z.of_nat (length e.2) <= ARESPLOT_SHARED_BUFFER_SIZE)
    (log_dispatched s).

(** The engine after start-up: zeroed statics, then [aresplot_init]. *)
Definition power_on (m : Z -> Z) (ticks : nat -> Z) : world :=
  aresplot_init (zero_world m ticks).

(** The four bytes of a 32-bit pattern, lowest first. *)
Definition le32_bytes (x : Z) : list Z :=
  [u8 (Z.land x 0xFF); u8 (Z.land (Z.shiftr x 8) 0xFF);
   u8 (Z.land (Z.shiftr x 16) 0xFF); u8 (Z.land (Z.shiftr x 24) 0xFF)].

(** The payload of a data frame: the timestamp, then one float per
    table entry. *)
Definition monitor_payload (timestamp : Z) (m : Z -> Z)
    (vars : list aresplot_var_info_t) : list Z :=
  le32_bytes timestamp
  ++ flat_map (fun v => le32_bytes (temp_float_val_of m v)) vars.

(** The acknowledgement frame for a command id and a status. *)
Definition ack_frame (cmd : Z) (status : aresplot_ack_status_t) : list Z :=
  frame_of ARESPLOT_CMD_ACK [cmd; u8 (status_code status)].

(** Whether a service call made in [s] takes a sample. *)
Definition samples (s : world) : bool :=
  negb (g_monitoring_active s =? 0) && (0 <? g_num_monitor_vars s)
  && sample_due (u32 (tick_source s (tick_reads s)))
       (g_last_sample_time_ms s) (g_sample_period_ms s).

(** The data frame sent by a service call made in [s] that samples:
    the payload carries the second tick read by the call. *)
Definition data_frame (s : world) : list Z :=
  frame_of ARESPLOT_CMD_MONITOR_DATA
    (monitor_payload (u32 (tick_source s (S (tick_reads s)))) (memory s)
       (take (Z.to_nat (g_num_monitor_vars s)) (g_monitor_vars s))).

(** The packets a service call made in [s] hands to the transport. *)
Definition service_packets (s : world) : list (list Z) :=
  (if g_ack_pending s =? 0 then []
   else [ack_frame (g_ack_cmd_to_ack s) (g_ack_status_to_send s)])
  ++ (if samples s then [data_frame s] else []).

(** The two parts of [aresplot_service_tick]: draining the
    acknowledgement slot, then the sample scheduler. *)
Definition service_ack_part (s : world) : option world :=
  let '(ack_cmd_to_process, status_to_process, process_ack, s) :=
    if negb (g_ack_pending s =? 0) then
      (g_ack_cmd_to_ack s, g_ack_status_to_send s, 1, set_g_ack_pending 0 s)
    else (0, ARES_STATUS_OK, 0, s) in
  if negb (process_ack =? 0) then
    let ack_payload := [ack_cmd_to_process;
                        u8 (status_code status_to_process)] in
    assemble_and_send_frame_internal ARESPLOT_CMD_ACK ack_payload 2 s
  else Some s.

Definition service_sample_part (s : world) : option world :=
  if negb (g_monitoring_active s =? 0) && (0 <? g_num_monitor_vars s) then
    let '(current_time_ms, s) := aresplot_user_get_tick_ms s in
    let last_sample := g_last_sample_time_ms s in
    let sample_period := g_sample_period_ms s in
    if sample_due current_time_ms last_sample sample_period then
      let monitor_data_payload :=
        replicate (Z.to_nat (4 + ARESPLOT_MAX_VARS_TO_MONITOR * 4)) 0 in
      '(monitor_data_payload, monitor_data_payload_len, s) ←
        send_monitor_data_payload_assembly monitor_data_payload s;
      s ← (if 0 <? monitor_data_payload_len then
             assemble_and_send_frame_internal ARESPLOT_CMD_MONITOR_DATA
               monitor_data_payload monitor_data_payload_len s
           else Some s);
      Some (set_g_last_sample_time_ms current_time_ms s)
    else Some s
  else Some s.

(** The content of the acknowledgement slot. *)
Definition pending_ack (s : world) : option (Z * aresplot_ack_status_t) :=
  if g_ack_pending s =? 0 then None
  else Some (g_ack_cmd_to_ack s, g_ack_status_to_send s).

(** The slot after the acknowledgements [acks] have been queued in
    turn on a slot holding [p]. *)
Definition slot_after (p : option (Z * aresplot_ack_status_t))
    (acks : list (Z * aresplot_ack_status_t))
    : option (Z * aresplot_ack_status_t) :=
  match last acks with
  | Some a => Some a
  | None => p
  end.

(** The type tags that [handle_cmd_set_variable] has a conversion case
    for. *)
Definition settable_type (ty : Z) : bool :=
  (ty =? ARES_TYPE_INT8) || (ty =? ARES_TYPE_UINT8) ||
  (ty =? ARES_TYPE_INT16) || (ty =? ARES_TYPE_UINT16) ||
  (ty =? ARES_TYPE_INT32) || (ty =? ARES_TYPE_UINT32) ||
  (ty =? ARES_TYPE_FLOAT32) || (ty =? ARES_TYPE_BOOL).

(** The size in bytes of the object a type tag declares. *)
Definition type_size (ty : Z) : Z :=
  if (ty =? ARES_TYPE_INT8) || (ty =? ARES_TYPE_UINT8) || (ty =? ARES_TYPE_BOOL)
  then 1
  else if (ty =? ARES_TYPE_INT16) || (ty =? ARES_TYPE_UINT16) then 2
  else if (ty =? ARES_TYPE_INT32) || (ty =? ARES_TYPE_UINT32)
          || (ty =? ARES_TYPE_FLOAT32) then 4
  else if ty =? ARES_TYPE_FLOAT64 then 8
  else 0.

(** The range of the C type of an integer type tag. *)
Definition int_range (ty : Z) : option (Z * Z) :=
  if ty =? ARES_TYPE_INT8 then Some (-128, 127)
  else if ty =? ARES_TYPE_UINT8 then Some (0, 255)
  else if ty =? ARES_TYPE_INT16 then Some (-32768, 32767)
  else if ty =? ARES_TYPE_UINT16 then Some (0, 65535)
  else if ty =? ARES_TYPE_INT32 then Some (-2147483648, 2147483647)
  else if ty =? ARES_TYPE_UINT32 then Some (0, 4294967295)
  else None.

(** ** The IEEE-754 reading of a binary32 pattern

    Written from the format, with no reference to the conversions of
    the engine: bit 31 is the sign, bits 30..23 the biased exponent
    [e], bits 22..0 the fraction [f]. A pattern with [e < 255] denotes
    the number [(-1)^sign * significand * 2^(max e 1 - 150)], where
    the significand is [f] for [e = 0] and [2^23 + f] otherwise; a
    pattern with [e = 255] is an infinity or a NaN. *)

Definition ieee754_exponent (bits : Z) : Z := (bits / 2 ^ 23) mod 2 ^ 8.

Definition ieee754_fraction (bits : Z) : Z := bits mod 2 ^ 23.

Definition ieee754_negative (bits : Z) : bool := 2 ^ 31 <=? bits mod 2 ^ 32.

Definition ieee754_significand (bits : Z) : Z :=
  if ieee754_exponent bits =? 0 then ieee754_fraction bits
  else 2 ^ 23 + ieee754_fraction bits.

(** [z] is the number truncated toward zero: the pattern denotes a
    number, [|z| <= |number| < |z| + 1] (both sides scaled by 2^150),
    and [z], when it is not 0, has the sign of the number. *)
Definition ieee754_truncates_to (bits z : Z) : bool :=
  let scaled :=
    ieee754_significand bits * 2 ^ Z.max (ieee754_exponent bits) 1 in
  (ieee754_exponent bits <? 255) &&
  (Z.abs z * 2 ^ 150 <=? scaled) && (scaled <? (Z.abs z + 1) * 2 ^ 150) &&
  ((z =? 0) || Bool.eqb (z <? 0) (ieee754_negative bits)).

(** The pattern is +0.0 or -0.0. *)
Definition ieee754_is_zero (bits : Z) : bool :=
  (ieee754_exponent bits =? 0) && (ieee754_fraction bits =? 0).

(** The object of [n] bytes at an address, as a little-endian number. *)
Fixpoint read_le (m : Z -> Z) (a : Z) (n : nat) : Z :=
  match n with
  | O => 0
  | S n' => read_u8 m a + 256 * read_le m (a + 1) n'
  end.

Section Conversions.

Variable cast_out_of_range : Z -> Z -> Z.

(** The representation, in the declared type, of the float a
    set-variable command carries: the two's complement pattern of the
    truncated value for an integer type, the float pattern itself for
    a 32-bit float, 1 or 0 for a boolean. *)
Definition converted_pattern (ty float_val : Z) : Z :=
  if ty =? ARES_TYPE_INT8 then
    cast_float cast_out_of_range ARES_TYPE_INT8 (-128) 127 float_val mod 2 ^ 8
  else if ty =? ARES_TYPE_UINT8 then
    cast_float cast_out_of_range ARES_TYPE_UINT8 0 255 float_val mod 2 ^ 8
  else if ty =? ARES_TYPE_INT16 then
    cast_float cast_out_of_range ARES_TYPE_INT16 (-32768) 32767 float_val
    mod 2 ^ 16
  else if ty =? ARES_TYPE_UINT16 then
    cast_float cast_out_of_range ARES_TYPE_UINT16 0 65535 float_val mod 2 ^ 16
  else if ty =? ARES_TYPE_INT32 then
    cast_float cast_out_of_range ARES_TYPE_INT32 (-2147483648) 2147483647
      float_val mod 2 ^ 32
  else if ty =? ARES_TYPE_UINT32 then
    cast_float cast_out_of_range ARES_TYPE_UINT32 0 4294967295 float_val
    mod 2 ^ 32
  else if ty =? ARES_TYPE_FLOAT32 then float_val mod 2 ^ 32
  else if float_is_nonzero float_val then 1 else 0.

End Conversions.

(** The table as the service sees it: the active flag, the count, and
    the entries below the count. *)
Definition table_state (s : world) : Z * Z * list aresplot_var_info_t :=
  (g_monitoring_active s, g_num_monitor_vars s,
   take (Z.to_nat (g_num_monitor_vars s)) (g_monitor_vars s)).

(** The status a start-monitor frame without payload is acknowledged
    with, as a function of the byte found at the start of the receive
    buffer. *)
Definition residual_status (residual : Z) : aresplot_ack_status_t :=
  if residual =? 0 then ARES_STATUS_OK
  else if ARESPLOT_MAX_VARS_TO_MONITOR <? residual then
    ARES_STATUS_ERROR_MCU_BUSY_OR_LIMIT
  else ARES_STATUS_ERROR_INVALID_PAYLOAD.

(** ** The sampling rule in the words of the specification

    "Each entry is read according to its declared type and widened to
    a 32-bit float (NULL/zero address yields 0.0)", the declared type
    being "one of: signed/unsigned 8/16/32-bit integer, 32-bit float,
    64-bit float treated as 32-bit on the wire, boolean". *)

Definition decode_f64 (x : Z) : spec_float :=
  let s := Z.testbit x 63 in
  let e := Z.land (Z.shiftr x 52) 0x7FF in
  let m := Z.land x 0xFFFFFFFFFFFFF in
  if e =? 0 then
    if m =? 0 then S754_zero s else S754_finite s (Z.to_pos m) (-1074)
  else if e =? 0x7FF then
    if m =? 0 then S754_infinity s else S754_nan
  else S754_finite s (Z.to_pos (m + 0x10000000000000)) (e - 1075).

(** [(float)d] for a double [d]: rounding to nearest, ties to even. *)
Definition f32_of_f64 (x : Z) : Z :=
  encode_f32
    (match decode_f64 x with
     | S754_finite s m e => binary_normalize 24 128 (cond_Zopp s (Zpos m)) e s
     | f => f
     end).

(** The type tags of the data model. *)
Definition data_model_tag (ty : Z) : bool :=
  (ARES_TYPE_INT8 <=? ty) && (ty <=? ARES_TYPE_BOOL).

(** The float the specification asks for. *)
Definition spec_sample_value (m : Z -> Z) (v : aresplot_var_info_t) : Z :=
  if ptr v =? 0 then F32_ZERO
  else if type v =? ARES_TYPE_INT8 then
    float_of_int (sint 8 (read_le m (ptr v) 1))
  else if type v =? ARES_TYPE_UINT8 then float_of_int (read_le m (ptr v) 1)
  else if type v =? ARES_TYPE_INT16 then
    float_of_int (sint 16 (read_le m (ptr v) 2))
  else if type v =? ARES_TYPE_UINT16 then float_of_int (read_le m (ptr v) 2)
  else if type v =? ARES_TYPE_INT32 then
    float_of_int (sint 32 (read_le m (ptr v) 4))
  else if type v =? ARES_TYPE_UINT32 then float_of_int (read_le m (ptr v) 4)
  else if type v =? ARES_TYPE_FLOAT32 then read_le m (ptr v) 4
  else if type v =? ARES_TYPE_FLOAT64 then f32_of_f64 (read_le m (ptr v) 8)
  else if type v =? ARES_TYPE_BOOL then
    (if read_le m (ptr v) 1 =? 0 then F32_ZERO else F32_ONE)
  else F32_ZERO.

(** ** A device with one monitored double *)

(** A memory holding the double 1.0 (0x3FF0000000000000) at address
    0x20000000, and zeros elsewhere. *)
Definition memory_with_double_one : Z -> Z :=
  fun a => if a =? 0x20000006 then 0xF0
           else if a =? 0x20000007 then 0x3F else 0.

(** The start-monitor payload that declares one variable: the double
    at 0x20000000. *)
Definition monitor_one_double : list Z :=
  [1; 0x00; 0x00; 0x00; 0x20; ARES_TYPE_FLOAT64].

(** ** Concrete devices, for the examples *)

(** A target on which an out-of-range conversion yields 0. *)
Definition cast_to_zero (ty float_val : Z) : Z := 0.

(** A device just started, with a zeroed memory and a tick stuck at 0. *)
Definition idle_device : world := power_on (fun _ => 0) (fun _ => 0).

(** The state a run of received bytes leads to ([s] itself if the run
    fails). *)
Definition after_bytes (bytes : list Z) (s : world) : world :=
  default s (feed_bytes cast_to_zero bytes s).

(** A device holding a received payload in its buffer. *)
Definition holding_payload (payload : list Z) : world :=
  set_g_rx_payload_len (Z.of_nat (length payload))
    (set_g_rx_payload_buffer
       (write_at (g_rx_payload_buffer idle_device) 0 payload) idle_device).

(** A device monitoring one variable, last sampled 5 ms before the
    tick wraps around, now at tick 10, with a period of 10 ms. *)
Definition device_at_wraparound : world :=
  set_g_last_sample_time_ms (0xFFFFFFFF - 5)
    (set_g_sample_period_ms 10
       (set_g_monitoring_active 1
          (set_g_num_monitor_vars 1 (power_on (fun _ => 0) (fun _ => 10))))).

(** Tactics for the examples: a list of bytes, the array sizes of a
    concrete device. *)
Ltac bytes_ok :=
  repeat (apply List.Forall_cons; [unfold is_u8; lia|]); apply List.Forall_nil.

Ltac sizes_ok := unfold wf; repeat split; vm_compute; reflexivity.

(** ** Vocabulary of the further properties *)

(** The number of filler bytes [b] left to feed, from a length field
    whose low byte is [lo], before the receiver awaits a start marker
    again: the high byte itself, then the payload the two bytes
    declare, the checksum and the end marker. *)
Definition filler_after_length (b lo : Z) : Z :=
  let len := u16 (Z.lor lo (u16 (Z.shiftl b 8))) in
  if ARESPLOT_SHARED_BUFFER_SIZE <? len then 1
  else if len =? 0 then 3
  else len + 3.

(** An upper bound on the number of filler bytes [b] that bring the
    receiver back to AwaitStart. *)
Definition resync_distance (b : Z) (s : world) : Z :=
  match g_rx_state s with
  | ARES_RX_STATE_WAIT_SOP => 0
  | ARES_RX_STATE_WAIT_CMD => 2 + filler_after_length b b
  | ARES_RX_STATE_WAIT_LEN1 => 1 + filler_after_length b b
  | ARES_RX_STATE_WAIT_LEN2 => filler_after_length b (g_rx_payload_len s)
  | ARES_RX_STATE_WAIT_PAYLOAD => g_rx_payload_len s - g_rx_payload_idx s + 2
  | ARES_RX_STATE_WAIT_CHECKSUM => 2
  | ARES_RX_STATE_WAIT_EOP => 1
  end.

(** The table, the sample clock, the device memory, the tick and the
    transport are the same in both worlds. *)
Definition untouched (s s' : world) : Prop :=
  g_monitor_vars s' = g_monitor_vars s /\
  g_num_monitor_vars s' = g_num_monitor_vars s /\
  g_monitoring_active s' = g_monitoring_active s /\
  g_sample_period_ms s' = g_sample_period_ms s /\
  g_last_sample_time_ms s' = g_last_sample_time_ms s /\
  memory s' = memory s /\
  tick_reads s' = tick_reads s /\
  sent_packets s' = sent_packets s.

(** The acknowledgement slot holds [(cmd, status)], queued last. *)
Definition acknowledged (cmd : Z) (status : aresplot_ack_status_t)
    (s s' : world) : Prop :=
  log_acks s' = log_acks s ++ [(cmd, status)] /\
  g_ack_pending s' = 1 /\ g_ack_cmd_to_ack s' = cmd /\
  g_ack_status_to_send s' = status.

(** The [i]-th variable a start-monitor payload declares: a 4-byte
    little-endian address and a type byte, after the count byte. *)
Definition declared_var (payload : list Z) (i : nat)
    : option aresplot_var_info_t :=
  temp_addr ← load_le32 payload (1 + Z.of_nat i * 5);
  ty ← load payload (1 + Z.of_nat i * 5 + 4);
  Some (VarInfo temp_addr ty).

(** Monitoring is off with an empty table count; the table entries,
    the sample clock, the device memory, the tick and the transport
    are as in [s]. *)
Definition monitoring_stopped (s s' : world) : Prop :=
  g_num_monitor_vars s' = 0 /\ g_monitoring_active s' = 0 /\
  g_monitor_vars s' = g_monitor_vars s /\
  g_sample_period_ms s' = g_sample_period_ms s /\
  g_last_sample_time_ms s' = g_last_sample_time_ms s /\
  memory s' = memory s /\
  tick_reads s' = tick_reads s /\
  sent_packets s' = sent_packets s.

(** The number of times a service call made in [s] reads the tick:
    once to decide whether a sample is due, and once more for the
    timestamp of the data frame. *)
Definition clock_reads (s : world) : nat :=
  if negb (g_monitoring_active s =? 0) && (0 <? g_num_monitor_vars s) then
    if samples s then 2%nat else 1%nat
  else 0%nat.

(** The packets the engine hands to the transport: acknowledgement
    frames, and data frames for 1 to 10 variables. *)
Definition engine_packet (p : list Z) : Prop :=
  (exists cmd status, p = ack_frame cmd status) \/
  (exists timestamp m vars,
     (1 <= length vars)%nat /\
     Z.of_nat (length vars) <= ARESPLOT_MAX_VARS_TO_MONITOR /\
     p = frame_of ARESPLOT_CMD_MONITOR_DATA
           (monitor_payload timestamp m vars)).

(** A sequence of [aresplot_rx_feed_packet] calls, one per packet,
    each with the length of its packet. *)
Fixpoint feed_packets (cast_out_of_range : Z -> Z -> Z)
    (packets : list (list Z)) (s : world) : option world :=
  match packets with
  | [] => Some s
  | p :: rest =>
      s' ← aresplot_rx_feed_packet cast_out_of_range p (Z.of_nat (length p)) s;
      feed_packets cast_out_of_range rest s'
  end.

(** The payload of a set-variable command: address, type tag, float
    pattern. *)
Definition set_variable_payload (addr ty float_val : Z) : list Z :=
  le32_bytes addr ++ ty :: le32_bytes float_val.

(** * Properties *)

(** ** Bytes and the XOR checksum *)

Lemma u8_id (x : Z) : is_u8 x -> u8 x = x.
Proof. intros H. unfold u8. apply Z.mod_small. exact H. Qed.

Lemma is_u8_u8 (x : Z) : is_u8 (u8 x).
Proof. unfold is_u8, u8. apply Z.mod_pos_bound. lia. Qed.

Lemma lxor_is_u8 (a b : Z) : is_u8 a -> is_u8 b -> is_u8 (Z.lxor a b).
Proof.
  unfold is_u8. intros [Ha0 Ha] [Hb0 Hb].
  assert (H0 : 0 <= Z.lxor a b) by (apply Z.lxor_nonneg; lia).
  split; [exact H0|].
  destruct (Z.eq_dec (Z.lxor a b) 0) as [->|Hnz]; [lia|].
  apply (Z.log2_lt_pow2 _ 8); [lia|].
  eapply Z.le_lt_trans; [apply Z.log2_lxor; lia|].
  apply Z.max_lub_lt.
  - destruct (Z.eq_dec a 0) as [->|]; [simpl; lia|].
    apply Z.log2_lt_pow2; lia.
  - destruct (Z.eq_dec b 0) as [->|]; [simpl; lia|].
    apply Z.log2_lt_pow2; lia.
Qed.

Lemma xor8_bytes (a b : Z) : is_u8 a -> is_u8 b -> u8 (Z.lxor a b) = Z.lxor a b.
Proof. intros Ha Hb. apply u8_id, lxor_is_u8; assumption. Qed.

Lemma xor_fold_is_u8 (bs : list Z) (c : Z) : is_u8 c -> is_u8 (xor_fold c bs).
Proof.
  revert c. induction bs as [|b bs IH]; intros c Hc; simpl; [exact Hc|].
  apply IH, is_u8_u8.
Qed.

Lemma xor_fold_bytes (bs : list Z) (c : Z) :
  is_u8 c -> Forall is_u8 bs -> xor_fold c bs = Z.lxor c (xor_fold 0 bs).
Proof.
  revert c. induction bs as [|b bs IH]; intros c Hc Hbs; simpl.
  - now rewrite Z.lxor_0_r.
  - inversion Hbs as [|? ? Hb Hbs']; subst.
    rewrite (IH (u8 (Z.lxor c b))) by (auto using is_u8_u8).
    rewrite (IH (u8 (Z.lxor 0 b))) by (auto using is_u8_u8).
    rewrite !xor8_bytes by (auto; unfold is_u8; lia).
    rewrite Z.lxor_0_l. now rewrite Z.lxor_assoc.
Qed.

(** ** Arrays *)

Lemma load_Some {A : Type} (a : list A) (i : nat) (x : A) :
  a !! i = Some x -> load a (Z.of_nat i) = Some x.
Proof.
  intros H. unfold load. pose proof (lookup_lt_Some _ _ _ H) as Hlt.
  rewrite Nat2Z.id.
  destruct (0 <=? Z.of_nat i) eqn:E1; [|lia].
  destruct (Z.of_nat i <? Z.of_nat (length a)) eqn:E2; [|lia].
  exact H.
Qed.

Lemma load_in_range {A : Type} (a : list A) (i : Z) :
  0 <= i < Z.of_nat (length a) -> exists x, load a i = Some x.
Proof.
  intros H. unfold load.
  destruct (0 <=? i) eqn:E1; [|lia].
  destruct (i <? Z.of_nat (length a)) eqn:E2; [|lia]. simpl.
  apply lookup_lt_is_Some_2. lia.
Qed.

Lemma store_in_range {A : Type} (a : list A) (i : nat) (v : A) :
  (i < length a)%nat -> store a (Z.of_nat i) v = Some (write_at a i [v]).
Proof.
  intros H. unfold store, write_at.
  destruct (0 <=? Z.of_nat i) eqn:E1; [|lia].
  destruct (Z.of_nat i <? Z.of_nat (length a)) eqn:E2; [|lia]. simpl.
  rewrite Nat2Z.id. f_equal.
  rewrite insert_take_drop by exact H. simpl.
  now replace (i + 1)%nat with (S i) by lia.
Qed.

Lemma store_length {A : Type} (a a' : list A) (i : Z) (v : A) :
  store a i v = Some a' -> length a' = length a /\ 0 <= i < Z.of_nat (length a).
Proof.
  unfold store. intros H.
  destruct (0 <=? i) eqn:E1; [|discriminate].
  destruct (i <? Z.of_nat (length a)) eqn:E2; [|discriminate].
  simpl in H. injection H as <-. rewrite length_insert. lia.
Qed.

Lemma length_write_at {A : Type} (a : list A) (i : nat) (bs : list A) :
  (i + length bs <= length a)%nat -> length (write_at a i bs) = length a.
Proof.
  intros H. unfold write_at.
  rewrite !length_app, length_take, length_drop. lia.
Qed.

Lemma write_at_step {A : Type} (a : list A) (i : nat) (b : A) (bs : list A) :
  (i + S (length bs) <= length a)%nat ->
  write_at (write_at a i [b]) (S i) bs = write_at a i (b :: bs).
Proof.
  intros H. unfold write_at. simpl.
  rewrite take_app_ge by (rewrite length_take; lia).
  rewrite length_take, Nat.min_l by lia.
  replace (S i - i)%nat with 1%nat by lia. simpl. rewrite take_0.
  rewrite <- app_assoc. simpl. f_equal. f_equal. f_equal.
  rewrite (drop_app_ge (take i a)) by (rewrite length_take; lia).
  rewrite length_take, Nat.min_l by lia.
  replace (S (i + length bs) - i)%nat with (S (length bs)) by lia. simpl.
  rewrite drop_drop. f_equal. lia.
Qed.

Lemma take_write_at_0 {A : Type} (a : list A) (bs : list A) :
  take (length bs) (write_at a 0 bs) = bs.
Proof.
  unfold write_at. rewrite take_0. simpl.
  now rewrite take_app_length.
Qed.
(** ** Loops *)

(** Invariant rule for [for_loop]. *)
Lemma for_loop_inv {A : Type} (P : Z -> A -> Prop) (body : Z -> A -> option A)
    (n : nat) (i : Z) (a : A) :
  P i a ->
  (forall j x, i <= j < i + Z.of_nat n -> P j x ->
     exists x', body j x = Some x' /\ P (j + 1) x') ->
  exists a', for_loop n i body a = Some a' /\ P (i + Z.of_nat n) a'.
Proof.
  revert i a. induction n as [|n IH]; intros i a HP Hstep.
  - exists a. simpl. split; [reflexivity|]. now rewrite Z.add_0_r.
  - destruct (Hstep i a) as (x' & Hb & HP'); [lia|exact HP|].
    destruct (IH (i + 1) x' HP') as (a' & Hl & HQ).
    + intros j x Hj. apply Hstep. lia.
    + exists a'. simpl. rewrite Hb. simpl. split; [exact Hl|].
      now replace (i + Z.of_nat (S n)) with (i + 1 + Z.of_nat n) by lia.
Qed.

Lemma memcpy_spec (dst src : list Z) (off : nat) :
  (off + length src <= length dst)%nat ->
  memcpy dst (Z.of_nat off) src (Z.of_nat (length src))
  = Some (write_at dst off src).
Proof.
  intros H. unfold memcpy. rewrite Nat2Z.id.
  destruct (for_loop_inv
    (fun j d => 0 <= j <= Z.of_nat (length src) /\
                d = write_at dst off (take (Z.to_nat j) src))
    (fun i d => b ← load src i; store d (Z.of_nat off + i) b)
    (length src) 0 dst) as (d' & Hl & _ & Hd).
  - split; [lia|]. unfold write_at. simpl. rewrite Nat.add_0_r.
    now rewrite take_drop.
  - intros j d Hj [_ ->].
    assert (Hk : j = Z.of_nat (Z.to_nat j)) by lia.
    set (k := Z.to_nat j) in *. clearbody k. subst j.
    destruct (lookup_lt_is_Some_2 src k) as [b Hb]; [lia|].
    exists (write_at dst off (take (S k) src)).
    rewrite (load_Some _ _ _ Hb). simpl.
    rewrite <- Nat2Z.inj_add.
    assert (Hlen : length (take k src) = k) by (rewrite length_take; lia).
    rewrite store_in_range
      by (rewrite length_write_at; rewrite ?Hlen; lia).
    replace (Z.to_nat (Z.of_nat k + 1)) with (S k) by lia.
    split; [|split; [lia|reflexivity]]. f_equal.
    rewrite (take_S_r _ _ _ Hb).
    unfold write_at. rewrite !length_app, !length_take. simpl.
    rewrite (take_app_ge (take off dst)) by (rewrite length_take; lia).
    rewrite take_app_ge by (rewrite !length_take; lia).
    rewrite !length_take.
    replace (off + k - off `min` length dst - k `min` length src)%nat
      with 0%nat by lia.
    rewrite take_0, app_nil_r.
    rewrite <- !app_assoc. f_equal. f_equal. simpl. f_equal.
    rewrite (drop_app_ge (take off dst)) by (rewrite length_take; lia).
    rewrite drop_app_ge by (rewrite !length_take; lia).
    rewrite !length_take, drop_drop. f_equal. lia.
  - rewrite Hl. f_equal. rewrite Hd.
    replace (Z.to_nat (0 + Z.of_nat (length src))) with (length src) by lia.
    now rewrite firstn_all.
Qed.

Lemma calculate_checksum_spec (cmd : Z) (payload : list Z) :
  calculate_checksum cmd (Z.of_nat (length payload)) payload
  = Some (frame_checksum cmd payload).
Proof.
  unfold calculate_checksum, frame_checksum. rewrite Nat2Z.id.
  set (c0 := u8 (Z.lxor (u8 (Z.lxor (u8 (Z.lxor 0 cmd)) _)) _)).
  destruct (for_loop_inv
    (fun j c => 0 <= j <= Z.of_nat (length payload) /\
                c = xor_fold c0 (take (Z.to_nat j) payload))
    (fun i checksum => b ← load payload i; Some (u8 (Z.lxor checksum b)))
    (length payload) 0 c0) as (c' & Hl & _ & Hc).
  - split; [lia|reflexivity].
  - intros j c Hj [_ ->].
    assert (Hk : j = Z.of_nat (Z.to_nat j)) by lia.
    set (k := Z.to_nat j) in *. clearbody k. subst j.
    destruct (lookup_lt_is_Some_2 payload k) as [b Hb]; [lia|].
    rewrite (load_Some _ _ _ Hb). simpl. eexists. split; [reflexivity|].
    split; [lia|].
    replace (Z.to_nat (Z.of_nat k + 1)) with (S k) by lia.
    rewrite (take_S_r _ _ _ Hb). unfold xor_fold. now rewrite foldl_app.
  - rewrite Hl, Hc.
    replace (Z.to_nat (0 + Z.of_nat (length payload))) with (length payload)
      by lia.
    now rewrite firstn_all.
Qed.

Lemma write_at_app {A : Type} (a : list A) (i : nat) (xs ys : list A) :
  (i + length xs + length ys <= length a)%nat ->
  write_at (write_at a i xs) (i + length xs) ys = write_at a i (xs ++ ys).
Proof.
  intros H. unfold write_at.
  rewrite (app_assoc (take i a) xs).
  rewrite take_app_length'.
  2:{ rewrite length_app, length_take. lia. }
  rewrite <- !app_assoc. f_equal. f_equal. f_equal.
  rewrite (app_assoc (take i a) xs).
  rewrite drop_app_ge by (rewrite length_app, length_take; lia).
  rewrite !length_app, length_take, drop_drop. f_equal. lia.
Qed.

Lemma write_at_nil {A : Type} (a : list A) : write_at a 0 [] = a.
Proof. reflexivity. Qed.

Lemma store_append (a pre : list Z) (v k : Z) :
  k = Z.of_nat (length pre) ->
  (length pre < length a)%nat ->
  store (write_at a 0 pre) k v = Some (write_at a 0 (pre ++ [v])).
Proof.
  intros -> H. rewrite store_in_range by (rewrite length_write_at; simpl; lia).
  f_equal. rewrite <- (write_at_app a 0 pre [v]) by (simpl; lia). reflexivity.
Qed.

Lemma memcpy_append (a pre src : list Z) (k : Z) :
  k = Z.of_nat (length pre) ->
  (length pre + length src <= length a)%nat ->
  memcpy (write_at a 0 pre) k src (Z.of_nat (length src))
  = Some (write_at a 0 (pre ++ src)).
Proof.
  intros -> H. rewrite memcpy_spec by (rewrite length_write_at; simpl; lia).
  f_equal. rewrite <- (write_at_app a 0 pre src) by (simpl; lia). reflexivity.
Qed.

Lemma assemble_and_send_frame_internal_spec (cmd : Z) (payload : list Z)
    (s : world) :
  Z.of_nat (length (g_tx_assembly_buffer s)) = ARESPLOT_SHARED_BUFFER_SIZE ->
  6 + Z.of_nat (length payload) <= ARESPLOT_SHARED_BUFFER_SIZE ->
  exists buf,
    assemble_and_send_frame_internal cmd payload (Z.of_nat (length payload)) s
    = Some (with_tx buf (sent_packets s ++ [frame_of cmd payload]) s) /\
    length buf = length (g_tx_assembly_buffer s).
Proof.
  unfold ARESPLOT_SHARED_BUFFER_SIZE. intros Hbuf Hlen.
  exists (write_at (g_tx_assembly_buffer s) 0 (frame_of cmd payload)).
  assert (Hfl : length (frame_of cmd payload) = (6 + length payload)%nat).
  { unfold frame_of. rewrite !length_app. simpl. lia. }
  split; [|apply length_write_at; rewrite Hfl; lia].
  unfold assemble_and_send_frame_internal.
  rewrite calculate_checksum_spec.
  set (len := Z.of_nat (length payload)) in *.
  set (lo := u8 (Z.land len 255)). set (hi := u8 (Z.land (Z.shiftr len 8) 255)).
  replace (u16 (1 + 1 + 2 + len + 1 + 1)) with (6 + len)
    by (unfold u16; rewrite Z.mod_small; lia).
  unfold ARESPLOT_SHARED_BUFFER_SIZE.
  destruct (128 <? 6 + len) eqn:E; [lia|]. clear E.
  set (b0 := g_tx_assembly_buffer s) in *.
  change (u16 (0 + 1)) with 1. change (u16 (1 + 1)) with 2.
  change (u16 (2 + 1)) with 3. change (u16 (3 + 1)) with 4.
  change (store b0 0 ARESPLOT_SOP) with (store (write_at b0 0 []) 0 ARESPLOT_SOP).
  rewrite (store_append b0 []) by (simpl; lia).
  simpl app. cbn [mbind option_bind].
  rewrite (store_append b0 [_]) by (simpl; lia).
  simpl app. cbn [mbind option_bind].
  rewrite (store_append b0 [_; _]) by (simpl; lia).
  simpl app. cbn [mbind option_bind].
  rewrite (store_append b0 [_; _; _]) by (simpl; lia).
  simpl app. cbn [mbind option_bind].
  set (hdr := [ARESPLOT_SOP; cmd; lo; hi]).
  assert (Hmid : (if 0 <? len
                  then buf ← memcpy (write_at b0 0 hdr) 4 payload len;
                       Some (buf, u16 (4 + len))
                  else Some (write_at b0 0 hdr, 4))
          = Some (write_at b0 0 (hdr ++ payload), 4 + len)).
  { destruct (0 <? len) eqn:E.
    - unfold len. rewrite memcpy_append by (simpl; lia).
      cbn [mbind option_bind]. f_equal. f_equal.
      unfold u16. rewrite Z.mod_small by (simpl; lia). lia.
    - assert (payload = []) as ->
        by (destruct payload; [reflexivity|simpl in *; lia]).
      now rewrite app_nil_r. }
  rewrite Hmid. cbn [mbind option_bind].
  rewrite store_append by (rewrite length_app; simpl; lia).
  cbn [mbind option_bind].
  rewrite store_append
    by (rewrite !length_app; unfold u16; try rewrite Z.mod_small; simpl; lia).
  cbn [mbind option_bind].
  unfold aresplot_user_send_packet, with_tx. f_equal.
  set (fr := ((hdr ++ payload) ++ [frame_checksum cmd payload]) ++ [ARESPLOT_EOP]).
  assert (Hfr : fr = frame_of cmd payload).
  { unfold fr, frame_of, hdr. fold len. fold lo. fold hi.
    rewrite <- !app_assoc. reflexivity. }
  replace (Z.to_nat (u16 (u16 (4 + len + 1) + 1))) with (length fr).
  2:{ unfold fr. rewrite !length_app. unfold u16.
      rewrite !Z.mod_small by (try rewrite Z.mod_small; lia). simpl. lia. }
  rewrite take_write_at_0. rewrite Hfr. reflexivity.
Qed.

(** ** Command handlers: success and footprint *)

Lemma handled_queue_ack (cmd : Z) (status : aresplot_ack_status_t)
    (s s0 : world) :
  wf s0 -> same_rx s s0 ->
  log_dispatched s0 = log_dispatched s ->
  sent_packets s0 = sent_packets s ->
  log_acks s0 = log_acks s ->
  (g_num_monitor_vars s <= ARESPLOT_MAX_VARS_TO_MONITOR ->
   g_num_monitor_vars s0 <= ARESPLOT_MAX_VARS_TO_MONITOR) ->
  handled cmd s (queue_ack_response cmd status s0).
Proof.
  intros Hwf Hrx Hlog Hsent Hacks Hnum. unfold handled.
  split; [exact Hwf|]. split; [exact Hrx|]. split; [exact Hlog|].
  split; [exact Hsent|]. split; [exact Hnum|].
  exists status. split; [|repeat split].
  cbn [log_acks queue_ack_response set_log_acks set_g_ack_pending
       set_g_ack_status_to_send set_g_ack_cmd_to_ack].
  now rewrite Hacks.
Qed.

Lemma same_rx_refl (s : world) : same_rx s s.
Proof. repeat split. Qed.

Lemma load_le32_in_range (p : list Z) (off : Z) :
  0 <= off -> off + 3 < Z.of_nat (length p) ->
  exists x, load_le32 p off = Some x.
Proof.
  intros H0 H1. unfold load_le32.
  destruct (load_in_range p off) as [b0 ->]; [lia|].
  destruct (load_in_range p (off + 1)) as [b1 ->]; [lia|].
  destruct (load_in_range p (off + 2)) as [b2 ->]; [lia|].
  destruct (load_in_range p (off + 3)) as [b3 ->]; [lia|].
  simpl. eauto.
Qed.

Lemma handle_cmd_start_monitor_handled (s : world) :
  wf s ->
  exists s', handle_cmd_start_monitor s = Some s' /\
             handled ARESPLOT_CMD_START_MONITOR s s'.
Proof.
  intros Hwf. pose proof Hwf as (Hrx & Htx & Hmv).
  unfold ARESPLOT_SHARED_BUFFER_SIZE, ARESPLOT_MAX_VARS_TO_MONITOR in *.
  unfold handle_cmd_start_monitor.
  destruct (load_in_range (g_rx_payload_buffer s) 0) as [n Hn]; [lia|].
  rewrite Hn. cbn [mbind option_bind].
  assert (Hearly : forall status,
    handled ARESPLOT_CMD_START_MONITOR s
      (queue_ack_response ARESPLOT_CMD_START_MONITOR status
         (set_g_num_monitor_vars 0 (set_g_monitoring_active 0 s)))).
  { intros status. apply handled_queue_ack; try reflexivity;
      [exact Hwf|repeat split|cbn; unfold ARESPLOT_MAX_VARS_TO_MONITOR; lia]. }
  destruct (n =? 0) eqn:E0.
  { cbn [mbind option_bind]. eexists. split; [reflexivity|]. apply Hearly. }
  unfold ARESPLOT_MAX_VARS_TO_MONITOR.
  destruct (Z.ltb_spec 10 n) as [E1|E1].
  { cbn [mbind option_bind]. eexists. split; [reflexivity|]. apply Hearly. }
  cbn [g_rx_payload_len set_g_num_monitor_vars set_g_monitoring_active].
  destruct (negb (g_rx_payload_len s =? 1 + n * 5)) eqn:E2.
  { cbn [mbind option_bind]. eexists. split; [reflexivity|]. apply Hearly. }
  cbn [g_num_monitor_vars g_rx_payload_buffer g_monitor_vars
       set_g_num_monitor_vars set_g_monitoring_active].
  destruct (for_loop_inv
    (fun (_ : Z) (vars : list aresplot_var_info_t) =>
       length vars = length (g_monitor_vars s))
    (fun i vars =>
       temp_addr ← load_le32 (g_rx_payload_buffer s) (1 + i * 5);
       ty ← load (g_rx_payload_buffer s) (1 + i * 5 + 4);
       store vars i (VarInfo temp_addr ty))
    (Z.to_nat n) 0 (g_monitor_vars s)) as (vars & Hl & Hlen).
  - reflexivity.
  - intros j x Hj Hx.
    destruct (load_le32_in_range (g_rx_payload_buffer s) (1 + j * 5))
      as [a ->]; [lia|lia|].
    destruct (load_in_range (g_rx_payload_buffer s) (1 + j * 5 + 4))
      as [t ->]; [lia|].
    cbn [mbind option_bind].
    replace j with (Z.of_nat (Z.to_nat j)) by lia.
    rewrite store_in_range by lia.
    eexists. split; [reflexivity|]. rewrite length_write_at; simpl; lia.
  - rewrite Hl. cbn [mbind option_bind]. eexists. split; [reflexivity|].
    apply (handled_queue_ack _ _ s
             (set_g_last_sample_time_ms _ (set_tick_reads _
                (set_g_monitoring_active 1 (set_g_monitor_vars vars
                   (set_g_num_monitor_vars n
                      (set_g_num_monitor_vars 0
                         (set_g_monitoring_active 0 s)))))))).
    + unfold wf. cbn. rewrite Hlen. auto.
    + repeat split.
    + reflexivity.
    + reflexivity.
    + reflexivity.
    + cbn. unfold ARESPLOT_MAX_VARS_TO_MONITOR. lia.
Qed.

Lemma handle_cmd_set_sample_rate_handled (s : world) :
  wf s ->
  exists s', handle_cmd_set_sample_rate s = Some s' /\
             handled ARESPLOT_CMD_SET_SAMPLE_RATE s s'.
Proof.
  intros Hwf. pose proof Hwf as (Hrx & Htx & Hmv).
  unfold ARESPLOT_SHARED_BUFFER_SIZE in *.
  unfold handle_cmd_set_sample_rate.
  destruct (negb (g_rx_payload_len s =? 4)).
  { eexists. split; [reflexivity|].
    apply handled_queue_ack; try reflexivity; [exact Hwf|repeat split|auto]. }
  destruct (load_le32_in_range (g_rx_payload_buffer s) 0) as [r ->];
    [lia|lia|].
  cbn [mbind option_bind]. eexists. split; [reflexivity|].
  destruct (r =? 0);
    (apply (handled_queue_ack _ _ s
              (set_g_last_sample_time_ms _ (set_tick_reads _
                 (set_g_sample_period_ms _ s))));
     [exact Hwf|repeat split|reflexivity|reflexivity|reflexivity|auto]).
Qed.

Section Handlers.

Variable cast_out_of_range : Z -> Z -> Z.

Lemma handle_cmd_set_variable_handled (s : world) :
  wf s ->
  exists s', handle_cmd_set_variable cast_out_of_range s = Some s' /\
             handled ARESPLOT_CMD_SET_VARIABLE s s'.
Proof.
  intros Hwf. pose proof Hwf as (Hrx & Htx & Hmv).
  unfold ARESPLOT_SHARED_BUFFER_SIZE in *.
  unfold handle_cmd_set_variable.
  destruct (negb (g_rx_payload_len s =? 9)).
  { eexists. split; [reflexivity|].
    apply handled_queue_ack; try reflexivity;
      [exact Hwf|repeat split|auto]. }
  destruct (load_le32_in_range (g_rx_payload_buffer s) 0) as [a ->];
    [lia|lia|].
  destruct (load_in_range (g_rx_payload_buffer s) 4) as [t ->]; [lia|].
  destruct (load_le32_in_range (g_rx_payload_buffer s) 5) as [f ->];
    [lia|lia|].
  cbn [mbind option_bind].
  assert (Hwr : forall m,
    handled ARESPLOT_CMD_SET_VARIABLE s
      (queue_ack_response ARESPLOT_CMD_SET_VARIABLE ARES_STATUS_OK
         (set_memory m s))).
  { intros m. apply handled_queue_ack; try reflexivity;
      [exact Hwf|repeat split|auto]. }
  repeat match goal with
  | |- context [if ?c then _ else _] =>
      destruct c; [eexists; split; [reflexivity|apply Hwr]|]
  end.
  eexists. split; [reflexivity|].
  apply handled_queue_ack; try reflexivity;
    [exact Hwf|repeat split|auto].
Qed.

Lemma process_received_frame_handled (s : world) :
  wf s ->
  exists s',
    process_received_frame cast_out_of_range s = Some s' /\
    handled (g_rx_cmd s)
      (set_log_dispatched
         (log_dispatched s ++
          [(g_rx_cmd s,
            take (Z.to_nat (g_rx_payload_len s)) (g_rx_payload_buffer s))]) s)
      s'.
Proof.
  intros Hwf. unfold process_received_frame.
  set (s1 := set_log_dispatched _ s).
  assert (Hwf1 : wf s1) by exact Hwf.
  change (g_rx_cmd s1) with (g_rx_cmd s).
  destruct (Z.eqb_spec (g_rx_cmd s) ARESPLOT_CMD_START_MONITOR) as [->|_].
  { apply handle_cmd_start_monitor_handled, Hwf1. }
  destruct (Z.eqb_spec (g_rx_cmd s) ARESPLOT_CMD_SET_VARIABLE) as [->|_].
  { apply handle_cmd_set_variable_handled, Hwf1. }
  destruct (Z.eqb_spec (g_rx_cmd s) ARESPLOT_CMD_SET_SAMPLE_RATE) as [->|_].
  { apply handle_cmd_set_sample_rate_handled, Hwf1. }
  eexists. split; [reflexivity|].
  apply handled_queue_ack; try reflexivity;
    [exact Hwf1|repeat split|auto].
Qed.

End Handlers.

(** ** The frame receiver *)

Lemma length_field_small (n : Z) :
  0 <= n < 256 ->
  u8 (Z.land n 0xFF) = n /\ u8 (Z.land (Z.shiftr n 8) 0xFF) = 0.
Proof.
  intros H. change 0xFF with (Z.ones 8).
  rewrite !Z.land_ones by lia. rewrite Z.shiftr_div_pow2 by lia.
  change (2 ^ 8) with 256. rewrite (Z.div_small n 256) by lia.
  unfold u8. rewrite Zmod_mod. rewrite (Z.mod_small n) by lia.
  split; reflexivity.
Qed.

Lemma length_field_decode (lo : Z) :
  0 <= lo < 256 -> u16 (Z.lor lo (u16 (Z.shiftl 0 8))) = lo.
Proof.
  intros H. rewrite Z.shiftl_0_l. change (u16 0) with 0.
  rewrite Z.lor_0_r. unfold u16. apply Z.mod_small. lia.
Qed.

Section Receiver.

Variable cast_out_of_range : Z -> Z -> Z.

Local Abbreviation feed := (feed_bytes cast_out_of_range).
Local Abbreviation feed_byte := (aresplot_rx_feed_byte cast_out_of_range).

Lemma feed_bytes_app (xs ys : list Z) (s : world) :
  feed (xs ++ ys) s = (s' ← feed xs s; feed ys s').
Proof.
  revert s. induction xs as [|x xs IH]; intros s; simpl; [reflexivity|].
  destruct (feed_byte x s) as [s1|]; simpl; [apply IH|reflexivity].
Qed.

(** One transition per state. *)
Lemma step_wait_sop (s : world) :
  g_rx_state s = ARES_RX_STATE_WAIT_SOP ->
  feed_byte ARESPLOT_SOP s
  = Some (set_g_rx_checksum_calculated 0
            (set_g_rx_state ARES_RX_STATE_WAIT_CMD s)).
Proof. intros H. unfold aresplot_rx_feed_byte. now rewrite H. Qed.

Lemma step_wait_sop_other (b : Z) (s : world) :
  g_rx_state s = ARES_RX_STATE_WAIT_SOP -> b <> ARESPLOT_SOP ->
  feed_byte b s = Some s.
Proof.
  intros H Hb. unfold aresplot_rx_feed_byte. rewrite H.
  destruct (Z.eqb_spec b ARESPLOT_SOP); [contradiction|reflexivity].
Qed.

Lemma step_wait_cmd (b : Z) (s : world) :
  g_rx_state s = ARES_RX_STATE_WAIT_CMD ->
  feed_byte b s
  = Some (set_g_rx_state ARES_RX_STATE_WAIT_LEN1
            (set_g_rx_checksum_calculated
               (u8 (Z.lxor (g_rx_checksum_calculated s) b))
               (set_g_rx_cmd b s))).
Proof. intros H. unfold aresplot_rx_feed_byte. now rewrite H. Qed.

Lemma step_wait_len1 (b : Z) (s : world) :
  g_rx_state s = ARES_RX_STATE_WAIT_LEN1 ->
  feed_byte b s
  = Some (set_g_rx_state ARES_RX_STATE_WAIT_LEN2
            (set_g_rx_checksum_calculated
               (u8 (Z.lxor (g_rx_checksum_calculated s) b))
               (set_g_rx_payload_len b s))).
Proof. intros H. unfold aresplot_rx_feed_byte. now rewrite H. Qed.

Lemma step_wait_len2 (b : Z) (s : world) :
  g_rx_state s = ARES_RX_STATE_WAIT_LEN2 ->
  feed_byte b s
  = let len := u16 (Z.lor (g_rx_payload_len s) (u16 (Z.shiftl b 8))) in
    let s1 := set_g_rx_checksum_calculated
                (u8 (Z.lxor (g_rx_checksum_calculated s) b))
                (set_g_rx_payload_len len s) in
    Some (if ARESPLOT_SHARED_BUFFER_SIZE <? len then
            set_g_rx_state ARES_RX_STATE_WAIT_SOP s1
          else if len =? 0 then set_g_rx_state ARES_RX_STATE_WAIT_CHECKSUM s1
          else set_g_rx_state ARES_RX_STATE_WAIT_PAYLOAD
                 (set_g_rx_payload_idx 0 s1)).
Proof.
  intros H. unfold aresplot_rx_feed_byte. rewrite H.
  cbn [g_rx_payload_len set_g_rx_payload_len set_g_rx_checksum_calculated].
  cbv zeta.
  destruct (ARESPLOT_SHARED_BUFFER_SIZE <? _); [reflexivity|].
  destruct (_ =? 0); reflexivity.
Qed.

Lemma step_wait_checksum_ok (s : world) :
  g_rx_state s = ARES_RX_STATE_WAIT_CHECKSUM ->
  feed_byte (g_rx_checksum_calculated s) s
  = Some (set_g_rx_state ARES_RX_STATE_WAIT_EOP s).
Proof.
  intros H. unfold aresplot_rx_feed_byte. rewrite H.
  now rewrite Z.eqb_refl.
Qed.

Lemma step_wait_checksum_bad (b : Z) (s : world) :
  g_rx_state s = ARES_RX_STATE_WAIT_CHECKSUM ->
  b <> g_rx_checksum_calculated s ->
  feed_byte b s
  = Some (set_g_rx_state ARES_RX_STATE_WAIT_SOP
            (queue_ack_response (g_rx_cmd s) ARES_STATUS_ERROR_CHECKSUM s)).
Proof.
  intros H Hb. unfold aresplot_rx_feed_byte. rewrite H.
  destruct (Z.eqb_spec b (g_rx_checksum_calculated s));
    [contradiction|reflexivity].
Qed.

Lemma step_wait_eop (s : world) :
  g_rx_state s = ARES_RX_STATE_WAIT_EOP ->
  feed_byte ARESPLOT_EOP s
  = (s' ← process_received_frame cast_out_of_range s;
     Some (set_g_rx_state ARES_RX_STATE_WAIT_SOP s')).
Proof. intros H. unfold aresplot_rx_feed_byte. now rewrite H. Qed.

Lemma feed_cons (b : Z) (bs : list Z) (s s1 : world) :
  feed_byte b s = Some s1 -> feed (b :: bs) s = feed bs s1.
Proof. intros H. cbn [feed_bytes]. now rewrite H. Qed.

(** SOP, command and a length field [len] in [1..capacity]: the
    receiver waits for the payload with the write index at 0. *)
Lemma feed_header_payload (cmd len : Z) (s : world) :
  g_rx_state s = ARES_RX_STATE_WAIT_SOP ->
  0 < len <= ARESPLOT_SHARED_BUFFER_SIZE ->
  feed [ARESPLOT_SOP; cmd; len; 0] s
  = Some (rx_upd ARES_RX_STATE_WAIT_PAYLOAD (g_rx_payload_buffer s) len 0 cmd
            (header_checksum cmd len 0) s).
Proof.
  unfold ARESPLOT_SHARED_BUFFER_SIZE. intros Hst Hlen.
  rewrite (feed_cons _ _ _ _ (step_wait_sop s Hst)).
  erewrite feed_cons by (apply step_wait_cmd; reflexivity).
  erewrite feed_cons by (apply step_wait_len1; reflexivity).
  erewrite feed_cons by (apply step_wait_len2; reflexivity).
  cbn [feed_bytes]. f_equal.
  cbn [g_rx_payload_len set_g_rx_payload_len set_g_rx_checksum_calculated
       set_g_rx_state set_g_rx_cmd].
  rewrite length_field_decode by lia.
  unfold ARESPLOT_SHARED_BUFFER_SIZE.
  destruct (Z.ltb_spec 128 len); [lia|].
  destruct (Z.eqb_spec len 0); [lia|].
  reflexivity.
Qed.

(** SOP, command and a zero length field: the payload state is
    skipped, and neither the buffer nor the write index is touched. *)
Lemma feed_header_empty (cmd : Z) (s : world) :
  g_rx_state s = ARES_RX_STATE_WAIT_SOP ->
  feed [ARESPLOT_SOP; cmd; 0; 0] s
  = Some (rx_upd ARES_RX_STATE_WAIT_CHECKSUM (g_rx_payload_buffer s) 0
            (g_rx_payload_idx s) cmd (header_checksum cmd 0 0) s).
Proof.
  intros Hst.
  rewrite (feed_cons _ _ _ _ (step_wait_sop s Hst)).
  erewrite feed_cons by (apply step_wait_cmd; reflexivity).
  erewrite feed_cons by (apply step_wait_len1; reflexivity).
  erewrite feed_cons by (apply step_wait_len2; reflexivity).
  reflexivity.
Qed.

(** Payload bytes: each is stored at the write index and folded into
    the checksum; the state changes when the declared count is
    reached. *)
Lemma feed_payload (bs : list Z) : forall (s : world) (i : nat),
  bs <> [] ->
  g_rx_state s = ARES_RX_STATE_WAIT_PAYLOAD ->
  g_rx_payload_idx s = Z.of_nat i ->
  Z.of_nat (i + length bs) <= g_rx_payload_len s ->
  g_rx_payload_len s <= Z.of_nat (length (g_rx_payload_buffer s)) ->
  Z.of_nat (length (g_rx_payload_buffer s)) < 65536 ->
  feed bs s
  = Some (rx_upd
            (if g_rx_payload_len s <=? Z.of_nat (i + length bs)
             then ARES_RX_STATE_WAIT_CHECKSUM else ARES_RX_STATE_WAIT_PAYLOAD)
            (write_at (g_rx_payload_buffer s) i bs)
            (g_rx_payload_len s) (Z.of_nat (i + length bs)) (g_rx_cmd s)
            (xor_fold (g_rx_checksum_calculated s) bs) s).
Proof.
  induction bs as [|b bs IH]; intros s i Hne Hst Hidx Hlen Hcap Hmax;
    [congruence|].
  simpl length in *.
  assert (Hstep : feed_byte b s
    = Some (rx_upd
              (if g_rx_payload_len s <=? Z.of_nat (i + 1)
               then ARES_RX_STATE_WAIT_CHECKSUM else ARES_RX_STATE_WAIT_PAYLOAD)
              (write_at (g_rx_payload_buffer s) i [b])
              (g_rx_payload_len s) (Z.of_nat (i + 1)) (g_rx_cmd s)
              (u8 (Z.lxor (g_rx_checksum_calculated s) b)) s)).
  { unfold aresplot_rx_feed_byte. rewrite Hst, Hidx.
    rewrite store_in_range by lia. cbn [mbind option_bind].
    cbn [g_rx_payload_idx g_rx_payload_len g_rx_checksum_calculated
         set_g_rx_payload_buffer set_g_rx_payload_idx
         set_g_rx_checksum_calculated].
    rewrite Hidx.
    replace (u16 (Z.of_nat i + 1)) with (Z.of_nat (i + 1))
      by (unfold u16; rewrite Z.mod_small; lia).
    destruct (g_rx_payload_len s <=? Z.of_nat (i + 1)); [reflexivity|].
    rewrite <- Hst. reflexivity. }
  destruct bs as [|b' bs'].
  - simpl. rewrite Hstep. reflexivity.
  - change (feed (b :: b' :: bs') s)
      with (s' ← feed_byte b s; feed (b' :: bs') s').
    rewrite Hstep. cbn [mbind option_bind].
    destruct (Z.leb_spec (g_rx_payload_len s) (Z.of_nat (i + 1)));
      [simpl length in *; lia|].
    rewrite (IH _ (S i)).
    + cbn [g_rx_payload_len g_rx_payload_buffer g_rx_cmd
           g_rx_checksum_calculated rx_upd set_g_rx_state
           set_g_rx_payload_buffer set_g_rx_payload_len set_g_rx_payload_idx
           set_g_rx_cmd set_g_rx_checksum_calculated].
      rewrite write_at_step by (simpl length in *; lia).
      replace (S i + length (b' :: bs'))%nat
        with (i + S (length (b' :: bs')))%nat by lia.
      reflexivity.
    + discriminate.
    + reflexivity.
    + cbn. lia.
    + cbn [g_rx_payload_len rx_upd set_g_rx_state
           set_g_rx_payload_buffer set_g_rx_payload_len set_g_rx_payload_idx
           set_g_rx_cmd set_g_rx_checksum_calculated].
      simpl length in *. lia.
    + cbn [g_rx_payload_len g_rx_payload_buffer rx_upd set_g_rx_state
           set_g_rx_payload_buffer set_g_rx_payload_len set_g_rx_payload_idx
           set_g_rx_cmd set_g_rx_checksum_calculated].
      rewrite length_write_at by (simpl; lia). lia.
    + cbn [g_rx_payload_len g_rx_payload_buffer rx_upd set_g_rx_state
           set_g_rx_payload_buffer set_g_rx_payload_len set_g_rx_payload_idx
           set_g_rx_cmd set_g_rx_checksum_calculated].
      rewrite length_write_at by (simpl; lia). lia.
Qed.

End Receiver.

Section Frames.

Variable cast_out_of_range : Z -> Z -> Z.

Local Abbreviation feed := (feed_bytes cast_out_of_range).

Lemma received_checksum_frame (cmd : Z) (bs : list Z) :
  (length bs < 256)%nat -> received_checksum cmd bs = frame_checksum cmd bs.
Proof.
  intros H. unfold received_checksum, frame_checksum, header_checksum.
  destruct (length_field_small (Z.of_nat (length bs))) as [-> ->]; [lia|].
  reflexivity.
Qed.

(** Header and payload of a frame that fits the receive buffer, from
    AwaitStart: the receiver is in AwaitChecksum, the payload sits at
    the start of the buffer, and the checksum has been accumulated. *)
Lemma feed_header_and_payload (cmd : Z) (bs : list Z) (s : world) :
  wf s ->
  g_rx_state s = ARES_RX_STATE_WAIT_SOP ->
  Z.of_nat (length bs) <= ARESPLOT_SHARED_BUFFER_SIZE ->
  feed (frame_header cmd (length bs) ++ bs) s
  = Some (rx_upd ARES_RX_STATE_WAIT_CHECKSUM
            (write_at (g_rx_payload_buffer s) 0 bs)
            (Z.of_nat (length bs))
            (if decide (bs = []) then g_rx_payload_idx s
             else Z.of_nat (length bs))
            cmd (received_checksum cmd bs) s).
Proof.
  intros (Hrx & _ & _) Hst Hlen. unfold ARESPLOT_SHARED_BUFFER_SIZE in *.
  unfold frame_header.
  destruct (length_field_small (Z.of_nat (length bs))) as [-> ->]; [lia|].
  destruct (decide (bs = [])) as [->|Hne].
  - simpl app. rewrite feed_header_empty by exact Hst. reflexivity.
  - rewrite feed_bytes_app.
    assert (Hpos : 0 < Z.of_nat (length bs) <= ARESPLOT_SHARED_BUFFER_SIZE).
    { unfold ARESPLOT_SHARED_BUFFER_SIZE.
      destruct bs; [congruence|simpl length in *; lia]. }
    rewrite (feed_header_payload cast_out_of_range cmd _ s Hst Hpos).
    cbn [mbind option_bind].
    rewrite (feed_payload cast_out_of_range bs _ 0 Hne);
      try reflexivity; try (cbn; lia).
    cbn [g_rx_payload_len g_rx_payload_buffer g_rx_cmd
         g_rx_checksum_calculated rx_upd set_g_rx_state
         set_g_rx_payload_buffer set_g_rx_payload_len set_g_rx_payload_idx
         set_g_rx_cmd set_g_rx_checksum_calculated].
    rewrite Nat.add_0_l.
    destruct (Z.leb_spec (Z.of_nat (length bs)) (Z.of_nat (length bs)));
      [reflexivity|lia].
Qed.

End Frames.
Lemma xor_fold_flip (bs : list Z) (i : nat) (b m : Z) :
  Forall is_u8 bs -> is_u8 m -> bs !! i = Some b ->
  xor_fold 0 (<[i := Z.lxor b m]> bs) = Z.lxor (xor_fold 0 bs) m.
Proof.
  revert i. induction bs as [|x bs IH]; intros i Hbs Hm Hi; [discriminate|].
  inversion Hbs as [|? ? Hx Hbs']; subst.
  assert (H0 : is_u8 0) by (unfold is_u8; lia).
  destruct i as [|i]; simpl in Hi |- *.
  - injection Hi as ->.
    rewrite (xor_fold_bytes bs (u8 (Z.lxor 0 (Z.lxor b m))))
      by auto using is_u8_u8.
    rewrite (xor_fold_bytes bs (u8 (Z.lxor 0 b))) by auto using is_u8_u8.
    rewrite !xor8_bytes by auto using lxor_is_u8.
    rewrite !Z.lxor_0_l.
    rewrite (Z.lxor_assoc b m), (Z.lxor_comm m), <- Z.lxor_assoc.
    reflexivity.
  - assert (Hflip : Forall is_u8 (<[i := Z.lxor b m]> bs)).
    { apply Forall_insert; [exact Hbs'|].
      apply lxor_is_u8; [|exact Hm].
      eapply Forall_lookup_1; eauto. }
    rewrite (xor_fold_bytes _ (u8 (Z.lxor 0 x))) by auto using is_u8_u8.
    rewrite (xor_fold_bytes bs (u8 (Z.lxor 0 x))) by auto using is_u8_u8.
    rewrite (IH i) by assumption.
    now rewrite Z.lxor_assoc.
Qed.

Lemma lxor_changes (x m : Z) : m <> 0 -> Z.lxor x m <> x.
Proof.
  intros Hm H. apply Hm.
  replace m with (Z.lxor x (Z.lxor x m))
    by (now rewrite <- Z.lxor_assoc, Z.lxor_nilpotent, Z.lxor_0_l).
  rewrite H. apply Z.lxor_nilpotent.
Qed.

Lemma bit_is_u8 (k : Z) : 0 <= k < 8 -> is_u8 (2 ^ k) /\ 2 ^ k <> 0.
Proof.
  intros H. unfold is_u8.
  assert (0 < 2 ^ k) by (apply Z.pow_pos_nonneg; lia).
  assert (2 ^ k < 2 ^ 8) by (apply Z.pow_lt_mono_r; lia).
  change (2 ^ 8) with 256 in *. lia.
Qed.

(** Flipping one bit of one payload byte changes the checksum of the
    frame. *)
Lemma frame_checksum_flip (cmd : Z) (payload : list Z) (i : nat) (b k : Z) :
  is_u8 cmd -> Forall is_u8 payload -> payload !! i = Some b -> 0 <= k < 8 ->
  frame_checksum cmd (<[i := Z.lxor b (2 ^ k)]> payload)
  <> frame_checksum cmd payload.
Proof.
  intros Hc Hp Hi Hk. destruct (bit_is_u8 k Hk) as [Hm Hnz].
  unfold frame_checksum. rewrite length_insert.
  set (c0 := u8 (Z.lxor _ (u8 (Z.land (Z.shiftr _ 8) 255)))).
  assert (Hc0 : is_u8 c0) by apply is_u8_u8.
  assert (Hflip : Forall is_u8 (<[i := Z.lxor b (2 ^ k)]> payload)).
  { apply Forall_insert; [exact Hp|].
    apply lxor_is_u8; [|exact Hm]. eapply Forall_lookup_1; eauto. }
  rewrite (xor_fold_bytes _ c0) by assumption.
  rewrite (xor_fold_bytes payload c0) by assumption.
  rewrite xor_fold_flip by assumption.
  rewrite <- Z.lxor_assoc. now apply lxor_changes.
Qed.
Section Invariant.

Variable cast_out_of_range : Z -> Z -> Z.

Local Abbreviation feed_byte := (aresplot_rx_feed_byte cast_out_of_range).

(** One byte, in any state satisfying the invariant: the step
    succeeds (no store outside the buffer) and the invariant holds
    again. *)
Lemma aresplot_rx_feed_byte_inv (b : Z) (s : world) :
  inv s -> exists s', feed_byte b s = Some s' /\ inv s'.
Proof.
  intros (Hwf & Hrx & Hnum & Hlog). pose proof Hwf as (Hbuf & Htx & Hmv).
  unfold rx_inv in Hrx. unfold ARESPLOT_SHARED_BUFFER_SIZE in *.
  destruct (g_rx_state s) eqn:Hst.
  - (* AwaitStart *)
    destruct (Z.eq_dec b ARESPLOT_SOP) as [->|Hb].
    + rewrite step_wait_sop by exact Hst. eexists. split; [reflexivity|].
      repeat split; assumption.
    + rewrite step_wait_sop_other by assumption. exists s. split; [reflexivity|].
      unfold inv, rx_inv. rewrite Hst. repeat split; assumption.
  - rewrite step_wait_cmd by exact Hst. eexists. split; [reflexivity|].
    repeat split; assumption.
  - rewrite step_wait_len1 by exact Hst. eexists. split; [reflexivity|].
    repeat split; assumption.
  - rewrite step_wait_len2 by exact Hst. cbv zeta.
    set (len := u16 _).
    assert (Hlen : 0 <= len < 65536) by (apply Z.mod_pos_bound; lia).
    eexists. split; [reflexivity|].
    unfold ARESPLOT_SHARED_BUFFER_SIZE.
    destruct (Z.ltb_spec 128 len) as [E1|E1];
      [repeat split; assumption|].
    destruct (Z.eqb_spec len 0) as [E2|E2].
    + split; [exact Hwf|]. split; [|split; assumption].
      unfold rx_inv. cbn. unfold ARESPLOT_SHARED_BUFFER_SIZE. lia.
    + split; [exact Hwf|]. split; [|split; assumption].
      unfold rx_inv. cbn. unfold ARESPLOT_SHARED_BUFFER_SIZE. lia.
  - (* AwaitPayload *)
    assert (Hk : g_rx_payload_idx s = Z.of_nat (Z.to_nat (g_rx_payload_idx s)))
      by lia.
    set (k := Z.to_nat (g_rx_payload_idx s)) in *.
    unfold aresplot_rx_feed_byte. rewrite Hst, Hk.
    rewrite store_in_range by lia. cbn [mbind option_bind].
    cbn [g_rx_payload_idx g_rx_payload_len g_rx_checksum_calculated
         set_g_rx_payload_buffer set_g_rx_payload_idx
         set_g_rx_checksum_calculated].
    rewrite Hk.
    replace (u16 (Z.of_nat k + 1)) with (Z.of_nat k + 1)
      by (unfold u16; rewrite Z.mod_small; lia).
    destruct (Z.leb_spec (g_rx_payload_len s) (Z.of_nat k + 1)).
    + eexists. split; [reflexivity|]. split.
      { unfold wf. cbn. rewrite length_write_at by (simpl; lia). auto. }
      split; [|split; assumption].
      unfold rx_inv. cbn. unfold ARESPLOT_SHARED_BUFFER_SIZE. lia.
    + eexists. split; [reflexivity|]. split.
      { unfold wf. cbn. rewrite length_write_at by (simpl; lia). auto. }
      split; [|split; assumption].
      unfold rx_inv. cbn. rewrite Hst. unfold ARESPLOT_SHARED_BUFFER_SIZE. lia.
  - (* AwaitChecksum *)
    destruct (Z.eq_dec b (g_rx_checksum_calculated s)) as [->|Hb].
    + rewrite step_wait_checksum_ok by exact Hst.
      eexists. split; [reflexivity|]. repeat split; assumption || apply Hrx.
    + rewrite step_wait_checksum_bad by assumption.
      eexists. split; [reflexivity|]. repeat split; assumption.
  - (* AwaitEnd *)
    unfold aresplot_rx_feed_byte. rewrite Hst.
    destruct (Z.eqb_spec b ARESPLOT_EOP) as [->|Hb].
    + destruct (process_received_frame_handled cast_out_of_range s Hwf)
        as (s2 & -> & Hwf2 & Hsame & Hlog2 & _ & Hnum2 & _).
      cbn [mbind option_bind]. eexists. split; [reflexivity|].
      split; [exact Hwf2|]. split; [exact I|]. split; [apply Hnum2, Hnum|].
      cbn [log_dispatched set_g_rx_state]. rewrite Hlog2.
      cbn [log_dispatched set_log_dispatched].
      apply Forall_app. split; [exact Hlog|].
      constructor; [|constructor]. cbn [snd].
      rewrite length_take. unfold ARESPLOT_SHARED_BUFFER_SIZE. lia.
    + cbn [mbind option_bind]. eexists. split; [reflexivity|].
      repeat split; assumption.
Qed.

End Invariant.
Lemma for_loop_ext {A : Type} (f g : Z -> A -> option A) (n : nat) :
  forall (i : Z) (a : A),
  (forall j x, i <= j < i + Z.of_nat n -> f j x = g j x) ->
  for_loop n i f a = for_loop n i g a.
Proof.
  induction n as [|n IH]; intros i a H; [reflexivity|].
  cbn [for_loop]. rewrite H by lia.
  destruct (g i a) as [a'|]; [|reflexivity]. cbn [mbind option_bind].
  apply IH. intros j x Hj. apply H. lia.
Qed.

Lemma load_take (src : list Z) (n : nat) (j : Z) :
  0 <= j < Z.of_nat n -> (n <= length src)%nat ->
  load (take n src) j = load src j.
Proof.
  intros Hj Hn. unfold load. rewrite length_take, Nat.min_l by exact Hn.
  destruct (0 <=? j) eqn:E0; [|reflexivity].
  destruct (Z.ltb_spec j (Z.of_nat n)); [|lia].
  destruct (Z.ltb_spec j (Z.of_nat (length src))); [|lia]. cbn [andb].
  apply lookup_take_lt. lia.
Qed.

Lemma memcpy_take (dst src : list Z) (off : Z) (n : nat) :
  (n <= length src)%nat ->
  memcpy dst off src (Z.of_nat n) = memcpy dst off (take n src) (Z.of_nat n).
Proof.
  intros Hn. unfold memcpy. rewrite Nat2Z.id. apply for_loop_ext.
  intros j x Hj. now rewrite load_take by lia.
Qed.

Lemma calculate_checksum_take (cmd : Z) (payload : list Z) (n : nat) :
  (n <= length payload)%nat ->
  calculate_checksum cmd (Z.of_nat n) payload
  = calculate_checksum cmd (Z.of_nat n) (take n payload).
Proof.
  intros Hn. unfold calculate_checksum. rewrite Nat2Z.id. apply for_loop_ext.
  intros j x Hj. now rewrite load_take by lia.
Qed.

(** The transmitter reads only the first [len] bytes of the array it
    is given. *)
Lemma assemble_and_send_frame_internal_take (cmd : Z) (payload : list Z)
    (n : nat) (s : world) :
  (n <= length payload)%nat ->
  assemble_and_send_frame_internal cmd payload (Z.of_nat n) s
  = assemble_and_send_frame_internal cmd (take n payload) (Z.of_nat n) s.
Proof.
  intros Hn. unfold assemble_and_send_frame_internal.
  rewrite (calculate_checksum_take cmd payload n Hn).
  destruct (_ <? _); [reflexivity|].
  destruct (store _ _ _) as [b1|]; [|reflexivity]. cbn [mbind option_bind].
  destruct (store _ _ _) as [b2|]; [|reflexivity]. cbn [mbind option_bind].
  destruct (store _ _ _) as [b3|]; [|reflexivity]. cbn [mbind option_bind].
  destruct (store _ _ _) as [b4|]; [|reflexivity]. cbn [mbind option_bind].
  now rewrite (memcpy_take b4 payload _ n Hn).
Qed.

Lemma assemble_and_send_frame_internal_prefix (cmd : Z) (payload : list Z)
    (n : nat) (s : world) :
  (n <= length payload)%nat ->
  Z.of_nat (length (g_tx_assembly_buffer s)) = ARESPLOT_SHARED_BUFFER_SIZE ->
  6 + Z.of_nat n <= ARESPLOT_SHARED_BUFFER_SIZE ->
  exists buf,
    assemble_and_send_frame_internal cmd payload (Z.of_nat n) s
    = Some (with_tx buf (sent_packets s ++ [frame_of cmd (take n payload)]) s) /\
    length buf = length (g_tx_assembly_buffer s).
Proof.
  intros Hn Hbuf Hfit.
  rewrite assemble_and_send_frame_internal_take by exact Hn.
  assert (Hl : length (take n payload) = n) by (rewrite length_take; lia).
  pose proof (assemble_and_send_frame_internal_spec cmd (take n payload) s Hbuf)
    as H.
  rewrite Hl in H. apply H. exact Hfit.
Qed.
(** ** Sampling *)

Lemma push_byte_spec (out pre : list Z) (b : Z) :
  (length pre < length out)%nat -> Z.of_nat (length out) < 65536 ->
  push_byte b (write_at out 0 pre, Z.of_nat (length pre))
  = Some (write_at out 0 (pre ++ [b]), Z.of_nat (length (pre ++ [b]))).
Proof.
  intros H Hmax. unfold push_byte. cbn [fst snd].
  rewrite (store_append out pre b) by (reflexivity || exact H).
  cbn [mbind option_bind]. f_equal. f_equal.
  rewrite length_app. cbn [length]. unfold u16.
  rewrite Z.mod_small by lia. lia.
Qed.

Lemma push_le32_spec (out pre : list Z) (x : Z) :
  (length pre + 4 <= length out)%nat -> Z.of_nat (length out) < 65536 ->
  push_le32 x (write_at out 0 pre, Z.of_nat (length pre))
  = Some (write_at out 0 (pre ++ le32_bytes x),
          Z.of_nat (length (pre ++ le32_bytes x))).
Proof.
  intros H Hmax. unfold push_le32, le32_bytes.
  rewrite push_byte_spec by lia. cbn [mbind option_bind].
  rewrite push_byte_spec by (rewrite ?length_app; cbn [length]; lia).
  cbn [mbind option_bind].
  rewrite push_byte_spec by (rewrite ?length_app; cbn [length]; lia).
  cbn [mbind option_bind].
  rewrite push_byte_spec by (rewrite ?length_app; cbn [length]; lia).
  rewrite <- !app_assoc. reflexivity.
Qed.

Lemma length_le32_bytes (x : Z) : length (le32_bytes x) = 4%nat.
Proof. reflexivity. Qed.

Lemma length_monitor_payload (ts : Z) (m : Z -> Z)
    (vars : list aresplot_var_info_t) :
  length (monitor_payload ts m vars) = (4 + 4 * length vars)%nat.
Proof.
  unfold monitor_payload. rewrite length_app. cbn [length le32_bytes].
  induction vars as [|v vars IH]; [reflexivity|].
  cbn [flat_map]. rewrite length_app, length_le32_bytes. cbn [length]. lia.
Qed.

(** The snapshot loop: the first [n] table entries are copied. *)
Lemma snapshot_loop (vars : list aresplot_var_info_t) (n : nat)
    (local : list aresplot_var_info_t) :
  (n <= length vars)%nat -> length local = length vars ->
  exists l,
    for_loop n 0 (fun i l => v ← load vars i; store l i v) local = Some l /\
    length l = length vars /\ take n l = take n vars.
Proof.
  intros Hn Hlen.
  destruct (for_loop_inv
    (fun j l => 0 <= j /\ length l = length vars /\
                take (Z.to_nat j) l = take (Z.to_nat j) vars)
    (fun i l => v ← load vars i; store l i v) n 0 local)
    as (l & Hl & _ & Hlen' & Htake).
  - split; [lia|]. split; [exact Hlen|reflexivity].
  - intros j x Hj (_ & Hx & Htk).
    assert (Hk : j = Z.of_nat (Z.to_nat j)) by lia.
    set (k := Z.to_nat j) in *. clearbody k. subst j.
    destruct (lookup_lt_is_Some_2 vars k) as [v Hv]; [lia|].
    rewrite (load_Some _ _ _ Hv). cbn [mbind option_bind].
    rewrite store_in_range by lia.
    eexists. split; [reflexivity|]. split; [lia|].
    split; [rewrite length_write_at; cbn [length]; lia|].
    replace (Z.to_nat (Z.of_nat k + 1)) with (S k) by lia.
    rewrite (take_S_r vars k v Hv). unfold write_at.
    rewrite take_app_ge by (rewrite length_take; lia).
    rewrite length_take, Nat.min_l by lia.
    replace (S k - k)%nat with 1%nat by lia.
    rewrite Htk. reflexivity.
  - exists l. replace (Z.to_nat (0 + Z.of_nat n)) with n in Htake by lia. auto.
Qed.

(** The sampling loop: one float per snapshot entry, appended to the
    output. *)
Lemma sampling_loop (m : Z -> Z) (local : list aresplot_var_info_t)
    (n : nat) (out pre : list Z) :
  (n <= length local)%nat ->
  (length pre + 4 * n <= length out)%nat -> Z.of_nat (length out) < 65536 ->
  for_loop n 0
    (fun i st => v ← load local i; push_le32 (temp_float_val_of m v) st)
    (write_at out 0 pre, Z.of_nat (length pre))
  = Some (write_at out 0
            (pre ++ flat_map (fun v => le32_bytes (temp_float_val_of m v))
                      (take n local)),
          Z.of_nat (length pre + 4 * n)).
Proof.
  intros Hn Hfit Hmax.
  set (f := fun v => le32_bytes (temp_float_val_of m v)).
  destruct (for_loop_inv
    (fun j st => 0 <= j /\
       st = (write_at out 0 (pre ++ flat_map f (take (Z.to_nat j) local)),
             Z.of_nat (length pre + 4 * Z.to_nat j)))
    (fun i st => v ← load local i; push_le32 (temp_float_val_of m v) st)
    n 0 (write_at out 0 pre, Z.of_nat (length pre)))
    as (st & Hst & _ & ->).
  - split; [lia|]. cbn [Z.to_nat take flat_map].
    now rewrite app_nil_r, Nat.mul_0_r, Nat.add_0_r.
  - intros j x Hj (_ & ->).
    assert (Hk : j = Z.of_nat (Z.to_nat j)) by lia.
    set (k := Z.to_nat j) in *. clearbody k. subst j.
    destruct (lookup_lt_is_Some_2 local k) as [v Hv]; [lia|].
    rewrite (load_Some _ _ _ Hv). cbn [mbind option_bind].
    assert (Hfl : length (flat_map f (take k local)) = (4 * k)%nat).
    { clear -Hj Hn. assert (Hk : (k <= length local)%nat) by lia.
      revert Hk. clear. revert local.
      induction k as [|k IH]; intros [|v l] Hk; cbn [take flat_map length] in *;
        try reflexivity; try lia.
      rewrite length_app, IH by lia. cbn [f le32_bytes length]. lia. }
    replace (length pre + 4 * k)%nat
      with (length (pre ++ flat_map f (take k local)))
      by (rewrite length_app, Hfl; reflexivity).
    rewrite push_le32_spec by (rewrite ?length_app, ?Hfl; lia).
    eexists. split; [reflexivity|]. split; [lia|].
    replace (Z.to_nat (Z.of_nat k + 1)) with (S k) by lia.
    rewrite (take_S_r local k v Hv), flat_map_app. cbn [flat_map].
    rewrite app_nil_r, <- app_assoc. f_equal.
    rewrite !length_app, Hfl. cbn [f le32_bytes length]. f_equal. lia.
  - rewrite Hst. now replace (Z.to_nat (0 + Z.of_nat n)) with n by lia.
Qed.
Lemma send_monitor_data_payload_assembly_spec (out : list Z) (s : world) :
  Z.of_nat (length (g_monitor_vars s)) = ARESPLOT_MAX_VARS_TO_MONITOR ->
  g_monitoring_active s <> 0 ->
  0 < g_num_monitor_vars s <= ARESPLOT_MAX_VARS_TO_MONITOR ->
  Z.of_nat (length out) = 4 + ARESPLOT_MAX_VARS_TO_MONITOR * 4 ->
  send_monitor_data_payload_assembly out s
  = Some (write_at out 0
            (monitor_payload (u32 (tick_source s (tick_reads s))) (memory s)
               (take (Z.to_nat (g_num_monitor_vars s)) (g_monitor_vars s))),
          4 + g_num_monitor_vars s * 4,
          set_tick_reads (S (tick_reads s)) s).
Proof.
  unfold ARESPLOT_MAX_VARS_TO_MONITOR. intros Hmv Hact Hnum Hout.
  unfold send_monitor_data_payload_assembly.
  destruct (Z.eqb_spec (g_monitoring_active s) 0) as [E|_]; [contradiction|].
  destruct (Z.eqb_spec (g_num_monitor_vars s) 0) as [E|_]; [lia|].
  cbn [orb].
  set (n := Z.to_nat (g_num_monitor_vars s)).
  destruct (snapshot_loop (g_monitor_vars s) n
              (replicate (Z.to_nat ARESPLOT_MAX_VARS_TO_MONITOR) (VarInfo 0 0)))
    as (local & -> & Hll & Htk).
  { unfold n. lia. }
  { rewrite length_replicate. unfold ARESPLOT_MAX_VARS_TO_MONITOR. lia. }
  cbn [mbind option_bind]. unfold aresplot_user_get_tick_ms.
  set (ts := u32 (tick_source s (tick_reads s))).
  change (out, 0) with (write_at out 0 [], Z.of_nat (length (@nil Z))).
  rewrite push_le32_spec by (cbn [length]; lia).
  cbn [mbind option_bind app].
  change (memory (set_tick_reads (S (tick_reads s)) s)) with (memory s).
  rewrite (sampling_loop (memory s) local n out (le32_bytes ts))
    by (rewrite ?length_le32_bytes; unfold n; lia).
  cbn [mbind option_bind fst]. unfold monitor_payload. rewrite Htk.
  f_equal. f_equal. unfold u16. rewrite Z.mod_small by lia. reflexivity.
Qed.

(** ** The periodic service *)

Lemma aresplot_service_tick_parts (s : world) :
  aresplot_service_tick s = (s1 ← service_ack_part s; service_sample_part s1).
Proof.
  unfold aresplot_service_tick, service_ack_part, service_sample_part.
  destruct (negb (g_ack_pending s =? 0)); reflexivity.
Qed.

Lemma service_ack_part_spec (s : world) :
  wf s ->
  exists s1,
    service_ack_part s = Some s1 /\
    wf s1 /\ same_rx s s1 /\
    sent_packets s1 = sent_packets s ++
      (if g_ack_pending s =? 0 then []
       else [ack_frame (g_ack_cmd_to_ack s) (g_ack_status_to_send s)]) /\
    g_ack_pending s1 = 0 /\
    g_last_sample_time_ms s1 = g_last_sample_time_ms s /\
    g_num_monitor_vars s1 = g_num_monitor_vars s /\
    g_monitoring_active s1 = g_monitoring_active s /\
    g_monitor_vars s1 = g_monitor_vars s /\
    g_sample_period_ms s1 = g_sample_period_ms s /\
    memory s1 = memory s /\
    tick_source s1 = tick_source s /\ tick_reads s1 = tick_reads s /\
    log_dispatched s1 = log_dispatched s /\
    log_acks s1 = log_acks s.
Proof.
  intros Hwf. pose proof Hwf as (Hrx & Htx & Hmv).
  unfold service_ack_part.
  destruct (Z.eqb_spec (g_ack_pending s) 0) as [E|E]; cbn [negb].
  - cbn [Z.eqb negb]. exists s. rewrite app_nil_r.
    repeat split; assumption.
  - cbn [Z.eqb negb].
    destruct (assemble_and_send_frame_internal_spec ARESPLOT_CMD_ACK
                [g_ack_cmd_to_ack s; u8 (status_code (g_ack_status_to_send s))]
                (set_g_ack_pending 0 s)) as (buf & Hb & Hl).
    + exact Htx.
    + cbn [length]. unfold ARESPLOT_SHARED_BUFFER_SIZE. lia.
    + eexists. split; [exact Hb|].
      split. { unfold wf. cbn. rewrite Hl. auto. }
      repeat split.
Qed.

Lemma service_sample_part_spec (s : world) :
  wf s -> g_num_monitor_vars s <= ARESPLOT_MAX_VARS_TO_MONITOR ->
  exists s',
    service_sample_part s = Some s' /\
    wf s' /\ same_rx s s' /\
    sent_packets s' = sent_packets s ++
      (if samples s then [data_frame s] else []) /\
    g_ack_pending s' = g_ack_pending s /\
    g_last_sample_time_ms s'
    = (if samples s then u32 (tick_source s (tick_reads s))
       else g_last_sample_time_ms s) /\
    g_num_monitor_vars s' = g_num_monitor_vars s /\
    g_monitoring_active s' = g_monitoring_active s /\
    g_monitor_vars s' = g_monitor_vars s /\
    g_sample_period_ms s' = g_sample_period_ms s /\
    memory s' = memory s /\
    log_dispatched s' = log_dispatched s /\
    log_acks s' = log_acks s.
Proof.
  intros Hwf Hnum. pose proof Hwf as (Hrx & Htx & Hmv).
  unfold ARESPLOT_MAX_VARS_TO_MONITOR, ARESPLOT_SHARED_BUFFER_SIZE in *.
  unfold service_sample_part, samples.
  destruct (Z.eqb_spec (g_monitoring_active s) 0) as [Ea|Ea]; cbn [negb andb].
  { exists s. rewrite app_nil_r. repeat split; assumption. }
  destruct (Z.ltb_spec 0 (g_num_monitor_vars s)) as [En|En]; cbn [andb].
  2:{ exists s. rewrite app_nil_r. repeat split; assumption. }
  unfold aresplot_user_get_tick_ms.
  cbn [g_last_sample_time_ms g_sample_period_ms set_tick_reads].
  destruct (sample_due _ _ _).
  2:{ eexists. split; [reflexivity|]. rewrite app_nil_r.
      repeat split; assumption. }
  set (s1 := set_tick_reads (S (tick_reads s)) s).
  rewrite (send_monitor_data_payload_assembly_spec _ s1);
    [|exact Hmv|exact Ea|exact (conj En Hnum)
     |rewrite length_replicate; unfold ARESPLOT_MAX_VARS_TO_MONITOR; lia].
  cbn [mbind option_bind].
  change (g_num_monitor_vars s1) with (g_num_monitor_vars s).
  destruct (Z.ltb_spec 0 (4 + g_num_monitor_vars s * 4)) as [_|E]; [|lia].
  set (n := Z.to_nat (g_num_monitor_vars s)).
  replace (4 + g_num_monitor_vars s * 4) with (Z.of_nat (4 + 4 * n))
    by (unfold n; lia).
  set (payload := monitor_payload _ _ _).
  assert (Hpl : length payload = (4 + 4 * n)%nat).
  { unfold payload. rewrite length_monitor_payload, length_take.
    change (g_monitor_vars s1) with (g_monitor_vars s). unfold n. lia. }
  set (s2 := set_tick_reads (S (tick_reads s1)) s1).
  destruct (assemble_and_send_frame_internal_prefix ARESPLOT_CMD_MONITOR_DATA
              (write_at (replicate (Z.to_nat (4 + 10 * 4)) 0) 0 payload)
              (4 + 4 * n) s2) as (buf & Hb & Hl).
  { rewrite length_write_at; rewrite ?length_replicate; unfold n; lia. }
  { exact Htx. }
  { unfold ARESPLOT_SHARED_BUFFER_SIZE, n. lia. }
  unfold ARESPLOT_MAX_VARS_TO_MONITOR. rewrite Hb. cbn [mbind option_bind].
  eexists. split; [reflexivity|].
  split. { unfold wf. cbn. rewrite Hl. auto. }
  split; [repeat split|].
  split.
  { cbn [sent_packets set_g_last_sample_time_ms with_tx set_sent_packets].
    rewrite <- Hpl, take_write_at_0. reflexivity. }
  repeat split.
Qed.
Lemma aresplot_service_tick_spec (s : world) :
  wf s -> g_num_monitor_vars s <= ARESPLOT_MAX_VARS_TO_MONITOR ->
  exists s',
    aresplot_service_tick s = Some s' /\
    wf s' /\ same_rx s s' /\
    sent_packets s' = sent_packets s ++ service_packets s /\
    g_ack_pending s' = 0 /\
    g_last_sample_time_ms s'
    = (if samples s then u32 (tick_source s (tick_reads s))
       else g_last_sample_time_ms s) /\
    g_num_monitor_vars s' = g_num_monitor_vars s /\
    g_monitoring_active s' = g_monitoring_active s /\
    g_monitor_vars s' = g_monitor_vars s /\
    g_sample_period_ms s' = g_sample_period_ms s /\
    memory s' = memory s /\
    log_dispatched s' = log_dispatched s /\
    log_acks s' = log_acks s.
Proof.
  intros Hwf Hnum. rewrite aresplot_service_tick_parts.
  destruct (service_ack_part_spec s Hwf)
    as (s1 & -> & Hwf1 & Hrx1 & Hsent1 & Hpend1 & Hlast1 & Hnum1 & Hact1
        & Hmv1 & Hper1 & Hmem1 & Hsrc1 & Hrd1 & Hld1 & Hla1).
  cbn [mbind option_bind].
  destruct (service_sample_part_spec s1 Hwf1)
    as (s' & -> & Hwf' & Hrx' & Hsent' & Hpend' & Hlast' & Hnum' & Hact'
        & Hmv' & Hper' & Hmem' & Hld' & Hla').
  { now rewrite Hnum1. }
  assert (Hsamples : samples s1 = samples s).
  { unfold samples. now rewrite Hact1, Hnum1, Hsrc1, Hrd1, Hlast1, Hper1. }
  assert (Hdata : data_frame s1 = data_frame s).
  { unfold data_frame. now rewrite Hsrc1, Hrd1, Hmem1, Hnum1, Hmv1. }
  exists s'. split; [reflexivity|]. split; [exact Hwf'|].
  split.
  { destruct Hrx1 as (? & ? & ? & ? & ? & ?).
    destruct Hrx' as (? & ? & ? & ? & ? & ?).
    repeat split; congruence. }
  split.
  { rewrite Hsent', Hsent1, Hsamples, Hdata, <- app_assoc. reflexivity. }
  split; [congruence|].
  split. { rewrite Hlast', Hsamples, Hsrc1, Hrd1, Hlast1. reflexivity. }
  repeat split; congruence.
Qed.
Section RunsInvariant.

Variable cast_out_of_range : Z -> Z -> Z.

Lemma aresplot_service_tick_inv (s : world) :
  inv s -> exists s', aresplot_service_tick s = Some s' /\ inv s'.
Proof.
  intros (Hwf & Hrx & Hnum & Hlog).
  destruct (aresplot_service_tick_spec s Hwf Hnum)
    as (s' & Ht & Hwf' & Hsame & _ & _ & _ & Hnum' & _ & _ & _ & _ & Hld & _).
  exists s'. split; [exact Ht|]. split; [exact Hwf'|].
  destruct Hsame as (Hst & _ & Hlen & Hidx & _).
  split; [|split; [now rewrite Hnum'|now rewrite Hld]].
  unfold rx_inv in *. now rewrite Hst, Hlen, Hidx.
Qed.

Lemma api_step_inv (c : api_call) (s : world) :
  inv s -> exists s', api_step cast_out_of_range c s = Some s' /\ inv s'.
Proof.
  intros H. destruct c as [b|]; cbn [api_step].
  - now apply aresplot_rx_feed_byte_inv.
  - now apply aresplot_service_tick_inv.
Qed.

Lemma run_inv (calls : list api_call) (s : world) :
  inv s -> exists s', run cast_out_of_range calls s = Some s' /\ inv s'.
Proof.
  revert s. induction calls as [|c calls IH]; intros s H; cbn [run].
  - exists s. auto.
  - destruct (api_step_inv c s H) as (s1 & -> & H1). cbn [mbind option_bind].
    now apply IH.
Qed.

Lemma feed_bytes_inv (bytes : list Z) (s : world) :
  inv s -> exists s', feed_bytes cast_out_of_range bytes s = Some s' /\ inv s'.
Proof.
  revert s. induction bytes as [|b bytes IH]; intros s H; cbn [feed_bytes].
  - exists s. auto.
  - destruct (aresplot_rx_feed_byte_inv cast_out_of_range b s H)
      as (s1 & -> & H1).
    cbn [mbind option_bind]. now apply IH.
Qed.

End RunsInvariant.

Lemma power_on_inv (m : Z -> Z) (ticks : nat -> Z) : inv (power_on m ticks).
Proof.
  unfold inv, wf, rx_inv, power_on. cbn.
  unfold ARESPLOT_MAX_VARS_TO_MONITOR.
  repeat split; try reflexivity; try lia; constructor.
Qed.
Section Acknowledgements.

Variable cast_out_of_range : Z -> Z -> Z.

Local Abbreviation feed_byte := (aresplot_rx_feed_byte cast_out_of_range).

(** One received byte sends nothing, and either leaves the
    acknowledgement slot alone or queues one acknowledgement, which
    then fills the slot. *)
Lemma aresplot_rx_feed_byte_acks (b : Z) (s s' : world) :
  wf s -> feed_byte b s = Some s' ->
  sent_packets s' = sent_packets s /\
  exists acks,
    (length acks <= 1)%nat /\
    log_acks s' = log_acks s ++ acks /\
    pending_ack s' = slot_after (pending_ack s) acks.
Proof.
  intros Hwf. unfold aresplot_rx_feed_byte.
  assert (Hsame : forall s0 : world,
    sent_packets s0 = sent_packets s -> log_acks s0 = log_acks s ->
    pending_ack s0 = pending_ack s ->
    Some s0 = Some s' ->
    sent_packets s' = sent_packets s /\
    exists acks, (length acks <= 1)%nat /\
      log_acks s' = log_acks s ++ acks /\
      pending_ack s' = slot_after (pending_ack s) acks).
  { intros s0 H1 H2 H3 [= <-]. split; [exact H1|]. exists [].
    rewrite app_nil_r. auto. }
  destruct (g_rx_state s) eqn:Hst.
  - destruct (b =? ARESPLOT_SOP); apply Hsame; reflexivity.
  - apply Hsame; reflexivity.
  - apply Hsame; reflexivity.
  - cbn [g_rx_payload_len set_g_rx_payload_len set_g_rx_checksum_calculated].
    destruct (_ <? _); [apply Hsame; reflexivity|].
    destruct (_ =? 0); apply Hsame; reflexivity.
  - destruct (store _ _ _) as [buf|]; [|discriminate].
    cbn [mbind option_bind].
    cbn [g_rx_payload_idx g_rx_payload_len set_g_rx_payload_buffer
         set_g_rx_payload_idx set_g_rx_checksum_calculated].
    destruct (_ <=? _); apply Hsame; reflexivity.
  - destruct (b =? _); [apply Hsame; reflexivity|].
    intros [= <-]. split; [reflexivity|].
    exists [(g_rx_cmd s, ARES_STATUS_ERROR_CHECKSUM)]. repeat split. cbn. lia.
  - destruct (b =? ARESPLOT_EOP).
    + destruct (process_received_frame_handled cast_out_of_range s Hwf)
        as (s2 & -> & _ & _ & _ & Hsent & _ & status & Hacks & Hp & Hc & Hs).
      cbn [mbind option_bind]. intros [= <-]. split; [exact Hsent|].
      exists [(g_rx_cmd s, status)]. split; [cbn; lia|]. split; [exact Hacks|].
      unfold pending_ack, slot_after. cbn [g_ack_pending g_ack_cmd_to_ack
        g_ack_status_to_send set_g_rx_state last].
      rewrite Hp, Hc, Hs. reflexivity.
    + cbn [mbind option_bind]. apply Hsame; reflexivity.
Qed.

Lemma slot_after_app (p : option (Z * aresplot_ack_status_t))
    (xs ys : list (Z * aresplot_ack_status_t)) :
  slot_after (slot_after p xs) ys = slot_after p (xs ++ ys).
Proof.
  unfold slot_after. rewrite last_app.
  destruct (last ys); [reflexivity|]. destruct (last xs); reflexivity.
Qed.

(** Any number of received bytes: nothing is sent, and the slot holds
    the latest acknowledgement queued, if any was. *)
Lemma feed_bytes_acks (bytes : list Z) : forall (s s' : world),
  inv s -> feed_bytes cast_out_of_range bytes s = Some s' ->
  inv s' /\
  sent_packets s' = sent_packets s /\
  exists acks,
    log_acks s' = log_acks s ++ acks /\
    pending_ack s' = slot_after (pending_ack s) acks.
Proof.
  induction bytes as [|b bytes IH]; intros s s' Hinv; cbn [feed_bytes].
  - intros [= <-]. split; [exact Hinv|]. split; [reflexivity|].
    exists []. now rewrite app_nil_r.
  - destruct (aresplot_rx_feed_byte_inv cast_out_of_range b s Hinv)
      as (s1 & Hs1 & Hinv1).
    rewrite Hs1. cbn [mbind option_bind]. intros Hrest.
    destruct (aresplot_rx_feed_byte_acks b s s1 (proj1 Hinv) Hs1)
      as (Hsent1 & acks1 & _ & Hlog1 & Hp1).
    destruct (IH s1 s' Hinv1 Hrest) as (Hinv' & Hsent' & acks & Hlog & Hp).
    split; [exact Hinv'|]. split; [congruence|].
    exists (acks1 ++ acks). split.
    + rewrite Hlog, Hlog1. now rewrite app_assoc.
    + rewrite Hp, Hp1. apply slot_after_app.
Qed.

End Acknowledgements.
(** ** Device memory *)

Lemma mem_write_same (m : Z -> Z) (a v : Z) : mem_write m a v a = u8 v.
Proof. unfold mem_write. now rewrite Z.eqb_refl. Qed.

Lemma mem_write_other (m : Z -> Z) (a v x : Z) :
  x <> a -> mem_write m a v x = m x.
Proof.
  intros H. unfold mem_write. destruct (Z.eqb_spec x a); [contradiction|easy].
Qed.

Lemma u8_u8 (x : Z) : u8 (u8 x) = u8 x.
Proof. unfold u8. apply Zmod_mod. Qed.

Lemma read_write_u8 (m : Z -> Z) (a v : Z) :
  read_le (write_u8 m a v) a 1 = v mod 2 ^ 8.
Proof.
  cbn [read_le]. unfold read_u8, write_u8. rewrite mem_write_same, u8_u8.
  unfold u8. change (2 ^ 8) with 256. lia.
Qed.

Lemma read_write_u16 (m : Z -> Z) (a v : Z) :
  read_le (write_u16 m a v) a 2 = v mod 2 ^ 16.
Proof.
  cbn [read_le]. unfold read_u8, write_u16.
  rewrite (mem_write_other _ (a + 1) _ a) by lia.
  rewrite !mem_write_same, !u8_u8. unfold u8.
  rewrite Z.shiftr_div_pow2 by lia.
  change (2 ^ 16) with (256 * 256). change (2 ^ 8) with 256.
  rewrite (Z.rem_mul_r v 256 256) by lia. lia.
Qed.

Lemma read_write_u32 (m : Z -> Z) (a v : Z) :
  read_le (write_u32 m a v) a 4 = v mod 2 ^ 32.
Proof.
  cbn [read_le]. unfold read_u8, write_u32.
  replace (a + 1 + 1) with (a + 2) by lia.
  replace (a + 2 + 1) with (a + 3) by lia.
  rewrite (mem_write_other _ (a + 3) _ a) by lia.
  rewrite (mem_write_other _ (a + 2) _ a) by lia.
  rewrite (mem_write_other _ (a + 1) _ a) by lia.
  rewrite (mem_write_other _ (a + 3) _ (a + 1)) by lia.
  rewrite (mem_write_other _ (a + 2) _ (a + 1)) by lia.
  rewrite (mem_write_other _ (a + 3) _ (a + 2)) by lia.
  rewrite !mem_write_same, !u8_u8. unfold u8.
  rewrite !Z.shiftr_div_pow2 by lia.
  change (2 ^ 32) with (256 * (256 * (256 * 256))).
  change (2 ^ 8) with 256. change (2 ^ 16) with (256 * 256).
  change (2 ^ 24) with (256 * 256 * 256).
  rewrite (Z.rem_mul_r v 256 (256 * (256 * 256))) by lia.
  rewrite (Z.rem_mul_r (v / 256) 256 (256 * 256)) by lia.
  rewrite (Z.rem_mul_r (v / 256 / 256) 256 256) by lia.
  rewrite !Z.div_div by lia. lia.
Qed.

Lemma write_u8_outside (m : Z -> Z) (a v x : Z) :
  ~ (a <= x < a + 1) -> write_u8 m a v x = m x.
Proof. intros H. unfold write_u8. apply mem_write_other. lia. Qed.

Lemma write_u16_outside (m : Z -> Z) (a v x : Z) :
  ~ (a <= x < a + 2) -> write_u16 m a v x = m x.
Proof.
  intros H. unfold write_u16. rewrite !mem_write_other by lia. reflexivity.
Qed.

Lemma write_u32_outside (m : Z -> Z) (a v x : Z) :
  ~ (a <= x < a + 4) -> write_u32 m a v x = m x.
Proof.
  intros H. unfold write_u32. rewrite !mem_write_other by lia. reflexivity.
Qed.


(** ** The conversions against the IEEE-754 reading *)

Lemma decode_f32_fields (x : Z) :
  0 <= x < 2 ^ 32 ->
  Z.land (Z.shiftr x 23) 255 = ieee754_exponent x /\
  Z.land x 0x7FFFFF = ieee754_fraction x /\
  Z.testbit x 31 = ieee754_negative x.
Proof.
  intros Hx. unfold ieee754_exponent, ieee754_fraction, ieee754_negative.
  split; [|split].
  - change 255 with (Z.ones 8). rewrite Z.land_ones by lia.
    now rewrite Z.shiftr_div_pow2 by lia.
  - change 0x7FFFFF with (Z.ones 23). now rewrite Z.land_ones by lia.
  - rewrite (Z.mod_small x) by lia.
    assert (Hq : 0 <= x / 2 ^ 31 < 2).
    { split; [apply Z.div_pos; lia|apply Z.div_lt_upper_bound; lia]. }
    destruct (Z.leb_spec (2 ^ 31) x) as [H|H].
    + apply Z.testbit_true; [lia|].
      assert (1 <= x / 2 ^ 31) by (apply Z.div_le_lower_bound; lia).
      replace (x / 2 ^ 31) with 1 by lia. reflexivity.
    + apply Bool.not_true_is_false. intros Ht.
      apply Z.testbit_true in Ht; [|lia].
      rewrite (Z.div_small x) in Ht by lia. discriminate.
Qed.

Lemma ieee754_fields_range (x : Z) :
  0 <= ieee754_exponent x < 256 /\ 0 <= ieee754_fraction x < 2 ^ 23.
Proof.
  unfold ieee754_exponent, ieee754_fraction.
  split; apply Z.mod_pos_bound; lia.
Qed.

(** The reading of [ieee754_truncates_to] as a proposition. *)
Lemma ieee754_truncates_to_iff (bits z : Z) :
  ieee754_truncates_to bits z = true <->
  ieee754_exponent bits < 255 /\
  Z.abs z * 2 ^ 150
  <= ieee754_significand bits * 2 ^ Z.max (ieee754_exponent bits) 1
  < (Z.abs z + 1) * 2 ^ 150 /\
  (z = 0 \/ ((z < 0) <-> ieee754_negative bits = true)).
Proof.
  unfold ieee754_truncates_to. cbv zeta.
  rewrite !andb_true_iff, orb_true_iff, Z.ltb_lt, Z.leb_le, Z.ltb_lt, Z.eqb_eq.
  assert (Hs : Bool.eqb (z <? 0) (ieee754_negative bits) = true
               <-> ((z < 0) <-> ieee754_negative bits = true)).
  { destruct (Z.ltb_spec z 0), (ieee754_negative bits); cbn;
      intuition (try discriminate; try lia). }
  rewrite Hs. tauto.
Qed.

(** The magnitude of a truncated quotient. *)
Lemma truncation_unique (M P q : Z) :
  0 < P -> 0 <= q -> q * P <= M < (q + 1) * P -> q = M / P.
Proof.
  intros HP Hq H. apply (Z.div_unique M P q (M - q * P)); lia.
Qed.

Lemma cond_Zopp_sign (s : bool) (mag z : Z) :
  0 <= mag -> Z.abs z = mag -> (z = 0 \/ ((z < 0) <-> s = true)) ->
  cond_Zopp s mag = z.
Proof.
  intros Hm Ha Hs. unfold cond_Zopp. destruct s.
  - destruct Hs as [->|[H1 H2]]; [cbn in Ha; subst; reflexivity|].
    specialize (H2 eq_refl). lia.
  - destruct Hs as [->|[H1 H2]]; [cbn in Ha; subst; reflexivity|].
    destruct (Z.ltb_spec z 0) as [H|H]; [specialize (H1 H); discriminate|lia].
Qed.

Lemma cond_Zopp_abs (s : bool) (mag : Z) :
  0 <= mag ->
  Z.abs (cond_Zopp s mag) = mag /\
  (cond_Zopp s mag = 0 \/ ((cond_Zopp s mag < 0) <-> s = true)).
Proof.
  intros Hm. unfold cond_Zopp. destruct s.
  - split; [lia|]. destruct (Z.eq_dec mag 0); [left; lia|right].
    split; [reflexivity|lia].
  - split; [lia|]. right. split; [lia|discriminate].
Qed.

(** [float_trunc] computes the truncation toward zero of the number a
    pattern denotes, and nothing for an infinity or a NaN. *)
Lemma float_trunc_spec (bits z : Z) :
  0 <= bits < 2 ^ 32 ->
  float_trunc (decode_f32 bits) = Some z <-> ieee754_truncates_to bits z = true.
Proof.
  intros Hb. rewrite ieee754_truncates_to_iff.
  destruct (decode_f32_fields bits Hb) as (He & Hf & Hs).
  destruct (ieee754_fields_range bits) as (Her & Hfr).
  unfold decode_f32. cbv zeta. rewrite He, Hf, Hs.
  unfold ieee754_significand.
  set (e := ieee754_exponent bits) in *. set (f := ieee754_fraction bits) in *.
  set (s := ieee754_negative bits) in *.
  change (2 ^ 23) with 8388608 in *. change 0x800000 with 8388608.
  destruct (Z.eqb_spec e 0) as [E0|E0].
  - (* zero or subnormal: the magnitude is below 1 *)
    rewrite E0. change (Z.max 0 1) with 1. change (2 ^ 1) with 2.
    assert (Hz : float_trunc (if f =? 0 then S754_zero s
                  else S754_finite s (Z.to_pos f) (-149)) = Some 0).
    { destruct (Z.eqb_spec f 0) as [F0|F0]; [reflexivity|].
      cbn [float_trunc Z.leb Z.compare Z.opp]. rewrite Z2Pos.id by lia.
      rewrite Z.div_small by lia. now destruct s. }
    rewrite Hz. split.
    + intros [= <-]. cbn [Z.abs]. split; [lia|]. split; [lia|now left].
    + intros (_ & (H1 & _) & _). f_equal.
      assert (Z.abs z = 0) by lia. lia.
  - destruct (Z.eqb_spec e 255) as [E255|E255].
    + (* infinity or NaN *)
      split; [destruct (f =? 0); discriminate|lia].
    + assert (Hmax : Z.max e 1 = e) by lia. rewrite Hmax.
      cbn [float_trunc]. rewrite Z2Pos.id by lia.
      set (M := f + 8388608).
      replace (8388608 + f) with M by (unfold M; lia).
      assert (HM : 0 < M) by (unfold M; lia).
      destruct (Z.leb_spec 0 (e - 150)) as [Ehi|Elo].
      * (* an integer already *)
        assert (Hp : 2 ^ e = 2 ^ (e - 150) * 2 ^ 150).
        { rewrite <- Z.pow_add_r by lia. f_equal. lia. }
        assert (Hq : 0 < 2 ^ (e - 150)) by (apply Z.pow_pos_nonneg; lia).
        set (Q := 2 ^ (e - 150)) in *. rewrite Hp.
        set (B := 2 ^ 150). assert (HB : 0 < B) by (unfold B; lia).
        split.
        -- intros [= <-].
           destruct (cond_Zopp_abs s (M * Q)) as (Ha & Hsg); [nia|].
           rewrite Ha. split; [lia|]. split; [nia|exact Hsg].
        -- intros (_ & (H1 & H2) & Hsg). f_equal.
           apply cond_Zopp_sign; [nia| |exact Hsg]. nia.
      * (* the fractional part is dropped *)
        assert (Hp : 2 ^ 150 = 2 ^ (150 - e) * 2 ^ e).
        { rewrite <- Z.pow_add_r by lia. f_equal. lia. }
        replace (- (e - 150)) with (150 - e) by lia.
        assert (Hq : 0 < 2 ^ (150 - e)) by (apply Z.pow_pos_nonneg; lia).
        assert (HA : 0 < 2 ^ e) by (apply Z.pow_pos_nonneg; lia).
        set (P := 2 ^ (150 - e)) in *. set (A := 2 ^ e) in *. rewrite Hp.
        assert (Hdiv : 0 <= M / P) by (apply Z.div_pos; lia).
        pose proof (Z.mul_div_le M P Hq) as Hlow.
        pose proof (Z.mul_succ_div_gt M P Hq) as Hhigh.
        split.
        -- intros [= <-].
           destruct (cond_Zopp_abs s (M / P)) as (Ha & Hsg); [lia|].
           rewrite Ha. split; [lia|]. split; [nia|exact Hsg].
        -- intros (_ & (H1 & H2) & Hsg). f_equal.
           apply cond_Zopp_sign; [lia| |exact Hsg].
           apply truncation_unique; [lia|lia|nia].
Qed.

(** [float_is_nonzero] is the negation of the zero test. *)
Lemma float_is_nonzero_spec (bits : Z) :
  0 <= bits < 2 ^ 32 ->
  float_is_nonzero bits = negb (ieee754_is_zero bits).
Proof.
  intros Hb. destruct (decode_f32_fields bits Hb) as (He & Hf & _).
  destruct (ieee754_fields_range bits) as (Her & Hfr).
  unfold float_is_nonzero, decode_f32, ieee754_is_zero. cbv zeta.
  rewrite He, Hf.
  destruct (Z.eqb_spec (ieee754_exponent bits) 0) as [E|E]; cbn [andb negb].
  - destruct (ieee754_fraction bits =? 0); reflexivity.
  - destruct (ieee754_exponent bits =? 255);
      [destruct (ieee754_fraction bits =? 0)|]; reflexivity.
Qed.

Lemma load_le32_range (p : list Z) (off x : Z) :
  load_le32 p off = Some x -> 0 <= x < 2 ^ 32.
Proof.
  unfold load_le32. intros H.
  destruct (load p off); [|discriminate].
  destruct (load p (off + 1)); [|discriminate].
  destruct (load p (off + 2)); [|discriminate].
  destruct (load p (off + 3)); [|discriminate].
  cbn [mbind option_bind] in H. injection H as <-.
  unfold le32, u32. apply Z.mod_pos_bound. lia.
Qed.

Section ConversionFacts.

Variable cast_out_of_range : Z -> Z -> Z.

(** [(T)float_val] is the truncated number when it fits the type. *)
Lemma cast_float_in_range (ty lo hi fv z : Z) :
  float_trunc (decode_f32 fv) = Some z -> lo <= z <= hi ->
  cast_float cast_out_of_range ty lo hi fv = z.
Proof.
  intros Ht Hz. unfold cast_float. rewrite Ht.
  destruct (Z.leb_spec lo z); [|lia]. destruct (Z.leb_spec z hi); [|lia].
  reflexivity.
Qed.

(** When no truncated number fits the type, the result is the
    target's. *)
Lemma cast_float_out_of_range (ty lo hi fv : Z) :
  (forall z, float_trunc (decode_f32 fv) = Some z -> ~ lo <= z <= hi) ->
  cast_float cast_out_of_range ty lo hi fv = cast_out_of_range ty fv.
Proof.
  intros H. unfold cast_float.
  destruct (float_trunc (decode_f32 fv)) as [z|]; [|reflexivity].
  specialize (H z eq_refl).
  destruct (Z.leb_spec lo z); [|reflexivity].
  destruct (Z.leb_spec z hi); [lia|reflexivity].
Qed.

(** The pattern stored for an integer type: the cast, in two's
    complement at the width of the type. *)
Lemma converted_pattern_int (ty lo hi fv : Z) :
  int_range ty = Some (lo, hi) ->
  converted_pattern cast_out_of_range ty fv
  = cast_float cast_out_of_range ty lo hi fv mod 2 ^ (8 * type_size ty).
Proof.
  unfold int_range, converted_pattern, type_size.
  unfold ARES_TYPE_INT8, ARES_TYPE_UINT8, ARES_TYPE_INT16, ARES_TYPE_UINT16,
    ARES_TYPE_INT32, ARES_TYPE_UINT32, ARES_TYPE_FLOAT32, ARES_TYPE_FLOAT64,
    ARES_TYPE_BOOL.
  destruct (Z.eqb_spec ty 0) as [->|N0]; [intros [= <- <-]; reflexivity|].
  destruct (Z.eqb_spec ty 1) as [->|N1]; [intros [= <- <-]; reflexivity|].
  destruct (Z.eqb_spec ty 2) as [->|N2]; [intros [= <- <-]; reflexivity|].
  destruct (Z.eqb_spec ty 3) as [->|N3]; [intros [= <- <-]; reflexivity|].
  destruct (Z.eqb_spec ty 4) as [->|N4]; [intros [= <- <-]; reflexivity|].
  destruct (Z.eqb_spec ty 5) as [->|N5]; [intros [= <- <-]; reflexivity|].
  discriminate.
Qed.

End ConversionFacts.

(** * The claims *)

Section Claims.

Variable cast_out_of_range : Z -> Z -> Z.

Local Abbreviation feed := (feed_bytes cast_out_of_range).

(** A complete well-formed frame, from AwaitStart: the receiver hands
    the frame to the dispatcher with the payload at the start of the
    buffer, and returns to AwaitStart. *)
Lemma feed_frame_dispatch (cmd : Z) (payload : list Z) (s : world) :
  wf s ->
  g_rx_state s = ARES_RX_STATE_WAIT_SOP ->
  Z.of_nat (length payload) <= ARESPLOT_SHARED_BUFFER_SIZE ->
  feed (frame_of cmd payload) s
  = (s2 ← process_received_frame cast_out_of_range
            (rx_upd ARES_RX_STATE_WAIT_EOP
               (write_at (g_rx_payload_buffer s) 0 payload)
               (Z.of_nat (length payload))
               (if decide (payload = []) then g_rx_payload_idx s
                else Z.of_nat (length payload))
               cmd (frame_checksum cmd payload) s);
     Some (set_g_rx_state ARES_RX_STATE_WAIT_SOP s2)).
Proof.
  intros Hwf Hst Hlen. unfold ARESPLOT_SHARED_BUFFER_SIZE in *.
  change (frame_of cmd payload)
    with (frame_header cmd (length payload) ++ payload
          ++ [frame_checksum cmd payload; ARESPLOT_EOP]).
  rewrite app_assoc, feed_bytes_app.
  rewrite feed_header_and_payload by assumption.
  cbn [mbind option_bind].
  rewrite received_checksum_frame by lia.
  set (s1 := rx_upd _ _ _ _ _ _ s).
  erewrite feed_cons
    by (apply (step_wait_checksum_ok cast_out_of_range s1); reflexivity).
  cbn [feed_bytes]. rewrite step_wait_eop by reflexivity.
  destruct (process_received_frame _ _); reflexivity.
Qed.

(** A complete well-formed frame, from AwaitStart: the frame is
    handed to the dispatcher exactly once, with its command and
    payload, one acknowledgement is queued by the handler, and the
    receiver is back in AwaitStart. *)
Lemma feed_frame (cmd : Z) (payload : list Z) (s : world) :
  wf s ->
  g_rx_state s = ARES_RX_STATE_WAIT_SOP ->
  Z.of_nat (length payload) <= ARESPLOT_SHARED_BUFFER_SIZE ->
  exists s',
    feed (frame_of cmd payload) s = Some s' /\
    wf s' /\
    g_rx_state s' = ARES_RX_STATE_WAIT_SOP /\
    g_rx_payload_buffer s' = write_at (g_rx_payload_buffer s) 0 payload /\
    log_dispatched s' = log_dispatched s ++ [(cmd, payload)] /\
    exists status, log_acks s' = log_acks s ++ [(cmd, status)].
Proof.
  intros Hwf Hst Hlen. pose proof Hwf as (Hrx & Htx & Hmv).
  rewrite feed_frame_dispatch by assumption.
  unfold ARESPLOT_SHARED_BUFFER_SIZE in *.
  set (s1 := rx_upd _ _ _ _ _ _ s).
  assert (Hwf1 : wf s1).
  { unfold wf. cbn [g_rx_payload_buffer g_tx_assembly_buffer g_monitor_vars
      s1 rx_upd set_g_rx_state set_g_rx_payload_buffer set_g_rx_payload_len
      set_g_rx_payload_idx set_g_rx_cmd set_g_rx_checksum_calculated].
    rewrite length_write_at by (simpl; lia). auto. }
  destruct (process_received_frame_handled cast_out_of_range _ Hwf1)
    as (s2 & -> & Hwf2 & Hsame & Hlog & _ & _ & status & Hacks & _).
  cbn [mbind option_bind]. eexists. split; [reflexivity|].
  destruct Hsame as (_ & Hbuf & _).
  split; [exact Hwf2|]. split; [reflexivity|].
  split; [exact Hbuf|]. split.
  - cbn [log_dispatched set_g_rx_state]. rewrite Hlog.
    cbn [log_dispatched set_log_dispatched g_rx_cmd g_rx_payload_len
         g_rx_payload_buffer s1 rx_upd set_g_rx_state set_g_rx_payload_buffer
         set_g_rx_payload_len set_g_rx_payload_idx set_g_rx_cmd
         set_g_rx_checksum_calculated].
    rewrite Nat2Z.id, take_write_at_0. reflexivity.
  - exists status. exact Hacks.
Qed.

(** C1. For every command id and payload whose assembled frame fits
    the shared buffer capacity: the Frame Transmitter hands the
    transport one packet, and feeding the bytes of that packet one by
    one to a Frame Receiver in AwaitStart succeeds, dispatches exactly
    one frame (the dispatch log grows by one entry), that frame has
    the same command id and the same payload bytes, and the receiver
    is back in AwaitStart. *)
Theorem C1_encode_then_decode (cmd : Z) (payload : list Z) (t s : world) :
  is_u8 cmd -> Forall is_u8 payload ->
  6 + Z.of_nat (length payload) <= ARESPLOT_SHARED_BUFFER_SIZE ->
  wf t -> wf s -> g_rx_state s = ARES_RX_STATE_WAIT_SOP ->
  exists t' frame s',
    assemble_and_send_frame_internal cmd payload
      (Z.of_nat (length payload)) t = Some t' /\
    sent_packets t' = sent_packets t ++ [frame] /\
    feed frame s = Some s' /\
    log_dispatched s' = log_dispatched s ++ [(cmd, payload)] /\
    g_rx_state s' = ARES_RX_STATE_WAIT_SOP.
Proof.
  intros _ _ Hfit Hwt Hws Hst.
  destruct (assemble_and_send_frame_internal_spec cmd payload t)
    as (buf & Hasm & _); [apply Hwt|exact Hfit|].
  destruct (feed_frame cmd payload s Hws Hst)
    as (s' & Hfeed & _ & Hst' & _ & Hlog & _).
  { unfold ARESPLOT_SHARED_BUFFER_SIZE in *. lia. }
  exists (with_tx buf (sent_packets t ++ [frame_of cmd payload]) t),
    (frame_of cmd payload), s'.
  repeat split; assumption || reflexivity.
Qed.

(** C2. For every valid frame (a payload that fits the receive
    buffer, which covers every frame the transmitter can assemble) and
    every single bit flipped in one payload byte: after the header and
    the payload of the corrupted frame the receiver is in
    AwaitChecksum with an accumulated checksum different from the
    checksum byte of the frame; after the whole corrupted frame
    exactly one acknowledgement has been queued, with status
    checksum-error for the command id of the frame, the receiver is in
    AwaitStart, and nothing was dispatched. *)
Theorem C2_single_bit_corruption_rejected (cmd : Z) (payload : list Z)
    (i : nat) (b k : Z) (s : world) :
  is_u8 cmd -> Forall is_u8 payload ->
  Z.of_nat (length payload) <= ARESPLOT_SHARED_BUFFER_SIZE ->
  payload !! i = Some b -> 0 <= k < 8 ->
  wf s -> g_rx_state s = ARES_RX_STATE_WAIT_SOP ->
  let corrupted := <[(4 + i)%nat := Z.lxor b (2 ^ k)]> (frame_of cmd payload) in
  exists s1 s',
    feed (take (4 + length payload) corrupted) s = Some s1 /\
    g_rx_state s1 = ARES_RX_STATE_WAIT_CHECKSUM /\
    corrupted !! (4 + length payload)%nat = Some (frame_checksum cmd payload) /\
    g_rx_checksum_calculated s1 <> frame_checksum cmd payload /\
    feed corrupted s = Some s' /\
    g_rx_state s' = ARES_RX_STATE_WAIT_SOP /\
    log_acks s' = log_acks s ++ [(cmd, ARES_STATUS_ERROR_CHECKSUM)] /\
    g_ack_pending s' = 1 /\ g_ack_cmd_to_ack s' = cmd /\
    g_ack_status_to_send s' = ARES_STATUS_ERROR_CHECKSUM /\
    log_dispatched s' = log_dispatched s.
Proof.
  intros Hc Hp Hfit Hi Hk Hwf Hst corrupted.
  unfold ARESPLOT_SHARED_BUFFER_SIZE in *.
  pose proof (lookup_lt_Some _ _ _ Hi) as Hlt.
  set (payload' := <[i := Z.lxor b (2 ^ k)]> payload).
  assert (Hlen' : length payload' = length payload) by apply length_insert.
  assert (Hcor : corrupted = (frame_header cmd (length payload') ++ payload')
                   ++ [frame_checksum cmd payload; ARESPLOT_EOP]).
  { unfold corrupted, frame_of. rewrite Hlen'.
    change [ARESPLOT_SOP; cmd; u8 (Z.land (Z.of_nat (length payload)) 255);
            u8 (Z.land (Z.shiftr (Z.of_nat (length payload)) 8) 255)]
      with (frame_header cmd (length payload)).
    rewrite insert_app_r_alt by (simpl; lia).
    replace (4 + i - length (frame_header cmd (length payload)))%nat with i
      by (simpl; lia).
    rewrite insert_app_l by exact Hlt. now rewrite <- app_assoc. }
  assert (Hpre : length (frame_header cmd (length payload') ++ payload')
                 = (4 + length payload)%nat).
  { rewrite length_app, Hlen'. reflexivity. }
  assert (Hrun : feed (frame_header cmd (length payload') ++ payload') s
                 = Some (rx_upd ARES_RX_STATE_WAIT_CHECKSUM
                           (write_at (g_rx_payload_buffer s) 0 payload')
                           (Z.of_nat (length payload'))
                           (if decide (payload' = []) then g_rx_payload_idx s
                            else Z.of_nat (length payload'))
                           cmd (frame_checksum cmd payload') s)).
  { rewrite feed_header_and_payload
      by (try assumption; unfold ARESPLOT_SHARED_BUFFER_SIZE; lia).
    now rewrite received_checksum_frame by lia. }
  assert (Hbad : frame_checksum cmd payload <> frame_checksum cmd payload').
  { intros E. symmetry in E. revert E. now apply frame_checksum_flip. }
  eexists. eexists.
  split. { rewrite Hcor, take_app_length' by (symmetry; exact Hpre). exact Hrun. }
  split; [reflexivity|].
  split. { rewrite Hcor, lookup_app_r by lia. now rewrite Hpre, Nat.sub_diag. }
  split. { cbn. intros E. apply Hbad. now symmetry. }
  split.
  { rewrite Hcor, feed_bytes_app, Hrun. cbn [mbind option_bind feed_bytes].
    rewrite step_wait_checksum_bad by (try reflexivity; exact Hbad).
    cbn [mbind option_bind].
    rewrite step_wait_sop_other by (try reflexivity; discriminate).
    reflexivity. }
  repeat split.
Qed.

Lemma read_le_1 (m : Z -> Z) (a : Z) : read_le m a 1 = read_u8 m a.
Proof. cbn [read_le]. lia. Qed.

Lemma read_le_2 (m : Z -> Z) (a : Z) : read_le m a 2 = read_u16 m a.
Proof. cbn [read_le]. unfold read_u16. lia. Qed.

Lemma read_le_4 (m : Z -> Z) (a : Z) : read_le m a 4 = read_u32 m a.
Proof.
  cbn [read_le]. unfold read_u32.
  replace (a + 1 + 1) with (a + 2) by lia.
  replace (a + 2 + 1) with (a + 3) by lia. lia.
Qed.

(** For every tag of the data model but the 64-bit float, and for a
    NULL address, the value sampled is the one the specification asks
    for. *)
Lemma temp_float_val_of_spec (m : Z -> Z) (v : aresplot_var_info_t) :
  type v <> ARES_TYPE_FLOAT64 \/ ptr v = 0 ->
  temp_float_val_of m v = spec_sample_value m v.
Proof.
  intros H. unfold temp_float_val_of, spec_sample_value.
  rewrite read_le_1, read_le_2, read_le_4.
  destruct (Z.eqb_spec (ptr v) 0) as [E|E]; [reflexivity|].
  destruct H as [H|H]; [|contradiction].
  repeat match goal with
  | |- context [type v =? ?t] =>
      destruct (Z.eqb_spec (type v) t); [try reflexivity; try contradiction|]
  end.
  - destruct (read_u8 m (ptr v) =? 0); reflexivity.
  - reflexivity.
Qed.

(** An entry declared as a 64-bit float is sampled as 0.0f, whatever
    its address and the memory. *)
Lemma temp_float_val_of_float64 (m : Z -> Z) (a : Z) :
  temp_float_val_of m (VarInfo a ARES_TYPE_FLOAT64) = F32_ZERO.
Proof.
  unfold temp_float_val_of. cbn [ptr type].
  destruct (a =? 0); reflexivity.
Qed.

(** C3. The failing input: a table with one entry declared as a
    64-bit float, at a non-NULL address where the memory holds the
    double 1.0. Read according to the declared type and widened to a
    32-bit float the entry is 1.0f (0x3F800000); the sampling pass
    sends 0.0f: the data frame carries the timestamp followed by four
    zero bytes. (The tick advances by 10 ms per reading: 1000 when the
    table is set, 1010 when the service runs, 1020 for the
    timestamp.) *)
Theorem C3_float64_entry_sampled_as_zero :
  let v := VarInfo 0x20000000 ARES_TYPE_FLOAT64 in
  let m := memory_with_double_one in
  exists s s',
    feed (frame_of ARESPLOT_CMD_START_MONITOR monitor_one_double)
      (power_on m (fun k => 1000 + 10 * Z.of_nat k)) = Some s /\
    table_state s = (1, 1, [v]) /\
    g_ack_status_to_send s = ARES_STATUS_OK /\
    data_model_tag (type v) = true /\
    read_le (memory s) (ptr v) 8 = 0x3FF0000000000000 /\
    spec_sample_value (memory s) v = F32_ONE /\
    temp_float_val_of (memory s) v = F32_ZERO /\
    aresplot_service_tick s = Some s' /\
    sent_packets s'
    = [ack_frame ARESPLOT_CMD_START_MONITOR ARES_STATUS_OK;
       frame_of ARESPLOT_CMD_MONITOR_DATA
         (le32_bytes 1020 ++ le32_bytes F32_ZERO)].
Proof.
  cbv zeta. eexists. eexists.
  split; [vm_compute; reflexivity|].
  split; [vm_compute; reflexivity|].
  split; [reflexivity|].
  split; [reflexivity|].
  split; [vm_compute; reflexivity|].
  split; [vm_compute; reflexivity|].
  split; [vm_compute; reflexivity|].
  split; [vm_compute; reflexivity|].
  vm_compute. reflexivity.
Qed.

Lemma time_diff_elapsed (now last : Z) :
  0 <= now < 4294967296 -> 0 <= last < 4294967296 ->
  time_diff now last
  = (if last <=? now then now - last else (0xFFFFFFFF - last) + now + 1) /\
  time_diff now last = (now - last) mod 4294967296.
Proof.
  intros Hn Hl. unfold time_diff, u32.
  destruct (Z.leb_spec last now) as [E|E].
  - rewrite Z.mod_small by lia. split; reflexivity.
  - rewrite (Z.mod_small (4294967295 - last)) by lia.
    rewrite (Z.mod_small (4294967295 - last + now)) by lia.
    rewrite (Z.mod_small (4294967295 - last + now + 1)) by lia.
    split; [reflexivity|].
    replace (now - last) with (4294967295 - last + now + 1 + (-1) * 4294967296)
      by lia.
    rewrite Z.mod_add by lia. rewrite Z.mod_small by lia. reflexivity.
Qed.

(** C4. For every state in which monitoring is active with a non-empty
    table, with [now] the tick read by the service call and [last] the
    last-sample time: the elapsed time computed by the scheduler is
    now - last when now >= last and (MAX - last) + now + 1 when
    now < last, which is (now - last) modulo 2^32; the service call
    takes a sample (one data frame is sent after the pending
    acknowledgement, if any, and the last-sample time becomes now)
    exactly when elapsed >= period, and otherwise sends no data frame
    and keeps the last-sample time; and with last = MAX-5, now = 10
    and period = 10 a sample is due. *)
Theorem C4_sample_due_across_wraparound (s : world) :
  wf s ->
  g_monitoring_active s <> 0 ->
  0 < g_num_monitor_vars s <= ARESPLOT_MAX_VARS_TO_MONITOR ->
  0 <= g_last_sample_time_ms s < 4294967296 ->
  let now := (aresplot_user_get_tick_ms s).1 in
  let last := g_last_sample_time_ms s in
  let period := g_sample_period_ms s in
  let elapsed :=
    if last <=? now then now - last else (0xFFFFFFFF - last) + now + 1 in
  let acks :=
    if g_ack_pending s =? 0 then []
    else [ack_frame (g_ack_cmd_to_ack s) (g_ack_status_to_send s)] in
  time_diff now last = elapsed /\
  elapsed = (now - last) mod 4294967296 /\
  (sample_due now last period = true <-> period <= elapsed) /\
  (exists s',
     aresplot_service_tick s = Some s' /\
     (period <= elapsed ->
        sent_packets s' = sent_packets s ++ acks ++ [data_frame s] /\
        g_last_sample_time_ms s' = now) /\
     (elapsed < period ->
        sent_packets s' = sent_packets s ++ acks /\
        g_last_sample_time_ms s' = last)) /\
  sample_due 10 (0xFFFFFFFF - 5) 10 = true.
Proof.
  intros Hwf Hact Hnum Hlast now last period elapsed acks.
  assert (Hnow : 0 <= now < 4294967296)
    by (apply Z.mod_pos_bound; lia).
  destruct (time_diff_elapsed now last Hnow Hlast) as [Hd Hm].
  fold elapsed in Hd.
  assert (Hdue : sample_due now last period = true <-> period <= elapsed).
  { unfold sample_due. rewrite Hd. apply Z.leb_le. }
  split; [exact Hd|]. split; [congruence|]. split; [exact Hdue|].
  split; [|reflexivity].
  destruct (aresplot_service_tick_spec s Hwf (proj2 Hnum))
    as (s' & Ht & _ & _ & Hsent & _ & Hlast' & _).
  exists s'. split; [exact Ht|].
  assert (Hs : samples s = sample_due now last period).
  { unfold samples.
    destruct (Z.eqb_spec (g_monitoring_active s) 0); [contradiction|].
    destruct (Z.ltb_spec 0 (g_num_monitor_vars s)); [reflexivity|lia]. }
  unfold service_packets in Hsent. rewrite Hs in Hsent, Hlast'.
  fold acks in Hsent.
  split; intros Hcmp.
  - apply Hdue in Hcmp. rewrite Hcmp in Hsent, Hlast'. auto.
  - destruct (sample_due now last period) eqn:E.
    + assert (period <= elapsed) by now apply Hdue. lia.
    + rewrite app_nil_r in Hsent. auto.
Qed.

(** C5. For every set-sample-rate command with a 4-byte payload, with
    [rate_hz] the little-endian value of the four payload bytes: the
    handler succeeds; a rate of 0 sets the period to the compile-time
    default; a non-zero rate sets it to 1000 / rate_hz with a floor of
    1 ms, which is never 0; the last-sample time is the tick read by
    the handler; and exactly one acknowledgement is queued, with
    status OK. *)
Theorem C5_set_sample_rate (s : world) :
  wf s -> g_rx_payload_len s = 4 ->
  exists rate_hz s',
    load_le32 (g_rx_payload_buffer s) 0 = Some rate_hz /\
    handle_cmd_set_sample_rate s = Some s' /\
    (rate_hz = 0 -> g_sample_period_ms s' = ARESPLOT_DEFAULT_SAMPLE_PERIOD_MS) /\
    (rate_hz <> 0 ->
       g_sample_period_ms s' = Z.max 1 (1000 / rate_hz) /\
       g_sample_period_ms s' <> 0) /\
    g_last_sample_time_ms s' = (aresplot_user_get_tick_ms s).1 /\
    log_acks s' = log_acks s ++ [(ARESPLOT_CMD_SET_SAMPLE_RATE, ARES_STATUS_OK)] /\
    g_ack_pending s' = 1 /\
    g_ack_cmd_to_ack s' = ARESPLOT_CMD_SET_SAMPLE_RATE /\
    g_ack_status_to_send s' = ARES_STATUS_OK.
Proof.
  intros (Hrx & _ & _) Hlen. unfold ARESPLOT_SHARED_BUFFER_SIZE in *.
  assert (Hload : exists b0 b1 b2 b3,
            load_le32 (g_rx_payload_buffer s) 0 = Some (le32 b0 b1 b2 b3)).
  { unfold load_le32.
    destruct (load_in_range (g_rx_payload_buffer s) 0) as [b0 ->]; [lia|].
    destruct (load_in_range (g_rx_payload_buffer s) (0 + 1)) as [b1 ->]; [lia|].
    destruct (load_in_range (g_rx_payload_buffer s) (0 + 2)) as [b2 ->]; [lia|].
    destruct (load_in_range (g_rx_payload_buffer s) (0 + 3)) as [b3 ->]; [lia|].
    now exists b0, b1, b2, b3. }
  destruct Hload as (b0 & b1 & b2 & b3 & Hload).
  set (rate_hz := le32 b0 b1 b2 b3) in *.
  assert (Hrange : 0 <= rate_hz < 4294967296)
    by (apply Z.mod_pos_bound; lia).
  unfold handle_cmd_set_sample_rate. rewrite Hlen, Hload.
  cbn [negb Z.eqb Pos.eqb mbind option_bind].
  exists rate_hz. eexists. split; [reflexivity|]. split; [reflexivity|].
  destruct (Z.eqb_spec rate_hz 0) as [E|E].
  - repeat split; try reflexivity; intros; contradiction.
  - assert (Hq : 0 <= 1000 / rate_hz) by (apply Z.div_pos; lia).
    destruct (Z.eqb_spec (1000 / rate_hz) 0) as [E'|E'];
      cbn [andb negb]; repeat split; try reflexivity;
      try (intros; contradiction); cbn; lia.
Qed.

(** The handler on a 9-byte payload, with the pattern it stores given
    by the conversions of the engine. *)
Lemma handle_cmd_set_variable_writes (s : world) :
  wf s -> g_rx_payload_len s = 9 ->
  exists addr ty float_val s',
    load_le32 (g_rx_payload_buffer s) 0 = Some addr /\
    load (g_rx_payload_buffer s) 4 = Some ty /\
    load_le32 (g_rx_payload_buffer s) 5 = Some float_val /\
    handle_cmd_set_variable cast_out_of_range s = Some s' /\
    g_ack_pending s' = 1 /\
    g_ack_cmd_to_ack s' = ARESPLOT_CMD_SET_VARIABLE /\
    (settable_type ty = false ->
       memory s' = memory s /\
       g_ack_status_to_send s' = ARES_STATUS_ERROR_TYPE_UNSUPPORTED /\
       log_acks s' = log_acks s ++
         [(ARESPLOT_CMD_SET_VARIABLE, ARES_STATUS_ERROR_TYPE_UNSUPPORTED)]) /\
    (settable_type ty = true ->
       read_le (memory s') addr (Z.to_nat (type_size ty))
       = converted_pattern cast_out_of_range ty float_val /\
       (forall x, ~ (addr <= x < addr + type_size ty) ->
                  memory s' x = memory s x) /\
       g_ack_status_to_send s' = ARES_STATUS_OK /\
       log_acks s' = log_acks s ++
         [(ARESPLOT_CMD_SET_VARIABLE, ARES_STATUS_OK)]).
Proof.
  intros (Hrx & _ & _) Hlen. unfold ARESPLOT_SHARED_BUFFER_SIZE in *.
  destruct (load_le32_in_range (g_rx_payload_buffer s) 0) as [addr Ha];
    [lia|lia|].
  destruct (load_in_range (g_rx_payload_buffer s) 4) as [ty Ht]; [lia|].
  destruct (load_le32_in_range (g_rx_payload_buffer s) 5) as [fv Hf];
    [lia|lia|].
  exists addr, ty, fv.
  unfold handle_cmd_set_variable. rewrite Hlen, Ha, Ht, Hf.
  cbn [negb Z.eqb Pos.eqb mbind option_bind].
  unfold settable_type, type_size, converted_pattern.
  unfold ARES_TYPE_INT8, ARES_TYPE_UINT8, ARES_TYPE_INT16, ARES_TYPE_UINT16,
    ARES_TYPE_INT32, ARES_TYPE_UINT32, ARES_TYPE_FLOAT32, ARES_TYPE_FLOAT64,
    ARES_TYPE_BOOL.
  destruct (Z.eqb_spec ty 0) as [->|N0].
  { eexists. repeat split; try discriminate; intros; cbn;
      [apply read_write_u8|now apply write_u8_outside]. }
  destruct (Z.eqb_spec ty 1) as [->|N1].
  { eexists. repeat split; try discriminate; intros; cbn;
      [apply read_write_u8|now apply write_u8_outside]. }
  destruct (Z.eqb_spec ty 2) as [->|N2].
  { eexists. repeat split; try discriminate; intros; cbn;
      [apply read_write_u16|now apply write_u16_outside]. }
  destruct (Z.eqb_spec ty 3) as [->|N3].
  { eexists. repeat split; try discriminate; intros; cbn;
      [apply read_write_u16|now apply write_u16_outside]. }
  destruct (Z.eqb_spec ty 4) as [->|N4].
  { eexists. repeat split; try discriminate; intros; cbn;
      [apply read_write_u32|now apply write_u32_outside]. }
  destruct (Z.eqb_spec ty 5) as [->|N5].
  { eexists. repeat split; try discriminate; intros; cbn;
      [apply read_write_u32|now apply write_u32_outside]. }
  destruct (Z.eqb_spec ty 6) as [->|N6].
  { eexists. repeat split; try discriminate; intros; cbn;
      [apply read_write_u32|now apply write_u32_outside]. }
  destruct (Z.eqb_spec ty 8) as [->|N8].
  { eexists. repeat split; try discriminate; intros; cbn.
    - rewrite read_write_u8. destruct (float_is_nonzero fv); reflexivity.
    - now apply write_u8_outside. }
  eexists. repeat split; discriminate.
Qed.

(** C6. For every set-variable command with a 9-byte payload, with
    the address, the type tag and the float taken from the payload:
    the handler succeeds; when the tag has no conversion case, the
    device memory is unchanged and exactly one acknowledgement is
    queued, with status type-unsupported; when it has one, the object
    of the declared type at the address holds the representation of
    the float in that type, every byte outside that object is
    unchanged, and exactly one acknowledgement is queued, with status
    OK. The representation is pinned by the IEEE-754 reading of the
    pattern: a 32-bit float holds the pattern itself; a boolean holds
    0 when the float is a zero and 1 otherwise; an integer holds, in
    two's complement, the float truncated toward zero when that fits
    its type, and the result of the target (C leaves it undefined)
    when no truncated value fits. *)
Theorem C6_set_variable (s : world) :
  wf s -> g_rx_payload_len s = 9 ->
  exists addr ty float_val s',
    load_le32 (g_rx_payload_buffer s) 0 = Some addr /\
    load (g_rx_payload_buffer s) 4 = Some ty /\
    load_le32 (g_rx_payload_buffer s) 5 = Some float_val /\
    handle_cmd_set_variable cast_out_of_range s = Some s' /\
    g_ack_pending s' = 1 /\
    g_ack_cmd_to_ack s' = ARESPLOT_CMD_SET_VARIABLE /\
    (settable_type ty = false ->
       memory s' = memory s /\
       g_ack_status_to_send s' = ARES_STATUS_ERROR_TYPE_UNSUPPORTED /\
       log_acks s' = log_acks s ++
         [(ARESPLOT_CMD_SET_VARIABLE, ARES_STATUS_ERROR_TYPE_UNSUPPORTED)]) /\
    (settable_type ty = true ->
       read_le (memory s') addr (Z.to_nat (type_size ty))
       = converted_pattern cast_out_of_range ty float_val /\
       (forall x, ~ (addr <= x < addr + type_size ty) ->
                  memory s' x = memory s x) /\
       g_ack_status_to_send s' = ARES_STATUS_OK /\
       log_acks s' = log_acks s ++
         [(ARESPLOT_CMD_SET_VARIABLE, ARES_STATUS_OK)] /\
       (ty = ARES_TYPE_FLOAT32 ->
          read_le (memory s') addr 4 = float_val) /\
       (ty = ARES_TYPE_BOOL ->
          read_le (memory s') addr 1
          = if ieee754_is_zero float_val then 0 else 1) /\
       (forall lo hi z,
          int_range ty = Some (lo, hi) ->
          ieee754_truncates_to float_val z = true -> lo <= z <= hi ->
          read_le (memory s') addr (Z.to_nat (type_size ty))
          = z mod 2 ^ (8 * type_size ty)) /\
       (forall lo hi,
          int_range ty = Some (lo, hi) ->
          (forall z, ieee754_truncates_to float_val z = true ->
                     ~ lo <= z <= hi) ->
          read_le (memory s') addr (Z.to_nat (type_size ty))
          = cast_out_of_range ty float_val mod 2 ^ (8 * type_size ty))).
Proof.
  intros Hwf Hlen.
  destruct (handle_cmd_set_variable_writes s Hwf Hlen)
    as (addr & ty & fv & s' & Ha & Ht & Hf & Hh & Hp & Hc & Hno & Hyes).
  pose proof (load_le32_range _ _ _ Hf) as Hfv.
  exists addr, ty, fv, s'.
  split; [exact Ha|]. split; [exact Ht|]. split; [exact Hf|].
  split; [exact Hh|]. split; [exact Hp|]. split; [exact Hc|].
  split; [exact Hno|].
  intros Hty. destruct (Hyes Hty) as (Hpat & Hout & Hst & Hlog).
  split; [exact Hpat|]. split; [exact Hout|]. split; [exact Hst|].
  split; [exact Hlog|].
  split; [|split; [|split]].
  - intros ->. change (Z.to_nat (type_size ARES_TYPE_FLOAT32)) with 4%nat in Hpat.
    rewrite Hpat. change (converted_pattern cast_out_of_range ARES_TYPE_FLOAT32 fv)
      with (fv mod 2 ^ 32).
    apply Z.mod_small. exact Hfv.
  - intros ->. change (Z.to_nat (type_size ARES_TYPE_BOOL)) with 1%nat in Hpat.
    rewrite Hpat.
    change (converted_pattern cast_out_of_range ARES_TYPE_BOOL fv)
      with (if float_is_nonzero fv then 1 else 0).
    rewrite float_is_nonzero_spec by exact Hfv.
    now destruct (ieee754_is_zero fv).
  - intros lo hi z Hr Hz Hin. rewrite Hpat.
    rewrite (converted_pattern_int cast_out_of_range ty lo hi fv Hr).
    apply float_trunc_spec in Hz; [|exact Hfv].
    now rewrite (cast_float_in_range cast_out_of_range ty lo hi fv z Hz Hin).
  - intros lo hi Hr Hnone. rewrite Hpat.
    rewrite (converted_pattern_int cast_out_of_range ty lo hi fv Hr).
    rewrite cast_float_out_of_range; [reflexivity|].
    intros z Hz. apply Hnone. now apply float_trunc_spec.
Qed.

(** C7. For every start-monitor command whose declared count (the
    first byte of the receive buffer) exceeds the maximum supported
    variable count, whatever the rest of the state and of the payload:
    the handler succeeds, queues exactly one acknowledgement, with
    status busy-or-limit, and afterwards the table count is 0 and
    monitoring is inactive. *)
Theorem C7_start_monitor_over_limit (s : world) (count : Z) :
  g_rx_payload_buffer s !! 0%nat = Some count ->
  ARESPLOT_MAX_VARS_TO_MONITOR < count ->
  exists s',
    handle_cmd_start_monitor s = Some s' /\
    log_acks s' = log_acks s ++
      [(ARESPLOT_CMD_START_MONITOR, ARES_STATUS_ERROR_MCU_BUSY_OR_LIMIT)] /\
    g_ack_pending s' = 1 /\
    g_ack_cmd_to_ack s' = ARESPLOT_CMD_START_MONITOR /\
    g_ack_status_to_send s' = ARES_STATUS_ERROR_MCU_BUSY_OR_LIMIT /\
    g_num_monitor_vars s' = 0 /\
    g_monitoring_active s' = 0.
Proof.
  unfold ARESPLOT_MAX_VARS_TO_MONITOR. intros Hcount Hover.
  unfold handle_cmd_start_monitor.
  pose proof (load_Some _ 0 _ Hcount) as Hload. change (Z.of_nat 0) with 0 in Hload.
  rewrite Hload. cbn [mbind option_bind].
  destruct (Z.eqb_spec count 0) as [E|_]; [lia|].
  unfold ARESPLOT_MAX_VARS_TO_MONITOR.
  destruct (Z.ltb_spec 10 count) as [_|E]; [|lia].
  cbn [mbind option_bind]. eexists. split; [reflexivity|]. repeat split.
Qed.

(** C8. For every sequence of received bytes during which exactly two
    acknowledgements are queued, starting from any state of the
    engine: nothing is transmitted meanwhile; the acknowledgement slot
    then holds the second one; the next service call transmits exactly
    one acknowledgement frame, carrying the command id and the status
    of the second (followed by a data frame when a sample is due), and
    empties the slot, so that the first is never transmitted; and the
    service call after it transmits no acknowledgement. The same holds
    for two direct calls of [queue_ack_response]. *)
Theorem C8_latest_ack_wins (s s2 : world) (bytes : list Z)
    (a1 a2 : Z * aresplot_ack_status_t) :
  inv s ->
  feed bytes s = Some s2 ->
  log_acks s2 = log_acks s ++ [a1; a2] ->
  pending_ack s2 = Some a2 /\
  queue_ack_response a2.1 a2.2 (queue_ack_response a1.1 a1.2 s)
  = set_log_acks (log_acks s ++ [a1; a2]) (queue_ack_response a2.1 a2.2 s) /\
  exists s' s'',
    aresplot_service_tick s2 = Some s' /\
    sent_packets s' = sent_packets s ++ ack_frame a2.1 a2.2
                        :: (if samples s2 then [data_frame s2] else []) /\
    g_ack_pending s' = 0 /\
    aresplot_service_tick s' = Some s'' /\
    sent_packets s'' = sent_packets s' ++
                         (if samples s' then [data_frame s'] else []).
Proof.
  intros Hinv Hfeed Hlog.
  destruct (feed_bytes_acks cast_out_of_range bytes s s2 Hinv Hfeed)
    as (Hinv2 & Hsent2 & acks & Hlog2 & Hp2).
  assert (acks = [a1; a2]) as ->.
  { rewrite Hlog in Hlog2. now apply app_inv_head in Hlog2. }
  cbn [slot_after last] in Hp2.
  split; [exact Hp2|].
  split.
  { destruct a1, a2. cbn [fst snd]. unfold queue_ack_response.
    cbn [log_acks set_log_acks set_g_ack_pending set_g_ack_status_to_send
         set_g_ack_cmd_to_ack].
    rewrite <- app_assoc. reflexivity. }
  pose proof Hinv2 as (Hwf2 & _ & Hnum2 & _).
  destruct (aresplot_service_tick_spec s2 Hwf2 Hnum2)
    as (s' & Ht & Hwf' & _ & Hsent' & Hpend' & _ & Hnum' & _).
  destruct (aresplot_service_tick_spec s' Hwf')
    as (s'' & Ht' & _ & _ & Hsent'' & _); [now rewrite Hnum'|].
  exists s', s''. split; [exact Ht|].
  unfold pending_ack in Hp2. unfold service_packets in Hsent', Hsent''.
  destruct (g_ack_pending s2 =? 0); [discriminate|].
  injection Hp2 as Hp2. rewrite <- Hp2. cbn [fst snd].
  rewrite Hpend' in Hsent''. cbn [Z.eqb app] in Hsent''.
  rewrite <- Hsent2. auto.
Qed.

(** C9. In every state the engine reaches from start-up, through any
    sequence of received bytes and service calls (every such run
    succeeds: no access falls outside an array): the receive buffer
    has its declared capacity; while in AwaitPayload the write index
    is non-negative and strictly below the declared length, which is
    within the capacity, so the next payload byte is stored inside the
    buffer; from AwaitChecksum to AwaitEnd the length of the stored
    payload is within the capacity, as is every payload that was
    dispatched; a length field that exceeds the capacity sends the
    machine from AwaitLengthHigh back to AwaitStart with the buffer
    untouched; and the next byte, whatever it is, is processed without
    a store outside the buffer. *)
Theorem C9_payload_within_buffer (m : Z -> Z) (ticks : nat -> Z)
    (calls : list api_call) :
  exists s,
    run cast_out_of_range calls (power_on m ticks) = Some s /\
    Z.of_nat (length (g_rx_payload_buffer s)) = ARESPLOT_SHARED_BUFFER_SIZE /\
    (g_rx_state s = ARES_RX_STATE_WAIT_PAYLOAD ->
       0 <= g_rx_payload_idx s < g_rx_payload_len s /\
       g_rx_payload_len s <= ARESPLOT_SHARED_BUFFER_SIZE /\
       g_rx_payload_idx s < Z.of_nat (length (g_rx_payload_buffer s))) /\
    (g_rx_state s = ARES_RX_STATE_WAIT_CHECKSUM \/
     g_rx_state s = ARES_RX_STATE_WAIT_EOP ->
       g_rx_payload_len s <= ARESPLOT_SHARED_BUFFER_SIZE) /\
    Forall (fun e : Z * list Z =>
              Z.of_nat (length e.2) <= ARESPLOT_SHARED_BUFFER_SIZE)
      (log_dispatched s) /\
    (forall byte,
       g_rx_state s = ARES_RX_STATE_WAIT_LEN2 ->
       ARESPLOT_SHARED_BUFFER_SIZE
       < u16 (Z.lor (g_rx_payload_len s) (u16 (Z.shiftl byte 8))) ->
       exists s',
         aresplot_rx_feed_byte cast_out_of_range byte s = Some s' /\
         g_rx_state s' = ARES_RX_STATE_WAIT_SOP /\
         g_rx_payload_buffer s' = g_rx_payload_buffer s) /\
    (forall byte,
       exists s',
         aresplot_rx_feed_byte cast_out_of_range byte s = Some s' /\
         length (g_rx_payload_buffer s') = length (g_rx_payload_buffer s)).
Proof.
  destruct (run_inv cast_out_of_range calls _ (power_on_inv m ticks))
    as (s & Hrun & Hinv).
  exists s. split; [exact Hrun|].
  pose proof Hinv as ((Hbuf & Htx & Hmv) & Hrx & Hnum & Hlog).
  split; [exact Hbuf|]. unfold rx_inv in Hrx.
  split. { intros Hst. rewrite Hst in Hrx. lia. }
  split. { intros [Hst|Hst]; rewrite Hst in Hrx; lia. }
  split; [exact Hlog|].
  split.
  { intros byte Hst Hover. rewrite step_wait_len2 by exact Hst. cbv zeta.
    destruct (Z.ltb_spec ARESPLOT_SHARED_BUFFER_SIZE
                (u16 (Z.lor (g_rx_payload_len s) (u16 (Z.shiftl byte 8)))))
      as [_|E]; [|lia].
    eexists. repeat split. }
  intros byte.
  destruct (aresplot_rx_feed_byte_inv cast_out_of_range byte s Hinv)
    as (s' & Hs' & (Hbuf' & _) & _).
  exists s'. split; [exact Hs'|]. lia.
Qed.

(** A start-monitor frame without payload, from AwaitStart: the frame
    is dispatched, the receive buffer is as the earlier frames left
    it, the status depends on its first byte only, and the table is
    left empty and inactive. *)
Lemma feed_zero_length_start_monitor (s : world) (residual : Z) :
  wf s -> g_rx_state s = ARES_RX_STATE_WAIT_SOP ->
  g_rx_payload_buffer s !! 0%nat = Some residual ->
  exists s',
    feed (frame_of ARESPLOT_CMD_START_MONITOR []) s = Some s' /\
    log_dispatched s' = log_dispatched s ++ [(ARESPLOT_CMD_START_MONITOR, [])] /\
    g_rx_payload_buffer s' = g_rx_payload_buffer s /\
    log_acks s' = log_acks s ++
      [(ARESPLOT_CMD_START_MONITOR, residual_status residual)] /\
    g_ack_status_to_send s' = residual_status residual /\
    g_num_monitor_vars s' = 0 /\ g_monitoring_active s' = 0.
Proof.
  intros Hwf Hst Hres.
  rewrite feed_frame_dispatch
    by (try assumption; unfold ARESPLOT_SHARED_BUFFER_SIZE; cbn; lia).
  unfold process_received_frame.
  cbn [g_rx_cmd rx_upd set_g_rx_state set_g_rx_payload_buffer
       set_g_rx_payload_len set_g_rx_payload_idx set_g_rx_cmd
       set_g_rx_checksum_calculated set_log_dispatched].
  cbn [Z.eqb Pos.eqb ARESPLOT_CMD_START_MONITOR].
  unfold handle_cmd_start_monitor.
  cbn [g_rx_payload_buffer g_rx_payload_len rx_upd set_g_rx_state
       set_g_rx_payload_buffer set_g_rx_payload_len set_g_rx_payload_idx
       set_g_rx_cmd set_g_rx_checksum_calculated set_log_dispatched
       set_g_monitoring_active set_g_num_monitor_vars].
  change (write_at (g_rx_payload_buffer s) 0 []) with (g_rx_payload_buffer s).
  pose proof (load_Some _ 0 _ Hres) as Hload.
  change (Z.of_nat 0) with 0 in Hload. rewrite Hload.
  cbn [mbind option_bind]. unfold residual_status.
  destruct (Z.eqb_spec residual 0) as [E0|E0].
  { cbn [mbind option_bind]. eexists. split; [reflexivity|]. repeat split. }
  destruct (Z.ltb_spec ARESPLOT_MAX_VARS_TO_MONITOR residual) as [E1|E1].
  { cbn [mbind option_bind]. eexists. split; [reflexivity|]. repeat split. }
  change (Z.of_nat (length (@nil Z))) with 0.
  destruct (Z.eqb_spec 0 (1 + residual * 5)) as [E2|E2]; [lia|].
  cbn [negb mbind option_bind]. eexists. split; [reflexivity|]. repeat split.
Qed.

(** C10, as amended. For every start-monitor frame whose payload
    length is zero, in two runs that differ only in the payload of
    the frame received before it: the frame is still dispatched, and
    the handler takes the variable count from the first byte of the
    shared payload buffer, which is the first payload byte of the
    earlier frame, so that the two runs are acknowledged with
    different statuses whenever those bytes call for different ones
    (OK for 0, busy-or-limit above the maximum, invalid-payload
    otherwise); the table state is the same in both runs: count 0,
    monitoring inactive. *)
Theorem C10_zero_length_start_monitor (s : world) (cmd b1 b2 : Z)
    (rest1 rest2 : list Z) :
  wf s -> g_rx_state s = ARES_RX_STATE_WAIT_SOP ->
  Z.of_nat (length (b1 :: rest1)) <= ARESPLOT_SHARED_BUFFER_SIZE ->
  Z.of_nat (length (b2 :: rest2)) <= ARESPLOT_SHARED_BUFFER_SIZE ->
  exists r1 r2,
    feed (frame_of cmd (b1 :: rest1) ++ frame_of ARESPLOT_CMD_START_MONITOR [])
      s = Some r1 /\
    feed (frame_of cmd (b2 :: rest2) ++ frame_of ARESPLOT_CMD_START_MONITOR [])
      s = Some r2 /\
    last (log_dispatched r1) = Some (ARESPLOT_CMD_START_MONITOR, []) /\
    last (log_dispatched r2) = Some (ARESPLOT_CMD_START_MONITOR, []) /\
    g_rx_payload_buffer r1 !! 0%nat = Some b1 /\
    g_rx_payload_buffer r2 !! 0%nat = Some b2 /\
    last (log_acks r1)
    = Some (ARESPLOT_CMD_START_MONITOR, residual_status b1) /\
    last (log_acks r2)
    = Some (ARESPLOT_CMD_START_MONITOR, residual_status b2) /\
    g_ack_status_to_send r1 = residual_status b1 /\
    g_ack_status_to_send r2 = residual_status b2 /\
    (residual_status b1 <> residual_status b2 ->
       g_ack_status_to_send r1 <> g_ack_status_to_send r2) /\
    table_state r1 = (0, 0, []) /\ table_state r2 = (0, 0, []).
Proof.
  intros Hwf Hst Hl1 Hl2.
  assert (Hrun : forall b rest,
    Z.of_nat (length (b :: rest)) <= ARESPLOT_SHARED_BUFFER_SIZE ->
    exists r,
      feed (frame_of cmd (b :: rest) ++ frame_of ARESPLOT_CMD_START_MONITOR [])
        s = Some r /\
      last (log_dispatched r) = Some (ARESPLOT_CMD_START_MONITOR, []) /\
      g_rx_payload_buffer r !! 0%nat = Some b /\
      last (log_acks r) = Some (ARESPLOT_CMD_START_MONITOR, residual_status b) /\
      g_ack_status_to_send r = residual_status b /\
      table_state r = (0, 0, [])).
  { intros b rest Hl.
    destruct (feed_frame cmd (b :: rest) s Hwf Hst Hl)
      as (s1 & Hf1 & Hwf1 & Hst1 & Hbuf1 & _).
    assert (Hres : g_rx_payload_buffer s1 !! 0%nat = Some b).
    { rewrite Hbuf1. reflexivity. }
    destruct (feed_zero_length_start_monitor s1 b Hwf1 Hst1 Hres)
      as (r & Hf & Hld & Hbuf & Hla & Hstat & Hnum & Hact).
    exists r. rewrite feed_bytes_app, Hf1. cbn [mbind option_bind].
    split; [exact Hf|]. split; [now rewrite Hld, last_snoc|].
    split; [now rewrite Hbuf|]. split; [now rewrite Hla, last_snoc|].
    split; [exact Hstat|]. unfold table_state. now rewrite Hnum, Hact. }
  destruct (Hrun b1 rest1 Hl1) as (r1 & A1 & A2 & A3 & A4 & A5 & A6).
  destruct (Hrun b2 rest2 Hl2) as (r2 & B1 & B2 & B3 & B4 & B5 & B6).
  exists r1, r2. rewrite A5, B5. repeat split; auto.
Qed.

End Claims.

(** * The claims on concrete inputs *)

(** C10, as stated, fails: two runs that receive the zero-length
    start-monitor frame never differ in their table state. On the
    concrete pair of runs in which the earlier frame (an unknown
    command 0x10) carries the payload [0] in one and [11] in the
    other, the statuses differ (OK against busy-or-limit) and the
    table states are equal; and no pair of runs at all ends with
    different statuses and different table states. *)
Lemma C10_table_states_never_differ :
  (let zero_length := frame_of ARESPLOT_CMD_START_MONITOR [] in
   let r1 := after_bytes (frame_of 0x10 [0] ++ zero_length) idle_device in
   let r2 := after_bytes (frame_of 0x10 [11] ++ zero_length) idle_device in
   g_ack_status_to_send r1 = ARES_STATUS_OK /\
   g_ack_status_to_send r2 = ARES_STATUS_ERROR_MCU_BUSY_OR_LIMIT /\
   table_state r1 = table_state r2) /\
  ~ (exists (cast : Z -> Z -> Z) (s1 s2 r1 r2 : world),
       wf s1 /\ wf s2 /\
       g_rx_state s1 = ARES_RX_STATE_WAIT_SOP /\
       g_rx_state s2 = ARES_RX_STATE_WAIT_SOP /\
       feed_bytes cast (frame_of ARESPLOT_CMD_START_MONITOR []) s1 = Some r1 /\
       feed_bytes cast (frame_of ARESPLOT_CMD_START_MONITOR []) s2 = Some r2 /\
       g_ack_status_to_send r1 <> g_ack_status_to_send r2 /\
       table_state r1 <> table_state r2).
Proof.
  split.
  { cbv zeta. split; [vm_compute; reflexivity|].
    split; vm_compute; reflexivity. }
  intros (cast & s1 & s2 & r1 & r2 & Hwf1 & Hwf2 & Hst1 & Hst2 & Hf1 & Hf2
          & _ & Hdiff).
  assert (Hempty : forall s r, wf s -> g_rx_state s = ARES_RX_STATE_WAIT_SOP ->
            feed_bytes cast (frame_of ARESPLOT_CMD_START_MONITOR []) s = Some r ->
            table_state r = (0, 0, [])).
  { intros s r Hwf Hst Hf. pose proof Hwf as (Hbuf & _).
    unfold ARESPLOT_SHARED_BUFFER_SIZE in Hbuf.
    destruct (lookup_lt_is_Some_2 (g_rx_payload_buffer s) 0) as [b Hb]; [lia|].
    destruct (feed_zero_length_start_monitor cast s b Hwf Hst Hb)
      as (r' & Hf' & _ & _ & _ & _ & Hnum & Hact).
    rewrite Hf in Hf'. injection Hf' as <-.
    unfold table_state. now rewrite Hnum, Hact. }
  apply Hdiff.
  now rewrite (Hempty s1 r1 Hwf1 Hst1 Hf1), (Hempty s2 r2 Hwf2 Hst2 Hf2).
Qed.

(** C1 on a set-sample-rate frame for 100 Hz, assembled by a device
    just started and received by a device just started. *)
Lemma C1_encode_then_decode_witness :
  exists t' frame s',
    assemble_and_send_frame_internal ARESPLOT_CMD_SET_SAMPLE_RATE
      [100; 0; 0; 0] (Z.of_nat (length [100; 0; 0; 0])) idle_device = Some t' /\
    sent_packets t' = sent_packets idle_device ++ [frame] /\
    feed_bytes cast_to_zero frame idle_device = Some s' /\
    log_dispatched s' = log_dispatched idle_device ++
      [(ARESPLOT_CMD_SET_SAMPLE_RATE, [100; 0; 0; 0])] /\
    g_rx_state s' = ARES_RX_STATE_WAIT_SOP.
Proof.
  apply (C1_encode_then_decode cast_to_zero ARESPLOT_CMD_SET_SAMPLE_RATE
           [100; 0; 0; 0] idle_device idle_device).
  - unfold is_u8. vm_compute. split; discriminate || reflexivity.
  - bytes_ok.
  - vm_compute. discriminate.
  - sizes_ok.
  - sizes_ok.
  - reflexivity.
Defined.

(** C2 on the same frame with the lowest bit of its first payload
    byte flipped (100 becomes 101). *)
Lemma C2_single_bit_corruption_rejected_witness :
  let corrupted :=
    <[(4 + 0)%nat := Z.lxor 100 (2 ^ 0)]>
      (frame_of ARESPLOT_CMD_SET_SAMPLE_RATE [100; 0; 0; 0]) in
  exists s1 s',
    feed_bytes cast_to_zero (take (4 + length [100; 0; 0; 0]) corrupted)
      idle_device = Some s1 /\
    g_rx_state s1 = ARES_RX_STATE_WAIT_CHECKSUM /\
    corrupted !! (4 + length [100; 0; 0; 0])%nat
    = Some (frame_checksum ARESPLOT_CMD_SET_SAMPLE_RATE [100; 0; 0; 0]) /\
    g_rx_checksum_calculated s1
    <> frame_checksum ARESPLOT_CMD_SET_SAMPLE_RATE [100; 0; 0; 0] /\
    feed_bytes cast_to_zero corrupted idle_device = Some s' /\
    g_rx_state s' = ARES_RX_STATE_WAIT_SOP /\
    log_acks s' = log_acks idle_device ++
      [(ARESPLOT_CMD_SET_SAMPLE_RATE, ARES_STATUS_ERROR_CHECKSUM)] /\
    g_ack_pending s' = 1 /\
    g_ack_cmd_to_ack s' = ARESPLOT_CMD_SET_SAMPLE_RATE /\
    g_ack_status_to_send s' = ARES_STATUS_ERROR_CHECKSUM /\
    log_dispatched s' = log_dispatched idle_device.
Proof.
  apply (C2_single_bit_corruption_rejected cast_to_zero
           ARESPLOT_CMD_SET_SAMPLE_RATE [100; 0; 0; 0] 0 100 0 idle_device).
  - unfold is_u8. vm_compute. split; discriminate || reflexivity.
  - bytes_ok.
  - vm_compute. discriminate.
  - reflexivity.
  - lia.
  - sizes_ok.
  - reflexivity.
Defined.

(** C4 on the wrap-around of the claim: last = MAX-5, now = 10,
    period = 10. *)
Lemma C4_sample_due_across_wraparound_witness :
  let s := device_at_wraparound in
  let now := (aresplot_user_get_tick_ms s).1 in
  let last := g_last_sample_time_ms s in
  let period := g_sample_period_ms s in
  let elapsed :=
    if last <=? now then now - last else (0xFFFFFFFF - last) + now + 1 in
  let acks :=
    if g_ack_pending s =? 0 then []
    else [ack_frame (g_ack_cmd_to_ack s) (g_ack_status_to_send s)] in
  (now = 10 /\ last = 0xFFFFFFFF - 5 /\ period = 10 /\ elapsed = 16) /\
  time_diff now last = elapsed /\
  elapsed = (now - last) mod 4294967296 /\
  (sample_due now last period = true <-> period <= elapsed) /\
  (exists s',
     aresplot_service_tick s = Some s' /\
     (period <= elapsed ->
        sent_packets s' = sent_packets s ++ acks ++ [data_frame s] /\
        g_last_sample_time_ms s' = now) /\
     (elapsed < period ->
        sent_packets s' = sent_packets s ++ acks /\
        g_last_sample_time_ms s' = last)) /\
  sample_due 10 (0xFFFFFFFF - 5) 10 = true.
Proof.
  split; [repeat split; vm_compute; reflexivity|].
  apply (C4_sample_due_across_wraparound device_at_wraparound).
  - sizes_ok.
  - vm_compute. discriminate.
  - vm_compute. split; [reflexivity|discriminate].
  - vm_compute. split; [discriminate|reflexivity].
Defined.

(** C5 on a request for 2000 Hz, whose period rounds to 0 ms and is
    floored to 1 ms. *)
Lemma C5_set_sample_rate_witness :
  let s := holding_payload [0xD0; 0x07; 0; 0] in
  exists rate_hz s',
    load_le32 (g_rx_payload_buffer s) 0 = Some rate_hz /\
    handle_cmd_set_sample_rate s = Some s' /\
    (rate_hz = 0 -> g_sample_period_ms s' = ARESPLOT_DEFAULT_SAMPLE_PERIOD_MS) /\
    (rate_hz <> 0 ->
       g_sample_period_ms s' = Z.max 1 (1000 / rate_hz) /\
       g_sample_period_ms s' <> 0) /\
    g_last_sample_time_ms s' = (aresplot_user_get_tick_ms s).1 /\
    log_acks s' = log_acks s ++ [(ARESPLOT_CMD_SET_SAMPLE_RATE, ARES_STATUS_OK)] /\
    g_ack_pending s' = 1 /\
    g_ack_cmd_to_ack s' = ARESPLOT_CMD_SET_SAMPLE_RATE /\
    g_ack_status_to_send s' = ARES_STATUS_OK.
Proof.
  apply (C5_set_sample_rate (holding_payload [0xD0; 0x07; 0; 0])).
  - sizes_ok.
  - reflexivity.
Defined.

(** C6 on a request to set the 32-bit integer at 0x20000000 to 3.75
    (the float 0x40700000): the float truncates to 3, and the four
    bytes at the address hold 3. *)
Lemma C6_set_variable_witness :
  let s := holding_payload
             [0x00; 0x00; 0x00; 0x20; ARES_TYPE_INT32; 0x00; 0x00; 0x70; 0x40] in
  ieee754_truncates_to 0x40700000 3 = true /\
  exists s',
    handle_cmd_set_variable cast_to_zero s = Some s' /\
    read_le (memory s') 0x20000000 4 = 3 /\
    (forall x, ~ (0x20000000 <= x < 0x20000000 + 4) ->
               memory s' x = memory s x) /\
    g_ack_pending s' = 1 /\
    g_ack_cmd_to_ack s' = ARESPLOT_CMD_SET_VARIABLE /\
    g_ack_status_to_send s' = ARES_STATUS_OK.
Proof.
  cbv zeta. split; [vm_compute; reflexivity|].
  destruct (C6_set_variable cast_to_zero
              (holding_payload
                 [0x00; 0x00; 0x00; 0x20; ARES_TYPE_INT32;
                  0x00; 0x00; 0x70; 0x40]))
    as (addr & ty & fv & s' & Ha & Ht & Hf & Hh & Hp & Hc & _ & Hyes).
  - sizes_ok.
  - reflexivity.
  - vm_compute in Ha. injection Ha as <-.
    vm_compute in Ht. injection Ht as <-.
    vm_compute in Hf. injection Hf as <-.
    destruct (Hyes eq_refl) as (_ & Hout & Hst & _ & _ & _ & Hint & _).
    exists s'. split; [exact Hh|]. split.
    { apply (Hint (-2147483648) 2147483647 3);
        [reflexivity|vm_compute; reflexivity|lia]. }
    split; [exact Hout|]. split; [exact Hp|]. split; [exact Hc|exact Hst].
Defined.

(** C7 on a declared count of 11. *)
Lemma C7_start_monitor_over_limit_witness :
  let s := holding_payload [11] in
  exists s',
    handle_cmd_start_monitor s = Some s' /\
    log_acks s' = log_acks s ++
      [(ARESPLOT_CMD_START_MONITOR, ARES_STATUS_ERROR_MCU_BUSY_OR_LIMIT)] /\
    g_ack_pending s' = 1 /\
    g_ack_cmd_to_ack s' = ARESPLOT_CMD_START_MONITOR /\
    g_ack_status_to_send s' = ARES_STATUS_ERROR_MCU_BUSY_OR_LIMIT /\
    g_num_monitor_vars s' = 0 /\
    g_monitoring_active s' = 0.
Proof.
  apply (C7_start_monitor_over_limit (holding_payload [11]) 11).
  - reflexivity.
  - vm_compute. reflexivity.
Defined.

(** C8 on a device just started that receives a valid set-sample-rate
    frame (acknowledged OK) and then a frame with an unknown command
    0x10 (acknowledged unknown-command) before the service runs. *)
Lemma C8_latest_ack_wins_witness :
  let bytes := frame_of ARESPLOT_CMD_SET_SAMPLE_RATE [100; 0; 0; 0]
               ++ frame_of 0x10 [] in
  let s := idle_device in
  let s2 := after_bytes bytes s in
  let a1 := (ARESPLOT_CMD_SET_SAMPLE_RATE, ARES_STATUS_OK) in
  let a2 := (0x10, ARES_STATUS_ERROR_UNKNOWN_CMD) in
  pending_ack s2 = Some a2 /\
  queue_ack_response a2.1 a2.2 (queue_ack_response a1.1 a1.2 s)
  = set_log_acks (log_acks s ++ [a1; a2]) (queue_ack_response a2.1 a2.2 s) /\
  exists s' s'',
    aresplot_service_tick s2 = Some s' /\
    sent_packets s' = sent_packets s ++ ack_frame a2.1 a2.2
                        :: (if samples s2 then [data_frame s2] else []) /\
    g_ack_pending s' = 0 /\
    aresplot_service_tick s' = Some s'' /\
    sent_packets s'' = sent_packets s' ++
                         (if samples s' then [data_frame s'] else []).
Proof.
  apply (C8_latest_ack_wins cast_to_zero idle_device
           (after_bytes
              (frame_of ARESPLOT_CMD_SET_SAMPLE_RATE [100; 0; 0; 0]
               ++ frame_of 0x10 []) idle_device)
           (frame_of ARESPLOT_CMD_SET_SAMPLE_RATE [100; 0; 0; 0]
            ++ frame_of 0x10 [])
           (ARESPLOT_CMD_SET_SAMPLE_RATE, ARES_STATUS_OK)
           (0x10, ARES_STATUS_ERROR_UNKNOWN_CMD)).
  - unfold inv. split; [sizes_ok|]. split; [vm_compute; exact I|].
    split; [vm_compute; discriminate|]. vm_compute. apply List.Forall_nil.
  - vm_compute. reflexivity.
  - vm_compute. reflexivity.
Defined.

(** C10 on a device just started: the earlier frame is an unknown
    command 0x10 whose payload is [0] in one run and [11] in the
    other. *)
Lemma C10_zero_length_start_monitor_witness :
  let s := idle_device in
  let zero_length := frame_of ARESPLOT_CMD_START_MONITOR [] in
  exists r1 r2,
    feed_bytes cast_to_zero (frame_of 0x10 [0] ++ zero_length) s = Some r1 /\
    feed_bytes cast_to_zero (frame_of 0x10 [11] ++ zero_length) s = Some r2 /\
    last (log_dispatched r1) = Some (ARESPLOT_CMD_START_MONITOR, []) /\
    last (log_dispatched r2) = Some (ARESPLOT_CMD_START_MONITOR, []) /\
    g_rx_payload_buffer r1 !! 0%nat = Some 0 /\
    g_rx_payload_buffer r2 !! 0%nat = Some 11 /\
    last (log_acks r1)
    = Some (ARESPLOT_CMD_START_MONITOR, residual_status 0) /\
    last (log_acks r2)
    = Some (ARESPLOT_CMD_START_MONITOR, residual_status 11) /\
    g_ack_status_to_send r1 = residual_status 0 /\
    g_ack_status_to_send r2 = residual_status 11 /\
    (residual_status 0 <> residual_status 11 ->
       g_ack_status_to_send r1 <> g_ack_status_to_send r2) /\
    table_state r1 = (0, 0, []) /\ table_state r2 = (0, 0, []).
Proof.
  apply (C10_zero_length_start_monitor cast_to_zero idle_device 0x10 0 11 [] []).
  - sizes_ok.
  - reflexivity.
  - vm_compute. discriminate.
  - vm_compute. discriminate.
Defined.

(** ** Conversions on concrete values *)

Example float_of_int_values :
  float_of_int 0 = 0 /\ float_of_int 1 = 0x3F800000 /\
  float_of_int (-2) = 0xC0000000 /\ float_of_int 255 = 0x437F0000 /\
  float_of_int 16777217 = 0x4B800000 /\
  float_of_int 4294967295 = 0x4F800000.
Proof. repeat split; vm_compute; reflexivity. Qed.

Example cast_float_values :
  cast_float cast_to_zero ARES_TYPE_INT32 (-2147483648) 2147483647 0x40700000
  = 3 /\
  cast_float cast_to_zero ARES_TYPE_INT8 (-128) 127 0xC0700000 = -3 /\
  cast_float cast_to_zero ARES_TYPE_UINT8 0 255 0xBF000000 = 0 /\
  cast_float cast_to_zero ARES_TYPE_UINT16 0 65535 0x477FFF00 = 65535 /\
  float_is_nonzero 0x80000000 = false /\ float_is_nonzero 0x7FC00000 = true.
Proof. repeat split; vm_compute; reflexivity. Qed.

Example f32_of_f64_values :
  f32_of_f64 0x3FF0000000000000 = 0x3F800000 /\
  f32_of_f64 0xC00E000000000000 = 0xC0700000 /\
  f32_of_f64 0 = 0.
Proof. repeat split; vm_compute; reflexivity. Qed.

(** A packet is fed as its bytes are. *)
Lemma aresplot_rx_feed_packet_bytes (cast : Z -> Z -> Z) (data : list Z)
    (s : world) :
  aresplot_rx_feed_packet cast data (Z.of_nat (length data)) s
  = feed_bytes cast data s.
Proof.
  unfold aresplot_rx_feed_packet. rewrite Nat2Z.id.
  assert (H : forall (pre : list Z) (s : world),
    for_loop (length data) (Z.of_nat (length pre))
      (fun i s => b ← load (pre ++ data) i; aresplot_rx_feed_byte cast b s) s
    = feed_bytes cast data s).
  { induction data as [|b data IH]; intros pre s0; [reflexivity|].
    cbn [for_loop length feed_bytes].
    rewrite (load_Some (pre ++ b :: data) (length pre) b)
      by (now rewrite lookup_app_r, Nat.sub_diag by lia).
    cbn [mbind option_bind].
    destruct (aresplot_rx_feed_byte cast b s0) as [s1|]; [|reflexivity].
    cbn [mbind option_bind].
    specialize (IH (pre ++ [b]) s1).
    rewrite length_app, <- app_assoc in IH. cbn [length app] in IH.
    replace (Z.of_nat (length pre) + 1) with (Z.of_nat (length pre + 1)) by lia.
    exact IH. }
  exact (H [] s).
Qed.

(** * Further properties of the engine *)

(** ** Little-endian fields *)

Lemma lor_shiftl_add (a b k : Z) :
  0 <= k -> 0 <= a < 2 ^ k -> 0 <= b ->
  Z.lor a (Z.shiftl b k) = a + b * 2 ^ k.
Proof.
  intros Hk Ha Hb. rewrite Z.shiftl_mul_pow2 by exact Hk.
  assert (Hland : Z.land a (b * 2 ^ k) = 0).
  { apply Z.bits_inj'. intros n Hn. rewrite Z.land_spec, Z.bits_0.
    destruct (Z.lt_ge_cases n k) as [Hlt|Hge].
    - rewrite Z.mul_pow2_bits_low by lia. apply andb_false_r.
    - rewrite <- (Z.mod_small a (2 ^ k)) by exact Ha.
      rewrite Z.mod_pow2_bits_high by lia. reflexivity. }
  rewrite <- Z.lxor_lor by exact Hland.
  symmetry. apply Z.add_nocarry_lxor. exact Hland.
Qed.

(** The length field of a frame: low byte first. *)
Lemma length_field_value (lo hi : Z) :
  is_u8 lo -> is_u8 hi ->
  u16 (Z.lor lo (u16 (Z.shiftl hi 8))) = lo + 256 * hi.
Proof.
  unfold is_u8. intros Hlo Hhi.
  assert (Hs : Z.shiftl hi 8 = hi * 256)
    by (rewrite Z.shiftl_mul_pow2 by lia; reflexivity).
  rewrite Hs. unfold u16. rewrite (Z.mod_small (hi * 256)) by lia.
  rewrite <- Hs, lor_shiftl_add by (try lia; change (2 ^ 8) with 256; lia).
  change (2 ^ 8) with 256. rewrite Z.mod_small by lia. lia.
Qed.

(** The little-endian value of four bytes. *)
Lemma le32_value (b0 b1 b2 b3 : Z) :
  is_u8 b0 -> is_u8 b1 -> is_u8 b2 -> is_u8 b3 ->
  le32 b0 b1 b2 b3 = b0 + 256 * b1 + 65536 * b2 + 16777216 * b3.
Proof.
  unfold is_u8, le32. intros H0 H1 H2 H3.
  rewrite (lor_shiftl_add b0 b1 8) by (try lia; change (2 ^ 8) with 256; lia).
  rewrite (lor_shiftl_add _ b2 16)
    by (try lia; change (2 ^ 8) with 256; change (2 ^ 16) with 65536; lia).
  rewrite (lor_shiftl_add _ b3 24)
    by (try lia; change (2 ^ 8) with 256; change (2 ^ 16) with 65536;
        change (2 ^ 24) with 16777216; lia).
  change (2 ^ 8) with 256. change (2 ^ 16) with 65536.
  change (2 ^ 24) with 16777216.
  unfold u32. rewrite Z.mod_small by lia. lia.
Qed.
Lemma le32_bytes_are_bytes (x : Z) : Forall is_u8 (le32_bytes x).
Proof. unfold le32_bytes. repeat constructor; apply is_u8_u8. Qed.

(** The four bytes of a value, combined again. *)
Lemma le32_le32_bytes (x : Z) :
  le32 (u8 (Z.land x 0xFF)) (u8 (Z.land (Z.shiftr x 8) 0xFF))
       (u8 (Z.land (Z.shiftr x 16) 0xFF)) (u8 (Z.land (Z.shiftr x 24) 0xFF))
  = x mod 2 ^ 32.
Proof.
  rewrite le32_value by apply is_u8_u8.
  unfold u8. change 255 with (Z.ones 8).
  rewrite !Z.land_ones by lia. rewrite !Zmod_mod.
  rewrite !Z.shiftr_div_pow2 by lia.
  change (2 ^ 32) with (256 * (256 * (256 * 256))).
  change (2 ^ 8) with 256. change (2 ^ 16) with (256 * 256).
  change (2 ^ 24) with (256 * 256 * 256).
  rewrite (Z.rem_mul_r x 256 (256 * (256 * 256))) by lia.
  rewrite (Z.rem_mul_r (x / 256) 256 (256 * 256)) by lia.
  rewrite (Z.rem_mul_r (x / 256 / 256) 256 256) by lia.
  rewrite !Z.div_div by lia. lia.
Qed.

(** X1. The 32-bit fields of the wire format round-trip: the four bytes
    the sampling pass writes for a value (the timestamp, a float
    pattern) are read back, by the rule the handlers use for an
    address or a rate, as that value modulo 2^32. *)
Theorem le32_bytes_round_trip (x : Z) :
  load_le32 (le32_bytes x) 0 = Some (x mod 2 ^ 32) /\
  length (le32_bytes x) = 4%nat /\ Forall is_u8 (le32_bytes x).
Proof.
  split; [|split; [reflexivity|apply le32_bytes_are_bytes]].
  unfold le32_bytes.
  set (b0 := u8 _). set (b1 := u8 _). set (b2 := u8 _). set (b3 := u8 _).
  change (load_le32 [b0; b1; b2; b3] 0) with (Some (le32 b0 b1 b2 b3)).
  subst b0 b1 b2 b3. f_equal. apply le32_le32_bytes.
Qed.

(** ** The receiver on malformed input *)

Section ReceiverEdges.

Variable cast_out_of_range : Z -> Z -> Z.

Local Abbreviation feed := (feed_bytes cast_out_of_range).
Local Abbreviation feed_byte := (aresplot_rx_feed_byte cast_out_of_range).

Lemma feed_noise (noise : list Z) (s : world) :
  g_rx_state s = ARES_RX_STATE_WAIT_SOP ->
  Forall (fun b => b <> ARESPLOT_SOP) noise ->
  feed noise s = Some s.
Proof.
  intros Hst H. induction H as [|b noise Hb _ IH]; [reflexivity|].
  rewrite (feed_cons cast_out_of_range b noise s s); [exact IH|].
  now apply step_wait_sop_other.
Qed.

(** X2. While the receiver awaits a start marker, bytes other than the
    start marker are skipped without any effect: a byte stream
    preceded by such bytes is received exactly as the stream alone. *)
Theorem noise_before_start_marker_is_skipped (noise bytes : list Z)
    (s : world) :
  g_rx_state s = ARES_RX_STATE_WAIT_SOP ->
  Forall (fun b => b <> ARESPLOT_SOP) noise ->
  feed (noise ++ bytes) s = feed bytes s.
Proof.
  intros Hst H. rewrite feed_bytes_app, feed_noise by assumption.
  reflexivity.
Qed.

(** X3. A frame that is correct up to its checksum but ends with a
    byte other than the end marker is discarded silently: the
    receiver is back in AwaitStart, and nothing outside the
    receiver's own variables has changed (no dispatch, no
    acknowledgement, nothing sent, table, clock and memory as
    before). *)
Theorem bad_end_marker_discards_frame (cmd e : Z) (payload : list Z)
    (s : world) :
  wf s ->
  g_rx_state s = ARES_RX_STATE_WAIT_SOP ->
  Z.of_nat (length payload) <= ARESPLOT_SHARED_BUFFER_SIZE ->
  e <> ARESPLOT_EOP ->
  feed (frame_header cmd (length payload) ++ payload
        ++ [frame_checksum cmd payload; e]) s
  = Some (rx_upd ARES_RX_STATE_WAIT_SOP
            (write_at (g_rx_payload_buffer s) 0 payload)
            (Z.of_nat (length payload))
            (if decide (payload = []) then g_rx_payload_idx s
             else Z.of_nat (length payload))
            cmd (frame_checksum cmd payload) s).
Proof.
  intros Hwf Hst Hlen He. unfold ARESPLOT_SHARED_BUFFER_SIZE in *.
  rewrite app_assoc, feed_bytes_app.
  rewrite feed_header_and_payload by assumption.
  cbn [mbind option_bind].
  rewrite received_checksum_frame by lia.
  set (s1 := rx_upd _ _ _ _ _ _ s).
  erewrite feed_cons
    by (apply (step_wait_checksum_ok cast_out_of_range s1); reflexivity).
  cbn [feed_bytes]. unfold aresplot_rx_feed_byte.
  cbn [g_rx_state set_g_rx_state].
  destruct (Z.eqb_spec e ARESPLOT_EOP) as [E|_]; [contradiction|].
  reflexivity.
Qed.

(** X4. A header whose length field exceeds the buffer capacity is
    dropped at the length field: the receiver is back in AwaitStart
    after the fourth byte, holding the rejected command and length,
    and nothing else has changed (no payload byte stored, no
    acknowledgement, no dispatch). *)
Theorem oversize_length_drops_frame (cmd lo hi : Z) (s : world) :
  g_rx_state s = ARES_RX_STATE_WAIT_SOP ->
  is_u8 lo -> is_u8 hi ->
  ARESPLOT_SHARED_BUFFER_SIZE < lo + 256 * hi ->
  feed [ARESPLOT_SOP; cmd; lo; hi] s
  = Some (rx_upd ARES_RX_STATE_WAIT_SOP (g_rx_payload_buffer s)
            (lo + 256 * hi) (g_rx_payload_idx s) cmd
            (header_checksum cmd lo hi) s).
Proof.
  intros Hst Hlo Hhi Hover.
  rewrite (feed_cons _ _ _ _ _ (step_wait_sop cast_out_of_range s Hst)).
  erewrite feed_cons by (apply step_wait_cmd; reflexivity).
  erewrite feed_cons by (apply step_wait_len1; reflexivity).
  erewrite feed_cons by (apply step_wait_len2; reflexivity).
  cbn [feed_bytes]. f_equal.
  cbn [g_rx_payload_len set_g_rx_payload_len set_g_rx_checksum_calculated
       set_g_rx_state set_g_rx_cmd].
  rewrite length_field_value by assumption.
  destruct (Z.ltb_spec ARESPLOT_SHARED_BUFFER_SIZE (lo + 256 * hi)); [|lia].
  reflexivity.
Qed.

End ReceiverEdges.

Section Resynchronisation.

Variable cast_out_of_range : Z -> Z -> Z.

Local Abbreviation feed := (feed_bytes cast_out_of_range).
Local Abbreviation feed_byte := (aresplot_rx_feed_byte cast_out_of_range).

Lemma filler_after_length_bounds (b lo : Z) :
  1 <= filler_after_length b lo <= 131.
Proof.
  unfold filler_after_length, ARESPLOT_SHARED_BUFFER_SIZE. cbv zeta.
  set (len := u16 _).
  assert (0 <= len < 65536) by (apply Z.mod_pos_bound; lia).
  destruct (Z.ltb_spec 128 len); [lia|].
  destruct (Z.eqb_spec len 0); lia.
Qed.

Lemma resync_distance_bounds (b : Z) (s : world) :
  inv s -> 0 <= resync_distance b s <= 133.
Proof.
  intros (_ & Hrx & _). unfold resync_distance, rx_inv in *.
  pose proof (filler_after_length_bounds b b).
  pose proof (filler_after_length_bounds b (g_rx_payload_len s)).
  unfold ARESPLOT_SHARED_BUFFER_SIZE in *.
  destruct (g_rx_state s); lia.
Qed.

(** One filler byte: the receiver gets closer to AwaitStart, and no
    frame is dispatched. *)
Lemma filler_step (b : Z) (s : world) :
  inv s -> b <> ARESPLOT_SOP -> b <> ARESPLOT_EOP ->
  exists s',
    feed_byte b s = Some s' /\ inv s' /\
    log_dispatched s' = log_dispatched s /\
    sent_packets s' = sent_packets s /\
    (g_rx_state s = ARES_RX_STATE_WAIT_SOP ->
       g_rx_state s' = ARES_RX_STATE_WAIT_SOP) /\
    (g_rx_state s <> ARES_RX_STATE_WAIT_SOP ->
       resync_distance b s' < resync_distance b s).
Proof.
  intros Hinv Hsop Heop.
  destruct (aresplot_rx_feed_byte_inv cast_out_of_range b s Hinv)
    as (s' & Hs' & Hinv').
  exists s'. split; [exact Hs'|]. split; [exact Hinv'|].
  pose proof Hinv as ((Hbuf & _) & Hrx & _).
  unfold rx_inv in Hrx. unfold ARESPLOT_SHARED_BUFFER_SIZE in *.
  pose proof (filler_after_length_bounds b b) as Hbb.
  destruct (g_rx_state s) eqn:Hst.
  - rewrite step_wait_sop_other in Hs' by assumption.
    injection Hs' as <-. split; [reflexivity|]. split; [reflexivity|].
    split; [auto|]. intros E. now contradiction E.
  - rewrite step_wait_cmd in Hs' by exact Hst. injection Hs' as <-.
    split; [reflexivity|]. split; [reflexivity|].
    split; [discriminate|]. intros _.
    unfold resync_distance. rewrite Hst. cbn [g_rx_state set_g_rx_state]. lia.
  - rewrite step_wait_len1 in Hs' by exact Hst. injection Hs' as <-.
    split; [reflexivity|]. split; [reflexivity|].
    split; [discriminate|]. intros _.
    unfold resync_distance. rewrite Hst.
    cbn [g_rx_state set_g_rx_state g_rx_payload_len
         set_g_rx_checksum_calculated set_g_rx_payload_len]. lia.
  - rewrite step_wait_len2 in Hs' by exact Hst. cbv zeta in Hs'.
    injection Hs' as <-.
    split. { destruct (_ <? _); [|destruct (_ =? 0)]; reflexivity. }
    split. { destruct (_ <? _); [|destruct (_ =? 0)]; reflexivity. }
    split; [discriminate|]. intros _.
    unfold resync_distance at 2. rewrite Hst. unfold filler_after_length.
    cbv zeta. set (len := u16 _).
    assert (0 <= len < 65536) by (apply Z.mod_pos_bound; lia).
    unfold ARESPLOT_SHARED_BUFFER_SIZE.
    destruct (Z.ltb_spec 128 len); [unfold resync_distance; cbn; lia|].
    destruct (Z.eqb_spec len 0); unfold resync_distance; cbn; lia.
  - unfold aresplot_rx_feed_byte in Hs'. rewrite Hst in Hs'.
    destruct (store _ _ _) as [buf|]; [|discriminate].
    cbn [mbind option_bind] in Hs'.
    cbn [g_rx_payload_idx g_rx_payload_len set_g_rx_payload_buffer
         set_g_rx_payload_idx set_g_rx_checksum_calculated] in Hs'.
    replace (u16 (g_rx_payload_idx s + 1)) with (g_rx_payload_idx s + 1)
      in Hs' by (unfold u16; rewrite Z.mod_small; lia).
    destruct (Z.leb_spec (g_rx_payload_len s) (g_rx_payload_idx s + 1));
      injection Hs' as <-; (split; [reflexivity|]); (split; [reflexivity|]);
      (split; [discriminate|]); intros _; unfold resync_distance;
      cbn; rewrite ?Hst; lia.
  - unfold aresplot_rx_feed_byte in Hs'. rewrite Hst in Hs'.
    destruct (b =? _); injection Hs' as <-;
      (split; [reflexivity|]); (split; [reflexivity|]);
      (split; [discriminate|]); intros _; unfold resync_distance;
      cbn; rewrite ?Hst; lia.
  - unfold aresplot_rx_feed_byte in Hs'. rewrite Hst in Hs'.
    destruct (Z.eqb_spec b ARESPLOT_EOP) as [E|_]; [contradiction|].
    cbn [mbind option_bind] in Hs'. injection Hs' as <-.
    split; [reflexivity|]. split; [reflexivity|].
    split; [discriminate|]. intros _. unfold resync_distance.
    cbn. rewrite ?Hst. lia.
Qed.

Lemma filler_run (b : Z) (n : nat) : forall s : world,
  inv s -> b <> ARESPLOT_SOP -> b <> ARESPLOT_EOP ->
  resync_distance b s <= Z.of_nat n ->
  exists s',
    feed (replicate n b) s = Some s' /\ inv s' /\
    g_rx_state s' = ARES_RX_STATE_WAIT_SOP /\
    log_dispatched s' = log_dispatched s /\
    sent_packets s' = sent_packets s.
Proof.
  induction n as [|n IH]; intros s Hinv Hsop Heop Hd.
  - exists s. split; [reflexivity|]. split; [exact Hinv|].
    split; [|auto].
    pose proof (resync_distance_bounds b s Hinv) as Hb.
    pose proof (filler_after_length_bounds b b).
    pose proof (filler_after_length_bounds b (g_rx_payload_len s)).
    destruct Hinv as (_ & Hrx & _). unfold resync_distance, rx_inv in *.
    destruct (g_rx_state s); try reflexivity; cbn in Hd; lia.
  - destruct (filler_step b s Hinv Hsop Heop)
      as (s1 & Hs1 & Hinv1 & Hld1 & Hsent1 & Hstay & Hdec).
    cbn [replicate]. rewrite (feed_cons cast_out_of_range b _ s s1 Hs1).
    assert (Hd1 : resync_distance b s1 <= Z.of_nat n).
    { destruct (g_rx_state s) eqn:Hst;
        try (assert (resync_distance b s1 < resync_distance b s)
               by (apply Hdec; discriminate); lia).
      unfold resync_distance. rewrite (Hstay eq_refl). lia. }
    destruct (IH s1 Hinv1 Hsop Heop Hd1) as (s' & Hf & Hinv' & Hst' & Hld & Hsent).
    exists s'. split; [exact Hf|]. split; [exact Hinv'|].
    split; [exact Hst'|]. split; congruence.
Qed.

(** X5. The receiver can always be resynchronised: from any state of
    the engine, 133 or more filler bytes (any one value other than
    the start and end markers) bring the receiver back to AwaitStart,
    without dispatching a frame and without transmitting. *)
Theorem filler_bytes_resynchronise (b : Z) (n : nat) (s : world) :
  inv s -> b <> ARESPLOT_SOP -> b <> ARESPLOT_EOP -> (133 <= n)%nat ->
  exists s',
    feed (replicate n b) s = Some s' /\
    g_rx_state s' = ARES_RX_STATE_WAIT_SOP /\
    log_dispatched s' = log_dispatched s /\
    sent_packets s' = sent_packets s.
Proof.
  intros Hinv Hsop Heop Hn.
  pose proof (resync_distance_bounds b s Hinv) as Hb.
  destruct (filler_run b n s Hinv Hsop Heop) as (s' & H1 & _ & H2 & H3 & H4);
    [lia|].
  exists s'. auto.
Qed.

End Resynchronisation.

(** ** The dispatcher and the handlers on whole frames *)

Lemma load_write_at_0 (a bs : list Z) (k : Z) :
  (length bs <= length a)%nat -> 0 <= k < Z.of_nat (length bs) ->
  load (write_at a 0 bs) k = load bs k.
Proof.
  intros Hl Hk. unfold load. rewrite length_write_at by (cbn; lia).
  destruct (Z.leb_spec 0 k); [|lia].
  destruct (Z.ltb_spec k (Z.of_nat (length a))); [|lia].
  destruct (Z.ltb_spec k (Z.of_nat (length bs))); [|lia].
  cbn [andb]. unfold write_at. change (take 0 a) with (@nil Z). cbn [app].
  apply lookup_app_l. lia.
Qed.

Lemma load_le32_write_at_0 (a bs : list Z) (k : Z) :
  (length bs <= length a)%nat -> 0 <= k -> k + 3 < Z.of_nat (length bs) ->
  load_le32 (write_at a 0 bs) k = load_le32 bs k.
Proof.
  intros Hl Hk Hk3. unfold load_le32.
  rewrite !load_write_at_0 by lia. reflexivity.
Qed.

Section Dispatch.

Variable cast_out_of_range : Z -> Z -> Z.

Local Abbreviation feed := (feed_bytes cast_out_of_range).

(** The state in which the dispatcher runs for a received frame. *)
Lemma feed_frame_handler (cmd : Z) (payload : list Z) (s : world) :
  wf s ->
  g_rx_state s = ARES_RX_STATE_WAIT_SOP ->
  Z.of_nat (length payload) <= ARESPLOT_SHARED_BUFFER_SIZE ->
  exists s1,
    feed (frame_of cmd payload) s
    = (s2 ← process_received_frame cast_out_of_range s1;
       Some (set_g_rx_state ARES_RX_STATE_WAIT_SOP s2)) /\
    wf s1 /\
    g_rx_cmd s1 = cmd /\
    g_rx_payload_len s1 = Z.of_nat (length payload) /\
    g_rx_payload_buffer s1 = write_at (g_rx_payload_buffer s) 0 payload /\
    untouched s s1 /\ log_acks s1 = log_acks s /\
    log_dispatched s1 = log_dispatched s /\
    tick_source s1 = tick_source s.
Proof.
  intros Hwf Hst Hlen. eexists. split.
  - apply feed_frame_dispatch; assumption.
  - destruct Hwf as (Hb & Ht & Hm). unfold ARESPLOT_SHARED_BUFFER_SIZE in *.
    split.
    { unfold wf. cbn [g_rx_payload_buffer g_tx_assembly_buffer g_monitor_vars
        rx_upd set_g_rx_state set_g_rx_payload_buffer set_g_rx_payload_len
        set_g_rx_payload_idx set_g_rx_cmd set_g_rx_checksum_calculated].
      rewrite length_write_at by (cbn; lia). auto. }
    repeat split.
Qed.

(** X6. A frame with an unrecognised command id is acknowledged with
    status unknown-command for that id, and has no other effect:
    table, sample clock, device memory and transport are as before. *)
Theorem unknown_command_is_only_acknowledged (cmd : Z) (payload : list Z)
    (s : world) :
  wf s ->
  g_rx_state s = ARES_RX_STATE_WAIT_SOP ->
  Z.of_nat (length payload) <= ARESPLOT_SHARED_BUFFER_SIZE ->
  cmd <> ARESPLOT_CMD_START_MONITOR ->
  cmd <> ARESPLOT_CMD_SET_VARIABLE ->
  cmd <> ARESPLOT_CMD_SET_SAMPLE_RATE ->
  exists s',
    feed (frame_of cmd payload) s = Some s' /\
    g_rx_state s' = ARES_RX_STATE_WAIT_SOP /\
    acknowledged cmd ARES_STATUS_ERROR_UNKNOWN_CMD s s' /\
    untouched s s'.
Proof.
  intros Hwf Hst Hlen H1 H2 H3.
  destruct (feed_frame_handler cmd payload s Hwf Hst Hlen)
    as (s1 & -> & _ & Hcmd & _ & _ & Hun & Hacks & _).
  unfold process_received_frame.
  cbn [g_rx_cmd set_log_dispatched]. rewrite Hcmd.
  destruct (Z.eqb_spec cmd ARESPLOT_CMD_START_MONITOR); [contradiction|].
  destruct (Z.eqb_spec cmd ARESPLOT_CMD_SET_VARIABLE); [contradiction|].
  destruct (Z.eqb_spec cmd ARESPLOT_CMD_SET_SAMPLE_RATE); [contradiction|].
  cbn [mbind option_bind]. eexists. split; [reflexivity|].
  split; [reflexivity|]. split.
  - unfold acknowledged. cbn. rewrite Hacks. repeat split.
  - exact Hun.
Qed.

(** X7. A set-variable frame whose payload is not 9 bytes long, and a
    set-sample-rate frame whose payload is not 4 bytes long, are
    acknowledged with status invalid-payload and change nothing else:
    no memory is written, and the period and the last-sample time are
    kept. *)
Theorem wrong_payload_length_is_rejected (cmd : Z) (payload : list Z)
    (s : world) :
  wf s ->
  g_rx_state s = ARES_RX_STATE_WAIT_SOP ->
  Z.of_nat (length payload) <= ARESPLOT_SHARED_BUFFER_SIZE ->
  (cmd = ARESPLOT_CMD_SET_VARIABLE /\ length payload <> 9%nat) \/
  (cmd = ARESPLOT_CMD_SET_SAMPLE_RATE /\ length payload <> 4%nat) ->
  exists s',
    feed (frame_of cmd payload) s = Some s' /\
    g_rx_state s' = ARES_RX_STATE_WAIT_SOP /\
    acknowledged cmd ARES_STATUS_ERROR_INVALID_PAYLOAD s s' /\
    untouched s s'.
Proof.
  intros Hwf Hst Hlen Hcase.
  destruct (feed_frame_handler cmd payload s Hwf Hst Hlen)
    as (s1 & -> & _ & Hcmd & Hl & _ & Hun & Hacks & _).
  unfold process_received_frame.
  cbn [g_rx_cmd set_log_dispatched]. rewrite Hcmd.
  destruct Hcase as [[-> Hne]|[-> Hne]];
    cbn [Z.eqb Pos.eqb ARESPLOT_CMD_START_MONITOR ARESPLOT_CMD_SET_VARIABLE
         ARESPLOT_CMD_SET_SAMPLE_RATE].
  - unfold handle_cmd_set_variable. cbn [g_rx_payload_len set_log_dispatched].
    rewrite Hl. destruct (Z.eqb_spec (Z.of_nat (length payload)) 9); [lia|].
    cbn [negb mbind option_bind]. eexists. split; [reflexivity|].
    split; [reflexivity|]. split; [|exact Hun].
    unfold acknowledged. cbn. rewrite Hacks. repeat split.
  - unfold handle_cmd_set_sample_rate.
    cbn [g_rx_payload_len set_log_dispatched].
    rewrite Hl. destruct (Z.eqb_spec (Z.of_nat (length payload)) 4); [lia|].
    cbn [negb mbind option_bind]. eexists. split; [reflexivity|].
    split; [reflexivity|]. split; [|exact Hun].
    unfold acknowledged. cbn. rewrite Hacks. repeat split.
Qed.

End Dispatch.

(** ** Start-monitor frames *)

(** The table-filling loop of [handle_cmd_start_monitor]: the first
    [n] entries are the declared variables, in order; the others are
    kept. *)
Lemma fill_table_loop (buf : list Z) (n : nat)
    (vars : list aresplot_var_info_t) :
  (n <= length vars)%nat ->
  1 + Z.of_nat n * 5 <= Z.of_nat (length buf) ->
  exists vars',
    for_loop n 0
      (fun i vars =>
         temp_addr ← load_le32 buf (1 + i * 5);
         ty ← load buf (1 + i * 5 + 4);
         store vars i (VarInfo temp_addr ty))
      vars = Some vars' /\
    length vars' = length vars /\
    (forall i, (i < n)%nat ->
       exists v, declared_var buf i = Some v /\ vars' !! i = Some v) /\
    (forall i, (n <= i)%nat -> vars' !! i = vars !! i).
Proof.
  intros Hn Hbuf.
  destruct (for_loop_inv
    (fun j (x : list aresplot_var_info_t) =>
       0 <= j /\ length x = length vars /\
       (forall i, (i < Z.to_nat j)%nat ->
          exists v, declared_var buf i = Some v /\ x !! i = Some v) /\
       (forall i, (Z.to_nat j <= i)%nat -> x !! i = vars !! i))
    (fun i vars =>
       temp_addr ← load_le32 buf (1 + i * 5);
       ty ← load buf (1 + i * 5 + 4);
       store vars i (VarInfo temp_addr ty))
    n 0 vars) as (vars' & Hl & _ & Hlen & Hlow & Hhigh).
  - split; [lia|]. split; [reflexivity|]. split; [intros i Hi; cbn in Hi; lia|].
    reflexivity.
  - intros j x Hj (_ & Hx & Hlo & Hhi).
    assert (Hk : j = Z.of_nat (Z.to_nat j)) by lia.
    set (k := Z.to_nat j) in *. clearbody k. subst j.
    destruct (load_le32_in_range buf (1 + Z.of_nat k * 5)) as [a Ha];
      [lia|lia|].
    destruct (load_in_range buf (1 + Z.of_nat k * 5 + 4)) as [t Ht]; [lia|].
    rewrite Ha, Ht. cbn [mbind option_bind].
    rewrite store_in_range by lia.
    eexists. split; [reflexivity|]. split; [lia|].
    split; [rewrite length_write_at; cbn [length]; lia|].
    replace (Z.to_nat (Z.of_nat k + 1)) with (S k) by lia.
    assert (Hw : forall i,
      write_at x k [VarInfo a t] !! i
      = if decide (i = k) then Some (VarInfo a t) else x !! i).
    { intros i. unfold write_at.
      destruct (decide (i = k)) as [->|Hne].
      - rewrite lookup_app_r by (rewrite length_take; lia).
        rewrite length_take, Nat.min_l by lia.
        now rewrite Nat.sub_diag.
      - destruct (Nat.lt_ge_cases i k).
        + rewrite lookup_app_l by (rewrite length_take; lia).
          apply lookup_take_lt. lia.
        + rewrite lookup_app_r by (rewrite length_take; lia).
          rewrite length_take, Nat.min_l by lia.
          rewrite lookup_app_r by (cbn [length]; lia).
          rewrite lookup_drop. cbn [length]. f_equal. lia. }
    split.
    + intros i Hi. rewrite Hw. destruct (decide (i = k)) as [->|Hne].
      * exists (VarInfo a t). split; [|reflexivity].
        unfold declared_var. now rewrite Ha, Ht.
      * apply Hlo. lia.
    + intros i Hi. rewrite Hw. destruct (decide (i = k)); [lia|].
      apply Hhi. lia.
  - exists vars'. split; [exact Hl|]. split; [exact Hlen|].
    replace (Z.to_nat (0 + Z.of_nat n)) with n in * by lia. auto.
Qed.

Lemma declared_var_write_at_0 (a payload : list Z) (i : nat) :
  (length payload <= length a)%nat ->
  1 + Z.of_nat i * 5 + 4 < Z.of_nat (length payload) ->
  declared_var (write_at a 0 payload) i = declared_var payload i.
Proof.
  intros Hl Hi. unfold declared_var.
  rewrite load_le32_write_at_0 by lia.
  rewrite load_write_at_0 by lia. reflexivity.
Qed.

Section StartMonitor.

Variable cast_out_of_range : Z -> Z -> Z.

Local Abbreviation feed := (feed_bytes cast_out_of_range).

(** X8. A start-monitor frame whose count byte is 0 stops monitoring
    and is acknowledged with status OK, whatever follows the count
    byte in the payload. *)
Theorem start_monitor_count_zero_stops (rest : list Z) (s : world) :
  wf s ->
  g_rx_state s = ARES_RX_STATE_WAIT_SOP ->
  Z.of_nat (length rest) < ARESPLOT_SHARED_BUFFER_SIZE ->
  exists s',
    feed (frame_of ARESPLOT_CMD_START_MONITOR (0 :: rest)) s = Some s' /\
    g_rx_state s' = ARES_RX_STATE_WAIT_SOP /\
    acknowledged ARESPLOT_CMD_START_MONITOR ARES_STATUS_OK s s' /\
    monitoring_stopped s s'.
Proof.
  intros Hwf Hst Hlen.
  destruct (feed_frame_handler cast_out_of_range ARESPLOT_CMD_START_MONITOR
              (0 :: rest) s Hwf Hst)
    as (s1 & -> & Hwf1 & Hcmd & Hl & Hbuf & Hun & Hacks & _).
  { cbn [length]. lia. }
  destruct Hwf as (Hb & _). unfold ARESPLOT_SHARED_BUFFER_SIZE in *.
  unfold process_received_frame.
  cbn [g_rx_cmd set_log_dispatched]. rewrite Hcmd.
  cbn [Z.eqb Pos.eqb ARESPLOT_CMD_START_MONITOR].
  unfold handle_cmd_start_monitor.
  cbn [g_rx_payload_buffer set_log_dispatched]. rewrite Hbuf.
  rewrite load_write_at_0 by (cbn [length]; lia).
  change (load (0 :: rest) 0) with (Some 0).
  cbn [mbind option_bind Z.eqb]. eexists. split; [reflexivity|].
  split; [reflexivity|].
  destruct Hun as (H1 & H2 & H3 & H4 & H5 & H6 & H7 & H8). split.
  - unfold acknowledged. cbn. rewrite Hacks. repeat split.
  - unfold monitoring_stopped. cbn. repeat split; assumption.
Qed.

(** X9. A start-monitor frame that declares between 1 and 10
    variables but whose payload is not [1 + 5 * count] bytes long is
    acknowledged with status invalid-payload, and monitoring is left
    stopped: a session that was running is ended by it. *)
Theorem start_monitor_wrong_length_stops (n : Z) (rest : list Z)
    (s : world) :
  wf s ->
  g_rx_state s = ARES_RX_STATE_WAIT_SOP ->
  Z.of_nat (length rest) < ARESPLOT_SHARED_BUFFER_SIZE ->
  1 <= n <= ARESPLOT_MAX_VARS_TO_MONITOR ->
  Z.of_nat (length rest) <> 5 * n ->
  exists s',
    feed (frame_of ARESPLOT_CMD_START_MONITOR (n :: rest)) s = Some s' /\
    g_rx_state s' = ARES_RX_STATE_WAIT_SOP /\
    acknowledged ARESPLOT_CMD_START_MONITOR
      ARES_STATUS_ERROR_INVALID_PAYLOAD s s' /\
    monitoring_stopped s s'.
Proof.
  intros Hwf Hst Hlen Hn Hne.
  destruct (feed_frame_handler cast_out_of_range ARESPLOT_CMD_START_MONITOR
              (n :: rest) s Hwf Hst)
    as (s1 & -> & Hwf1 & Hcmd & Hl & Hbuf & Hun & Hacks & _).
  { cbn [length]. lia. }
  destruct Hwf as (Hb & _).
  unfold ARESPLOT_SHARED_BUFFER_SIZE, ARESPLOT_MAX_VARS_TO_MONITOR in *.
  unfold process_received_frame.
  cbn [g_rx_cmd set_log_dispatched]. rewrite Hcmd.
  cbn [Z.eqb Pos.eqb ARESPLOT_CMD_START_MONITOR].
  unfold handle_cmd_start_monitor.
  cbn [g_rx_payload_buffer set_log_dispatched].
  assert (Hload : load (g_rx_payload_buffer s1) 0 = Some n).
  { rewrite Hbuf. rewrite load_write_at_0 by (cbn [length]; lia).
    reflexivity. }
  rewrite Hload. cbn [mbind option_bind].
  destruct (Z.eqb_spec n 0); [lia|].
  unfold ARESPLOT_MAX_VARS_TO_MONITOR.
  destruct (Z.ltb_spec 10 n); [lia|].
  change (g_rx_payload_len (set_g_num_monitor_vars 0
            (set_g_monitoring_active 0 (set_log_dispatched _ s1))))
    with (g_rx_payload_len s1).
  rewrite Hl.
  destruct (Z.eqb_spec (Z.of_nat (length (n :: rest))) (1 + n * 5)) as [E|E].
  { cbn [length] in E. lia. }
  cbn [negb mbind option_bind]. eexists. split; [reflexivity|].
  split; [reflexivity|].
  destruct Hun as (H1 & H2 & H3 & H4 & H5 & H6 & H7 & H8). split.
  - unfold acknowledged. cbn. rewrite Hacks. repeat split.
  - unfold monitoring_stopped. cbn. repeat split; assumption.
Qed.

(** X10. A well-formed start-monitor frame for [n] variables, 1 to 10,
    fills the first [n] table entries with the declared addresses and
    type tags in the order of the payload, keeps the other entries,
    sets the count to [n], turns monitoring on, restarts the sample
    clock at the tick it reads, and is acknowledged with status OK. *)
Theorem start_monitor_fills_table (n : nat) (rest : list Z) (s : world) :
  wf s ->
  g_rx_state s = ARES_RX_STATE_WAIT_SOP ->
  (1 <= n)%nat -> Z.of_nat n <= ARESPLOT_MAX_VARS_TO_MONITOR ->
  length rest = (5 * n)%nat ->
  exists s',
    feed (frame_of ARESPLOT_CMD_START_MONITOR (Z.of_nat n :: rest)) s
    = Some s' /\
    g_rx_state s' = ARES_RX_STATE_WAIT_SOP /\
    acknowledged ARESPLOT_CMD_START_MONITOR ARES_STATUS_OK s s' /\
    g_num_monitor_vars s' = Z.of_nat n /\
    g_monitoring_active s' = 1 /\
    (forall i, (i < n)%nat ->
       exists v, declared_var (Z.of_nat n :: rest) i = Some v /\
                 g_monitor_vars s' !! i = Some v) /\
    (forall i, (n <= i)%nat ->
       g_monitor_vars s' !! i = g_monitor_vars s !! i) /\
    g_last_sample_time_ms s' = u32 (tick_source s (tick_reads s)) /\
    tick_reads s' = S (tick_reads s) /\
    g_sample_period_ms s' = g_sample_period_ms s /\
    memory s' = memory s /\
    sent_packets s' = sent_packets s.
Proof.
  intros Hwf Hst Hn1 Hn10 Hrest.
  destruct (feed_frame_handler cast_out_of_range ARESPLOT_CMD_START_MONITOR
              (Z.of_nat n :: rest) s Hwf Hst)
    as (s1 & -> & Hwf1 & Hcmd & Hl & Hbuf & Hun & Hacks & _ & Htick).
  { unfold ARESPLOT_SHARED_BUFFER_SIZE, ARESPLOT_MAX_VARS_TO_MONITOR in *.
    cbn [length]. lia. }
  destruct Hwf as (Hb & _ & Hmv).
  unfold ARESPLOT_SHARED_BUFFER_SIZE, ARESPLOT_MAX_VARS_TO_MONITOR in *.
  destruct Hun as (H1 & H2 & H3 & H4 & H5 & H6 & H7 & H8).
  unfold process_received_frame.
  cbn [g_rx_cmd set_log_dispatched]. rewrite Hcmd.
  cbn [Z.eqb Pos.eqb ARESPLOT_CMD_START_MONITOR].
  unfold handle_cmd_start_monitor.
  cbn [g_rx_payload_buffer set_log_dispatched].
  assert (Hload : load (g_rx_payload_buffer s1) 0 = Some (Z.of_nat n)).
  { rewrite Hbuf. rewrite load_write_at_0 by (cbn [length]; lia).
    reflexivity. }
  rewrite Hload. cbn [mbind option_bind].
  destruct (Z.eqb_spec (Z.of_nat n) 0); [lia|].
  unfold ARESPLOT_MAX_VARS_TO_MONITOR.
  destruct (Z.ltb_spec 10 (Z.of_nat n)); [lia|].
  change (g_rx_payload_len (set_g_num_monitor_vars 0
            (set_g_monitoring_active 0 (set_log_dispatched _ s1))))
    with (g_rx_payload_len s1).
  rewrite Hl.
  destruct (Z.eqb_spec (Z.of_nat (length (Z.of_nat n :: rest)))
              (1 + Z.of_nat n * 5)) as [E|E].
  2:{ cbn [length] in E. lia. }
  cbn [negb g_num_monitor_vars g_rx_payload_buffer g_monitor_vars
       set_g_num_monitor_vars set_g_monitoring_active set_log_dispatched].
  rewrite !Nat2Z.id.
  destruct (fill_table_loop (g_rx_payload_buffer s1) n (g_monitor_vars s1))
    as (vars' & Hloop & Hlen' & Hlow & Hhigh).
  { rewrite H1. lia. }
  { rewrite Hbuf, length_write_at by (cbn [length]; lia). lia. }
  rewrite Hloop. cbn [mbind option_bind]. eexists. split; [reflexivity|].
  split; [reflexivity|]. split.
  { unfold acknowledged. cbn. rewrite Hacks. repeat split. }
  split; [reflexivity|]. split; [reflexivity|]. split.
  { intros i Hi. destruct (Hlow i Hi) as (v & Hd & Hv). exists v.
    split; [|exact Hv].
    rewrite Hbuf, declared_var_write_at_0 in Hd; [exact Hd| |];
      cbn [length]; lia. }
  split.
  { intros i Hi. cbn. rewrite Hhigh by exact Hi. now rewrite H1. }
  cbn. rewrite H7, Htick. repeat split; assumption.
Qed.

End StartMonitor.

(** ** The periodic service *)

Lemma service_sample_part_ticks (s : world) :
  wf s -> g_num_monitor_vars s <= ARESPLOT_MAX_VARS_TO_MONITOR ->
  exists s',
    service_sample_part s = Some s' /\
    tick_reads s' = (tick_reads s + clock_reads s)%nat /\
    tick_source s' = tick_source s.
Proof.
  intros Hwf Hnum. pose proof Hwf as (Hrx & Htx & Hmv).
  unfold ARESPLOT_MAX_VARS_TO_MONITOR, ARESPLOT_SHARED_BUFFER_SIZE in *.
  unfold service_sample_part, clock_reads, samples.
  destruct (Z.eqb_spec (g_monitoring_active s) 0) as [Ea|Ea]; cbn [negb andb].
  { exists s. split; [reflexivity|]. split; [lia|reflexivity]. }
  destruct (Z.ltb_spec 0 (g_num_monitor_vars s)) as [En|En]; cbn [andb].
  2:{ exists s. split; [reflexivity|]. split; [lia|reflexivity]. }
  unfold aresplot_user_get_tick_ms.
  cbn [g_last_sample_time_ms g_sample_period_ms set_tick_reads].
  destruct (sample_due _ _ _).
  2:{ eexists. split; [reflexivity|]. split; [cbn; lia|reflexivity]. }
  set (s1 := set_tick_reads (S (tick_reads s)) s).
  rewrite (send_monitor_data_payload_assembly_spec _ s1);
    [|exact Hmv|exact Ea|exact (conj En Hnum)
     |rewrite length_replicate; unfold ARESPLOT_MAX_VARS_TO_MONITOR; lia].
  cbn [mbind option_bind].
  change (g_num_monitor_vars s1) with (g_num_monitor_vars s).
  destruct (Z.ltb_spec 0 (4 + g_num_monitor_vars s * 4)) as [_|E]; [|lia].
  set (n := Z.to_nat (g_num_monitor_vars s)).
  replace (4 + g_num_monitor_vars s * 4) with (Z.of_nat (4 + 4 * n))
    by (unfold n; lia).
  set (payload := monitor_payload _ _ _).
  assert (Hpl : length payload = (4 + 4 * n)%nat).
  { unfold payload. rewrite length_monitor_payload, length_take.
    change (g_monitor_vars s1) with (g_monitor_vars s). unfold n. lia. }
  set (s2 := set_tick_reads (S (tick_reads s1)) s1).
  destruct (assemble_and_send_frame_internal_prefix ARESPLOT_CMD_MONITOR_DATA
              (write_at (replicate (Z.to_nat (4 + 10 * 4)) 0) 0 payload)
              (4 + 4 * n) s2) as (buf & Hb & Hl).
  { rewrite length_write_at; rewrite ?length_replicate; unfold n; lia. }
  { exact Htx. }
  { unfold ARESPLOT_SHARED_BUFFER_SIZE, n. lia. }
  unfold ARESPLOT_MAX_VARS_TO_MONITOR. rewrite Hb. cbn [mbind option_bind].
  eexists. split; [reflexivity|]. split; [cbn; lia|reflexivity].
Qed.

(** X11. A service call reads the tick once when monitoring is on with
    a non-empty table, a second time when the sample is due, and not
    at all otherwise; an acknowledgement that it sends costs no
    reading. *)
Theorem service_tick_clock_reads (s : world) :
  wf s -> g_num_monitor_vars s <= ARESPLOT_MAX_VARS_TO_MONITOR ->
  exists s',
    aresplot_service_tick s = Some s' /\
    tick_reads s' = (tick_reads s + clock_reads s)%nat.
Proof.
  intros Hwf Hnum. rewrite aresplot_service_tick_parts.
  destruct (service_ack_part_spec s Hwf)
    as (s1 & -> & Hwf1 & _ & _ & _ & Hlast1 & Hnum1 & Hact1
        & _ & Hper1 & _ & Hsrc1 & Hrd1 & _).
  cbn [mbind option_bind].
  destruct (service_sample_part_ticks s1 Hwf1) as (s' & -> & Hrd & _).
  { now rewrite Hnum1. }
  exists s'. split; [reflexivity|]. rewrite Hrd, Hrd1. f_equal.
  unfold clock_reads, samples.
  now rewrite Hact1, Hnum1, Hsrc1, Hrd1, Hlast1, Hper1.
Qed.

(** X12. With no acknowledgement pending and monitoring off or the
    table empty, any number of service calls leaves the engine exactly
    as it is: nothing is sent and the tick is not read. *)
Theorem idle_service_is_silent (cast_out_of_range : Z -> Z -> Z) (n : nat)
    (s : world) :
  g_ack_pending s = 0 ->
  g_monitoring_active s = 0 \/ g_num_monitor_vars s <= 0 ->
  run cast_out_of_range (replicate n ServiceTick) s = Some s.
Proof.
  intros Hack Hoff. induction n as [|n IH]; [reflexivity|].
  cbn [replicate run api_step].
  assert (Ht : aresplot_service_tick s = Some s).
  { unfold aresplot_service_tick. rewrite Hack. cbn [Z.eqb negb].
    cbn [mbind option_bind].
    destruct Hoff as [->|Hn]; [reflexivity|].
    destruct (Z.ltb_spec 0 (g_num_monitor_vars s)) as [E|E]; [lia|].
    now rewrite andb_false_r. }
  rewrite Ht. exact IH.
Qed.

(** The [i]-th group of four bytes of the concatenation of four-byte
    groups. *)
Lemma flat_map_group {A : Type} (f : A -> list Z) (l : list A) (i : nat)
    (v : A) :
  (forall x, length (f x) = 4%nat) ->
  l !! i = Some v ->
  take 4 (drop (4 * i) (flat_map f l)) = f v.
Proof.
  intros Hf. revert i. induction l as [|x l IH]; intros i Hi; [discriminate|].
  cbn [flat_map]. destruct i as [|i].
  - injection Hi as ->. rewrite Nat.mul_0_r, drop_0.
    rewrite take_app_le by (rewrite Hf; lia).
    apply take_ge. rewrite Hf. lia.
  - cbn [lookup list_lookup] in Hi.
    replace (4 * S i)%nat with (length (f x) + 4 * i)%nat by (rewrite Hf; lia).
    rewrite drop_app_add'; [|reflexivity]. now apply IH.
Qed.

(** X13. A service call that samples sends, as its last packet, a data
    frame of [10 + 4 * count] bytes: the header with command id 0x81
    and payload length [4 + 4 * count], the tick read for the frame as
    a little-endian timestamp, then for each table entry in order the
    four bytes of its value as a float; the last-sample time becomes
    the tick read before it, when the call decided to sample. *)
Theorem sampling_call_sends_data_frame (s : world) :
  wf s -> g_num_monitor_vars s <= ARESPLOT_MAX_VARS_TO_MONITOR ->
  samples s = true ->
  exists s' f,
    aresplot_service_tick s = Some s' /\
    last (sent_packets s') = Some f /\
    Z.of_nat (length f) = 10 + 4 * g_num_monitor_vars s /\
    take 4 f = [ARESPLOT_SOP; ARESPLOT_CMD_MONITOR_DATA;
                4 + 4 * g_num_monitor_vars s; 0] /\
    take 4 (drop 4 f) = le32_bytes (u32 (tick_source s (S (tick_reads s)))) /\
    (forall i v,
       Z.of_nat i < g_num_monitor_vars s ->
       g_monitor_vars s !! i = Some v ->
       take 4 (drop (8 + 4 * i) f)
       = le32_bytes (temp_float_val_of (memory s) v)) /\
    g_last_sample_time_ms s' = u32 (tick_source s (tick_reads s)).
Proof.
  intros Hwf Hnum Hs.
  destruct (aresplot_service_tick_spec s Hwf Hnum)
    as (s' & Ht & _ & _ & Hsent & _ & Hlast & _).
  rewrite Hs in Hlast. unfold service_packets in Hsent. rewrite Hs in Hsent.
  assert (Hpos : 0 < g_num_monitor_vars s).
  { unfold samples in Hs. apply andb_prop in Hs as [Hs _].
    apply andb_prop in Hs as [_ Hs]. now apply Z.ltb_lt in Hs. }
  destruct Hwf as (_ & _ & Hmv). unfold ARESPLOT_MAX_VARS_TO_MONITOR in *.
  exists s', (data_frame s). split; [exact Ht|].
  split. { rewrite Hsent, app_assoc. apply last_snoc. }
  unfold data_frame.
  set (n := Z.to_nat (g_num_monitor_vars s)).
  set (vars := take n (g_monitor_vars s)).
  assert (Hlv : length vars = n).
  { unfold vars. rewrite length_take. unfold n. lia. }
  set (payload := monitor_payload _ _ _).
  assert (Hpl : length payload = (4 + 4 * n)%nat).
  { unfold payload. rewrite length_monitor_payload, Hlv. reflexivity. }
  unfold frame_of. rewrite Hpl.
  split. { rewrite !length_app. cbn [length]. rewrite Hpl. unfold n. lia. }
  split.
  { cbn [take app]. unfold ARESPLOT_CMD_MONITOR_DATA.
    f_equal. f_equal. f_equal; [|f_equal].
    - change 255 with (Z.ones 8). rewrite Z.land_ones by lia.
      unfold u8. rewrite Zmod_mod. rewrite Z.mod_small; unfold n; lia.
    - rewrite Z.shiftr_div_pow2 by lia.
      rewrite (Z.div_small (Z.of_nat (4 + 4 * n))) by (unfold n; lia).
      reflexivity. }
  split.
  { cbn [drop app]. rewrite drop_0. unfold payload, monitor_payload.
    rewrite <- app_assoc.
    rewrite take_app_le by (rewrite length_le32_bytes; lia).
    apply take_ge. rewrite length_le32_bytes. lia. }
  split; [|exact Hlast].
  intros i v Hi Hv.
  change (8 + 4 * i)%nat with (4 + (4 + 4 * i))%nat.
  rewrite <- drop_drop. cbn [drop app]. rewrite drop_0.
  unfold payload, monitor_payload. rewrite <- drop_drop.
  rewrite <- app_assoc.
  rewrite drop_app_length' by reflexivity.
  assert (Hfl : length (flat_map (fun v0 => le32_bytes
                (temp_float_val_of (memory s) v0)) vars) = (4 * n)%nat).
  { pose proof (length_monitor_payload 0 (memory s) vars) as H.
    unfold monitor_payload in H. rewrite length_app, length_le32_bytes in H.
    lia. }
  rewrite drop_app_le by (rewrite Hfl; unfold n; lia).
  rewrite take_app_le by (rewrite length_drop, Hfl; unfold n; lia).
  apply (flat_map_group
           (fun v0 => le32_bytes (temp_float_val_of (memory s) v0))).
  - intros x. apply length_le32_bytes.
  - unfold vars. rewrite lookup_take_lt by (unfold n; lia). exact Hv.
Qed.

(** ** What reaches the transport *)

Lemma service_packets_engine (s : world) :
  wf s -> g_num_monitor_vars s <= ARESPLOT_MAX_VARS_TO_MONITOR ->
  Forall engine_packet (service_packets s) /\
  (length (service_packets s) <= 2)%nat.
Proof.
  intros (_ & _ & Hmv) Hnum. unfold service_packets.
  unfold ARESPLOT_MAX_VARS_TO_MONITOR in *.
  assert (Hd : samples s = true -> engine_packet (data_frame s)).
  { intros Hs. right.
    assert (Hpos : 0 < g_num_monitor_vars s).
    { unfold samples in Hs. apply andb_prop in Hs as [Hs _].
      apply andb_prop in Hs as [_ Hs]. now apply Z.ltb_lt in Hs. }
    eexists _, _, _. split; [|split; [|reflexivity]];
      rewrite length_take; unfold ARESPLOT_MAX_VARS_TO_MONITOR; lia. }
  destruct (g_ack_pending s =? 0); destruct (samples s); cbn [app length];
    (split; [|lia]); repeat apply List.Forall_cons; try apply List.Forall_nil;
    try (apply Hd; reflexivity); left; eexists _, _; reflexivity.
Qed.

(** X14. In any state whose table count is within the capacity, a
    service call completes and hands at most two packets to the
    transport, each an acknowledgement frame or a data frame for 1 to
    10 variables: the pending acknowledgement, if there is one, then
    the data frame, if a sample is due. *)
Theorem service_call_sends_engine_packets (s : world) :
  wf s -> g_num_monitor_vars s <= ARESPLOT_MAX_VARS_TO_MONITOR ->
  exists s' pkts,
    aresplot_service_tick s = Some s' /\
    sent_packets s' = sent_packets s ++ pkts /\
    (length pkts <= 2)%nat /\
    Forall engine_packet pkts /\
    length pkts
    = ((if (g_ack_pending s =? 0)%Z then 0 else 1)
       + (if samples s then 1 else 0))%nat.
Proof.
  intros Hwf Hnum.
  destruct (aresplot_service_tick_spec s Hwf Hnum)
    as (s' & Ht & _ & _ & Hsent & _).
  destruct (service_packets_engine s Hwf Hnum) as (Hall & Hlen).
  exists s', (service_packets s).
  split; [exact Ht|]. split; [exact Hsent|]. split; [exact Hlen|].
  split; [exact Hall|].
  unfold service_packets. rewrite length_app.
  destruct (g_ack_pending s =? 0); destruct (samples s); reflexivity.
Qed.

(** ** The capacity of the transmitter *)

(** A copy that does not fit the destination runs off its end. *)
Lemma memcpy_loop_overrun (src : list Z) (off : Z) (n : nat) :
  forall (i : Z) (d : list Z),
    0 <= off + i <= Z.of_nat (length d) ->
    Z.of_nat (length d) < off + i + Z.of_nat n ->
    for_loop n i (fun i d => b ← load src i; store d (off + i) b) d = None.
Proof.
  induction n as [|n IH]; intros i d Hi Hn; [lia|].
  cbn [for_loop]. destruct (load src i) as [b|]; [|reflexivity].
  cbn [mbind option_bind].
  destruct (store d (off + i) b) as [d'|] eqn:E; [|reflexivity].
  cbn [mbind option_bind]. apply store_length in E as [El Er].
  apply IH; rewrite El; lia.
Qed.

(** X15. The transmitter sends a frame for a payload of up to 122
    bytes, the largest whose frame fits the 128-byte assembly buffer,
    and returns without sending or changing anything for a payload
    length from 123 to 65529. *)
Theorem transmitter_capacity (cmd : Z) (payload : list Z) (s : world) :
  Z.of_nat (length (g_tx_assembly_buffer s)) = ARESPLOT_SHARED_BUFFER_SIZE ->
  Z.of_nat (length payload) <= 65529 ->
  exists s',
    assemble_and_send_frame_internal cmd payload (Z.of_nat (length payload)) s
    = Some s' /\
    sent_packets s'
    = sent_packets s ++
      (if Z.of_nat (length payload) <=? 122 then [frame_of cmd payload]
       else []) /\
    (122 < Z.of_nat (length payload) -> s' = s).
Proof.
  intros Hbuf Hlen.
  destruct (Z.leb_spec (Z.of_nat (length payload)) 122) as [E|E].
  - destruct (assemble_and_send_frame_internal_spec cmd payload s Hbuf)
      as (buf & -> & _).
    { unfold ARESPLOT_SHARED_BUFFER_SIZE. lia. }
    eexists. split; [reflexivity|]. split; [reflexivity|lia].
  - exists s. unfold assemble_and_send_frame_internal.
    replace (u16 (1 + 1 + 2 + Z.of_nat (length payload) + 1 + 1))
      with (6 + Z.of_nat (length payload))
      by (unfold u16; rewrite Z.mod_small; lia).
    unfold ARESPLOT_SHARED_BUFFER_SIZE.
    destruct (Z.ltb_spec 128 (6 + Z.of_nat (length payload))); [|lia].
    split; [reflexivity|]. split; [now rewrite app_nil_r|reflexivity].
Qed.

(** X16. For a payload length from 65530 to 65535, with a payload
    that holds that many bytes, the 16-bit frame length wraps around
    to at most 5 and the size check passes; the copy of the payload
    fills the assembly buffer to its last byte with the first 124
    payload bytes, and the store of the next payload byte, which is
    read within the payload, falls outside the assembly buffer. *)
Theorem transmitter_length_wraps (cmd : Z) (payload : list Z) (len : Z)
    (s : world) :
  Z.of_nat (length (g_tx_assembly_buffer s)) = ARESPLOT_SHARED_BUFFER_SIZE ->
  65530 <= len <= 65535 ->
  len <= Z.of_nat (length payload) ->
  let header :=
    [ARESPLOT_SOP; cmd; u8 (Z.land len 0xFF);
     u8 (Z.land (Z.shiftr len 8) 0xFF)] in
  let filled :=
    write_at (g_tx_assembly_buffer s) 0 (header ++ take 124 payload) in
  u16 (1 + 1 + 2 + len + 1 + 1) <= 5 /\
  (ARESPLOT_SHARED_BUFFER_SIZE <? u16 (1 + 1 + 2 + len + 1 + 1)) = false /\
  memcpy (write_at (g_tx_assembly_buffer s) 0 header) 4 payload 124
  = Some filled /\
  length filled = 128%nat /\
  (exists b, load payload 124 = Some b /\ store filled (4 + 124) b = None) /\
  assemble_and_send_frame_internal cmd payload len s = None.
Proof.
  intros Hbuf Hlen Hpay header filled.
  unfold ARESPLOT_SHARED_BUFFER_SIZE in *.
  assert (Hw : u16 (1 + 1 + 2 + len + 1 + 1) = len - 65530).
  { unfold u16. replace (1 + 1 + 2 + len + 1 + 1)
      with (len - 65530 + 1 * 65536) by lia.
    rewrite Z.mod_add by lia. apply Z.mod_small. lia. }
  set (b0 := g_tx_assembly_buffer s) in *.
  assert (Hfl : length filled = 128%nat).
  { unfold filled, header. rewrite length_write_at; [lia|].
    rewrite length_app, length_take. cbn [length]. lia. }
  split; [lia|]. split; [rewrite Hw; apply Z.ltb_ge; lia|].
  split.
  { assert (Ht : length (take 124 payload) = 124%nat)
      by (rewrite length_take; lia).
    change (memcpy (write_at b0 0 header) 4 payload (Z.of_nat 124)
            = Some filled).
    rewrite (memcpy_take _ payload _ 124) by lia.
    pose proof (memcpy_append b0 header (take 124 payload) 4 eq_refl) as H.
    rewrite Ht in H. apply H. unfold header. cbn [length]. lia. }
  split; [exact Hfl|]. split.
  { destruct (load_in_range payload 124) as [b Hb]; [lia|].
    exists b. split; [exact Hb|]. unfold store. rewrite Hfl.
    reflexivity. }
  unfold assemble_and_send_frame_internal. rewrite Hw.
  unfold ARESPLOT_SHARED_BUFFER_SIZE.
  destruct (Z.ltb_spec 128 (len - 65530)); [lia|].
  change (u16 (0 + 1)) with 1. change (u16 (1 + 1)) with 2.
  change (u16 (2 + 1)) with 3. change (u16 (3 + 1)) with 4.
  change (store b0 0 ARESPLOT_SOP) with (store (write_at b0 0 []) 0 ARESPLOT_SOP).
  rewrite (store_append b0 []) by (simpl; lia).
  simpl app. cbn [mbind option_bind].
  rewrite (store_append b0 [_]) by (simpl; lia).
  simpl app. cbn [mbind option_bind].
  rewrite (store_append b0 [_; _]) by (simpl; lia).
  simpl app. cbn [mbind option_bind].
  rewrite (store_append b0 [_; _; _]) by (simpl; lia).
  simpl app. cbn [mbind option_bind].
  destruct (Z.ltb_spec 0 len); [|lia].
  unfold memcpy. rewrite memcpy_loop_overrun; [reflexivity| |].
  - rewrite length_write_at by (cbn [length]; lia). lia.
  - rewrite length_write_at by (cbn [length]; lia). lia.
Qed.

(** ** Packets and streams *)

(** X17. The receiver does not depend on how the transport cuts the
    byte stream into packets: feeding a sequence of packets, one call
    each, is feeding their concatenation in a single call. *)
Theorem packet_boundaries_do_not_matter (cast_out_of_range : Z -> Z -> Z)
    (packets : list (list Z)) (s : world) :
  feed_packets cast_out_of_range packets s
  = aresplot_rx_feed_packet cast_out_of_range (concat packets)
      (Z.of_nat (length (concat packets))) s.
Proof.
  rewrite aresplot_rx_feed_packet_bytes. revert s.
  induction packets as [|p packets IH]; intros s; [reflexivity|].
  cbn [feed_packets concat].
  rewrite aresplot_rx_feed_packet_bytes, feed_bytes_app.
  destruct (feed_bytes cast_out_of_range p s) as [s1|]; [|reflexivity].
  cbn [mbind option_bind]. apply IH.
Qed.

(** ** Writing a variable, then sampling it *)

Lemma sint_mod (w z : Z) :
  0 < w -> - 2 ^ (w - 1) <= z < 2 ^ (w - 1) -> sint w (z mod 2 ^ w) = z.
Proof.
  intros Hw Hz. unfold sint.
  assert (Hp : 2 ^ w = 2 * 2 ^ (w - 1)).
  { rewrite <- Z.pow_succ_r by lia. f_equal. lia. }
  destruct (Z.ltb_spec z 0) as [Hneg|Hpos].
  - replace (z mod 2 ^ w) with (z + 2 ^ w).
    + destruct (Z.ltb_spec (z + 2 ^ w) (2 ^ (w - 1))); lia.
    + symmetry. rewrite <- (Z.mod_add z 1 (2 ^ w)) by lia.
      rewrite Z.mul_1_l. apply Z.mod_small. lia.
  - rewrite Z.mod_small by lia.
    destruct (Z.ltb_spec z (2 ^ (w - 1))); lia.
Qed.

Lemma read_u8_write_u8 (m : Z -> Z) (a v : Z) :
  read_u8 (write_u8 m a v) a = v mod 2 ^ 8.
Proof. rewrite <- read_le_1. apply read_write_u8. Qed.

Lemma read_u16_write_u16 (m : Z -> Z) (a v : Z) :
  read_u16 (write_u16 m a v) a = v mod 2 ^ 16.
Proof. rewrite <- read_le_2. apply read_write_u16. Qed.

Lemma read_u32_write_u32 (m : Z -> Z) (a v : Z) :
  read_u32 (write_u32 m a v) a = v mod 2 ^ 32.
Proof. rewrite <- read_le_4. apply read_write_u32. Qed.

Lemma load_app_r (pre l : list Z) (k : Z) :
  0 <= k -> load (pre ++ l) (Z.of_nat (length pre) + k) = load l k.
Proof.
  intros Hk. unfold load. rewrite length_app.
  destruct (Z.leb_spec 0 k); [|lia].
  destruct (Z.leb_spec 0 (Z.of_nat (length pre) + k)); [|lia].
  destruct (Z.ltb_spec k (Z.of_nat (length l)));
    destruct (Z.ltb_spec (Z.of_nat (length pre) + k)
                (Z.of_nat (length pre + length l))); try lia; [|reflexivity].
  cbn [andb]. rewrite lookup_app_r by lia. f_equal. lia.
Qed.

Lemma load_le32_field (pre post : list Z) (x : Z) :
  load_le32 (pre ++ le32_bytes x ++ post) (Z.of_nat (length pre))
  = Some (x mod 2 ^ 32).
Proof.
  unfold load_le32.
  rewrite <- (Z.add_0_r (Z.of_nat (length pre))), <- !Z.add_assoc.
  rewrite !load_app_r by lia.
  unfold le32_bytes. cbn [app].
  set (b0 := u8 _). set (b1 := u8 _). set (b2 := u8 _). set (b3 := u8 _).
  change 0 with (Z.of_nat 0) at 1. change (0 + 1) with (Z.of_nat 1).
  change (0 + (1 + 1)) with (Z.of_nat 2).
  change (0 + (1 + 1 + 1)) with (Z.of_nat 3).
  rewrite (load_Some _ 0 b0), (load_Some _ 1 b1), (load_Some _ 2 b2),
    (load_Some _ 3 b3) by reflexivity.
  cbn [mbind option_bind]. subst b0 b1 b2 b3. f_equal. apply le32_le32_bytes.
Qed.

Section SetThenSample.

Variable cast_out_of_range : Z -> Z -> Z.

Local Abbreviation feed := (feed_bytes cast_out_of_range).

Lemma handle_cmd_set_variable_sample (s : world) (addr ty fv : Z) :
  g_rx_payload_len s = 9 ->
  load_le32 (g_rx_payload_buffer s) 0 = Some addr ->
  load (g_rx_payload_buffer s) 4 = Some ty ->
  load_le32 (g_rx_payload_buffer s) 5 = Some fv ->
  addr <> 0 -> 0 <= fv < 2 ^ 32 ->
  exists s',
    handle_cmd_set_variable cast_out_of_range s = Some s' /\
    (ty = ARES_TYPE_FLOAT32 ->
       temp_float_val_of (memory s') (VarInfo addr ty) = fv) /\
    (ty = ARES_TYPE_BOOL ->
       temp_float_val_of (memory s') (VarInfo addr ty)
       = if ieee754_is_zero fv then F32_ZERO else F32_ONE) /\
    (forall lo hi z,
       int_range ty = Some (lo, hi) ->
       ieee754_truncates_to fv z = true -> lo <= z <= hi ->
       temp_float_val_of (memory s') (VarInfo addr ty) = float_of_int z).
Proof.
  intros Hlen Ha Ht Hf Hnz Hfv.
  unfold handle_cmd_set_variable. rewrite Hlen, Ha, Ht, Hf.
  cbn [negb Z.eqb Pos.eqb mbind option_bind].
  unfold temp_float_val_of, int_range. cbn [ptr type].
  destruct (Z.eqb_spec addr 0) as [|_]; [contradiction|].
  unfold ARES_TYPE_INT8, ARES_TYPE_UINT8, ARES_TYPE_INT16, ARES_TYPE_UINT16,
    ARES_TYPE_INT32, ARES_TYPE_UINT32, ARES_TYPE_FLOAT32, ARES_TYPE_FLOAT64,
    ARES_TYPE_BOOL.
  destruct (Z.eqb_spec ty 0) as [->|N0].
  { eexists. split; [reflexivity|]. repeat split; try discriminate.
    intros lo hi z [= <- <-] Hz Hr.
    apply float_trunc_spec in Hz; [|exact Hfv].
    cbn [memory queue_ack_response set_memory set_log_acks set_g_ack_pending
         set_g_ack_status_to_send set_g_ack_cmd_to_ack].
    rewrite read_u8_write_u8, (cast_float_in_range cast_out_of_range _ _ _ _ z Hz Hr).
    rewrite sint_mod by lia. reflexivity. }
  destruct (Z.eqb_spec ty 1) as [->|N1].
  { eexists. split; [reflexivity|]. repeat split; try discriminate.
    intros lo hi z [= <- <-] Hz Hr.
    apply float_trunc_spec in Hz; [|exact Hfv].
    cbn [memory queue_ack_response set_memory set_log_acks set_g_ack_pending
         set_g_ack_status_to_send set_g_ack_cmd_to_ack].
    rewrite read_u8_write_u8, (cast_float_in_range cast_out_of_range _ _ _ _ z Hz Hr).
    rewrite Z.mod_small by lia. reflexivity. }
  destruct (Z.eqb_spec ty 2) as [->|N2].
  { eexists. split; [reflexivity|]. repeat split; try discriminate.
    intros lo hi z [= <- <-] Hz Hr.
    apply float_trunc_spec in Hz; [|exact Hfv].
    cbn [memory queue_ack_response set_memory set_log_acks set_g_ack_pending
         set_g_ack_status_to_send set_g_ack_cmd_to_ack].
    rewrite read_u16_write_u16, (cast_float_in_range cast_out_of_range _ _ _ _ z Hz Hr).
    rewrite sint_mod by lia. reflexivity. }
  destruct (Z.eqb_spec ty 3) as [->|N3].
  { eexists. split; [reflexivity|]. repeat split; try discriminate.
    intros lo hi z [= <- <-] Hz Hr.
    apply float_trunc_spec in Hz; [|exact Hfv].
    cbn [memory queue_ack_response set_memory set_log_acks set_g_ack_pending
         set_g_ack_status_to_send set_g_ack_cmd_to_ack].
    rewrite read_u16_write_u16, (cast_float_in_range cast_out_of_range _ _ _ _ z Hz Hr).
    rewrite Z.mod_small by lia. reflexivity. }
  destruct (Z.eqb_spec ty 4) as [->|N4].
  { eexists. split; [reflexivity|]. repeat split; try discriminate.
    intros lo hi z [= <- <-] Hz Hr.
    apply float_trunc_spec in Hz; [|exact Hfv].
    cbn [memory queue_ack_response set_memory set_log_acks set_g_ack_pending
         set_g_ack_status_to_send set_g_ack_cmd_to_ack].
    rewrite read_u32_write_u32, (cast_float_in_range cast_out_of_range _ _ _ _ z Hz Hr).
    rewrite sint_mod by lia. reflexivity. }
  destruct (Z.eqb_spec ty 5) as [->|N5].
  { eexists. split; [reflexivity|]. repeat split; try discriminate.
    intros lo hi z [= <- <-] Hz Hr.
    apply float_trunc_spec in Hz; [|exact Hfv].
    cbn [memory queue_ack_response set_memory set_log_acks set_g_ack_pending
         set_g_ack_status_to_send set_g_ack_cmd_to_ack].
    rewrite read_u32_write_u32, (cast_float_in_range cast_out_of_range _ _ _ _ z Hz Hr).
    rewrite Z.mod_small by lia. reflexivity. }
  destruct (Z.eqb_spec ty 6) as [->|N6].
  { eexists. split; [reflexivity|]. repeat split; try discriminate.
    intros _.
    cbn [memory queue_ack_response set_memory set_log_acks set_g_ack_pending
         set_g_ack_status_to_send set_g_ack_cmd_to_ack].
    rewrite read_u32_write_u32. apply Z.mod_small. lia. }
  destruct (Z.eqb_spec ty 8) as [->|N8].
  { eexists. split; [reflexivity|]. repeat split; try discriminate.
    intros _.
    cbn [memory queue_ack_response set_memory set_log_acks set_g_ack_pending
         set_g_ack_status_to_send set_g_ack_cmd_to_ack].
    rewrite read_u8_write_u8, float_is_nonzero_spec by exact Hfv.
    destruct (ieee754_is_zero fv); reflexivity. }
  eexists. split; [reflexivity|]. repeat split; try contradiction; discriminate.
Qed.

(** X18. A set-variable frame followed by a sample of the same
    variable, with the float read as IEEE-754 prescribes: a 32-bit
    float is sampled as the very pattern that was sent; a boolean as
    0.0 when the float sent was a zero and as 1.0 otherwise; an
    integer, when the float truncated toward zero fits its type, as
    that integer converted back to a float. *)
Theorem set_then_sample (addr ty fv : Z) (s : world) :
  wf s ->
  g_rx_state s = ARES_RX_STATE_WAIT_SOP ->
  0 < addr < 2 ^ 32 -> 0 <= fv < 2 ^ 32 ->
  exists s',
    feed (frame_of ARESPLOT_CMD_SET_VARIABLE
            (set_variable_payload addr ty fv)) s = Some s' /\
    (ty = ARES_TYPE_FLOAT32 ->
       temp_float_val_of (memory s') (VarInfo addr ty) = fv) /\
    (ty = ARES_TYPE_BOOL ->
       temp_float_val_of (memory s') (VarInfo addr ty)
       = if ieee754_is_zero fv then F32_ZERO else F32_ONE) /\
    (forall lo hi z,
       int_range ty = Some (lo, hi) ->
       ieee754_truncates_to fv z = true -> lo <= z <= hi ->
       temp_float_val_of (memory s') (VarInfo addr ty) = float_of_int z).
Proof.
  intros Hwf Hst Haddr Hfv.
  destruct (feed_frame_handler cast_out_of_range ARESPLOT_CMD_SET_VARIABLE
              (set_variable_payload addr ty fv) s Hwf Hst)
    as (s1 & -> & Hwf1 & Hcmd & Hl & Hbuf & _).
  { unfold ARESPLOT_SHARED_BUFFER_SIZE. cbn. lia. }
  destruct Hwf as (Hb & _). unfold ARESPLOT_SHARED_BUFFER_SIZE in *.
  unfold process_received_frame.
  cbn [g_rx_cmd set_log_dispatched]. rewrite Hcmd.
  cbn [Z.eqb Pos.eqb ARESPLOT_CMD_START_MONITOR ARESPLOT_CMD_SET_VARIABLE].
  destruct (handle_cmd_set_variable_sample
              (set_log_dispatched
                 (log_dispatched s1 ++
                  [(ARESPLOT_CMD_SET_VARIABLE,
                    take (Z.to_nat (g_rx_payload_len s1))
                      (g_rx_payload_buffer s1))]) s1) addr ty fv)
    as (s' & -> & H1 & H2 & H3).
  - exact Hl.
  - cbn [g_rx_payload_buffer set_log_dispatched]. rewrite Hbuf.
    rewrite load_le32_write_at_0 by (cbn [length app set_variable_payload
      le32_bytes]; lia).
    unfold set_variable_payload.
    rewrite (load_le32_field [] (ty :: le32_bytes fv) addr : load_le32
      (le32_bytes addr ++ ty :: le32_bytes fv) 0 = _).
    f_equal. apply Z.mod_small. lia.
  - cbn [g_rx_payload_buffer set_log_dispatched]. rewrite Hbuf.
    rewrite load_write_at_0 by (cbn [length app set_variable_payload
      le32_bytes]; lia).
    reflexivity.
  - cbn [g_rx_payload_buffer set_log_dispatched]. rewrite Hbuf.
    rewrite load_le32_write_at_0 by (cbn [length app set_variable_payload
      le32_bytes]; lia).
    unfold set_variable_payload.
    change (le32_bytes addr ++ ty :: le32_bytes fv)
      with ((le32_bytes addr ++ [ty]) ++ le32_bytes fv ++ []).
    rewrite (load_le32_field (le32_bytes addr ++ [ty]) [] fv : load_le32
      ((le32_bytes addr ++ [ty]) ++ le32_bytes fv ++ []) 5 = _).
    f_equal. apply Z.mod_small. lia.
  - lia.
  - exact Hfv.
  - cbn [mbind option_bind]. eexists. split; [reflexivity|].
    cbn [memory set_g_rx_state]. auto.
Qed.

End SetThenSample.

(** ** From a received frame to its acknowledgement *)

Section Acknowledged.

Variable cast_out_of_range : Z -> Z -> Z.

Local Abbreviation feed := (feed_bytes cast_out_of_range).
Local Abbreviation feed_byte := (aresplot_rx_feed_byte cast_out_of_range).

(** X19. Every well-formed frame, whatever its command id and payload,
    is answered: the service call that follows it sends first an
    acknowledgement frame for that command id, then the data frame if
    a sample is due, and leaves no acknowledgement pending. *)
Theorem every_frame_is_acknowledged (cmd : Z) (payload : list Z)
    (s : world) :
  wf s ->
  g_rx_state s = ARES_RX_STATE_WAIT_SOP ->
  g_num_monitor_vars s <= ARESPLOT_MAX_VARS_TO_MONITOR ->
  Z.of_nat (length payload) <= ARESPLOT_SHARED_BUFFER_SIZE ->
  exists s1 s2 status,
    feed (frame_of cmd payload) s = Some s1 /\
    aresplot_service_tick s1 = Some s2 /\
    sent_packets s2
    = sent_packets s ++ ack_frame cmd status
        :: (if samples s1 then [data_frame s1] else []) /\
    g_ack_pending s2 = 0.
Proof.
  intros Hwf Hst Hnum Hlen.
  destruct (feed_frame_handler cast_out_of_range cmd payload s Hwf Hst Hlen)
    as (s0 & -> & Hwf0 & Hcmd & _ & _ & Hun & _).
  destruct (process_received_frame_handled cast_out_of_range s0 Hwf0)
    as (s1 & -> & Hwf1 & _ & _ & Hsent1 & Hnum1 & status & _ & Hp & Hc & Hs).
  cbn [mbind option_bind].
  set (s1' := set_g_rx_state ARES_RX_STATE_WAIT_SOP s1).
  destruct Hun as (_ & Hn0 & _ & _ & _ & _ & _ & Hsent0).
  destruct (aresplot_service_tick_spec s1') as (s2 & Ht & _ & _ & Hsent2 & Hp2 & _).
  { exact Hwf1. }
  { apply Hnum1. cbn [g_num_monitor_vars set_log_dispatched].
    now rewrite Hn0. }
  exists s1', s2, status. split; [reflexivity|]. split; [exact Ht|].
  split; [|exact Hp2].
  rewrite Hsent2. unfold service_packets.
  change (g_ack_pending s1') with (g_ack_pending s1).
  change (g_ack_cmd_to_ack s1') with (g_ack_cmd_to_ack s1).
  change (g_ack_status_to_send s1') with (g_ack_status_to_send s1).
  change (sent_packets s1') with (sent_packets s1).
  rewrite Hp, Hc, Hs, Hsent1. cbn [Z.eqb app sent_packets set_log_dispatched].
  now rewrite Hsent0, Hcmd.
Qed.

(** X20. Only the byte that ends a frame has effects beyond the
    receiver: any other byte leaves the table, the sample clock, the
    device memory, the transport and the dispatch log as they are,
    and queues an acknowledgement only when it is a wrong checksum
    byte. *)
Theorem only_the_end_marker_dispatches (b : Z) (s s' : world) :
  feed_byte b s = Some s' ->
  g_rx_state s <> ARES_RX_STATE_WAIT_EOP \/ b <> ARESPLOT_EOP ->
  untouched s s' /\ log_dispatched s' = log_dispatched s /\
  (g_rx_state s <> ARES_RX_STATE_WAIT_CHECKSUM \/
   b = g_rx_checksum_calculated s ->
   log_acks s' = log_acks s /\ g_ack_pending s' = g_ack_pending s).
Proof.
  intros Hf Hcase. unfold aresplot_rx_feed_byte in Hf.
  destruct (g_rx_state s) eqn:Hst.
  - destruct (b =? ARESPLOT_SOP); injection Hf as <-; repeat split.
  - injection Hf as <-; repeat split.
  - injection Hf as <-; repeat split.
  - cbv zeta in Hf.
    destruct (_ <? _); [|destruct (_ =? _)]; injection Hf as <-; repeat split.
  - destruct (store _ _ _) as [buf|]; [|discriminate].
    cbn [mbind option_bind] in Hf.
    destruct (_ <=? _); injection Hf as <-; repeat split.
  - destruct (Z.eqb_spec b (g_rx_checksum_calculated s)) as [E|E].
    + injection Hf as <-; repeat split.
    + injection Hf as <-. split; [repeat split|]. split; [reflexivity|].
      intros [H|H]; [contradiction|contradiction].
  - destruct Hcase as [H|H]; [contradiction|].
    destruct (Z.eqb_spec b ARESPLOT_EOP) as [E|E]; [contradiction|].
    injection Hf as <-; repeat split.
Qed.

End Acknowledged.

(** * The further properties on concrete inputs *)

(** X2 on three stray bytes before a set-sample-rate frame. *)
Lemma noise_before_start_marker_is_skipped_witness :
  feed_bytes cast_to_zero
    ([0; 0x5A; 7] ++ frame_of ARESPLOT_CMD_SET_SAMPLE_RATE [100; 0; 0; 0])
    idle_device
  = feed_bytes cast_to_zero
      (frame_of ARESPLOT_CMD_SET_SAMPLE_RATE [100; 0; 0; 0]) idle_device.
Proof.
  apply (noise_before_start_marker_is_skipped cast_to_zero [0; 0x5A; 7]
           (frame_of ARESPLOT_CMD_SET_SAMPLE_RATE [100; 0; 0; 0]) idle_device).
  - reflexivity.
  - repeat (apply List.Forall_cons; [vm_compute; discriminate|]).
    apply List.Forall_nil.
Defined.

(** X3 on a set-sample-rate frame that ends in 0x5B. *)
Lemma bad_end_marker_discards_frame_witness :
  feed_bytes cast_to_zero
    (frame_header ARESPLOT_CMD_SET_SAMPLE_RATE (length [100; 0; 0; 0])
     ++ [100; 0; 0; 0]
     ++ [frame_checksum ARESPLOT_CMD_SET_SAMPLE_RATE [100; 0; 0; 0]; 0x5B])
    idle_device
  = Some (rx_upd ARES_RX_STATE_WAIT_SOP
            (write_at (g_rx_payload_buffer idle_device) 0 [100; 0; 0; 0])
            (Z.of_nat (length [100; 0; 0; 0]))
            (if decide ([100; 0; 0; 0] = []) then g_rx_payload_idx idle_device
             else Z.of_nat (length [100; 0; 0; 0]))
            ARESPLOT_CMD_SET_SAMPLE_RATE
            (frame_checksum ARESPLOT_CMD_SET_SAMPLE_RATE [100; 0; 0; 0])
            idle_device).
Proof.
  apply (bad_end_marker_discards_frame cast_to_zero
           ARESPLOT_CMD_SET_SAMPLE_RATE 0x5B [100; 0; 0; 0] idle_device).
  - sizes_ok.
  - reflexivity.
  - vm_compute. discriminate.
  - vm_compute. discriminate.
Defined.

(** X4 on a header that declares 129 payload bytes. *)
Lemma oversize_length_drops_frame_witness :
  feed_bytes cast_to_zero [ARESPLOT_SOP; ARESPLOT_CMD_SET_VARIABLE; 129; 0]
    idle_device
  = Some (rx_upd ARES_RX_STATE_WAIT_SOP (g_rx_payload_buffer idle_device)
            (129 + 256 * 0) (g_rx_payload_idx idle_device)
            ARESPLOT_CMD_SET_VARIABLE
            (header_checksum ARESPLOT_CMD_SET_VARIABLE 129 0) idle_device).
Proof.
  apply (oversize_length_drops_frame cast_to_zero ARESPLOT_CMD_SET_VARIABLE
           129 0 idle_device).
  - reflexivity.
  - unfold is_u8. lia.
  - unfold is_u8. lia.
  - vm_compute. reflexivity.
Defined.

(** X5 on a device that was left in the middle of a header, then fed
    133 zero bytes. *)
Lemma filler_bytes_resynchronise_witness :
  exists s',
    feed_bytes cast_to_zero (replicate 133 0)
      (after_bytes [ARESPLOT_SOP; ARESPLOT_CMD_SET_VARIABLE] idle_device)
    = Some s' /\
    g_rx_state s' = ARES_RX_STATE_WAIT_SOP /\
    log_dispatched s'
    = log_dispatched
        (after_bytes [ARESPLOT_SOP; ARESPLOT_CMD_SET_VARIABLE] idle_device) /\
    sent_packets s'
    = sent_packets
        (after_bytes [ARESPLOT_SOP; ARESPLOT_CMD_SET_VARIABLE] idle_device).
Proof.
  apply (filler_bytes_resynchronise cast_to_zero 0 133
           (after_bytes [ARESPLOT_SOP; ARESPLOT_CMD_SET_VARIABLE] idle_device)).
  - unfold inv. split; [sizes_ok|]. split; [vm_compute; exact I|].
    split; [vm_compute; discriminate|vm_compute; apply List.Forall_nil].
  - vm_compute. discriminate.
  - vm_compute. discriminate.
  - lia.
Defined.

(** X6 on a frame with command id 0x10. *)
Lemma unknown_command_is_only_acknowledged_witness :
  exists s',
    feed_bytes cast_to_zero (frame_of 0x10 [1; 2; 3]) idle_device = Some s' /\
    g_rx_state s' = ARES_RX_STATE_WAIT_SOP /\
    acknowledged 0x10 ARES_STATUS_ERROR_UNKNOWN_CMD idle_device s' /\
    untouched idle_device s'.
Proof.
  apply (unknown_command_is_only_acknowledged cast_to_zero 0x10 [1; 2; 3]
           idle_device).
  - sizes_ok.
  - reflexivity.
  - vm_compute. discriminate.
  - vm_compute. discriminate.
  - vm_compute. discriminate.
  - vm_compute. discriminate.
Defined.

(** X7 on a set-sample-rate frame with a 3-byte payload. *)
Lemma wrong_payload_length_is_rejected_witness :
  exists s',
    feed_bytes cast_to_zero (frame_of ARESPLOT_CMD_SET_SAMPLE_RATE [100; 0; 0])
      idle_device = Some s' /\
    g_rx_state s' = ARES_RX_STATE_WAIT_SOP /\
    acknowledged ARESPLOT_CMD_SET_SAMPLE_RATE
      ARES_STATUS_ERROR_INVALID_PAYLOAD idle_device s' /\
    untouched idle_device s'.
Proof.
  apply (wrong_payload_length_is_rejected cast_to_zero
           ARESPLOT_CMD_SET_SAMPLE_RATE [100; 0; 0] idle_device).
  - sizes_ok.
  - reflexivity.
  - vm_compute. discriminate.
  - right. split; [reflexivity|]. cbn [length]. lia.
Defined.

(** X8 on a monitoring device that receives a count of 0 followed by
    two stray bytes. *)
Lemma start_monitor_count_zero_stops_witness :
  exists s',
    feed_bytes cast_to_zero (frame_of ARESPLOT_CMD_START_MONITOR (0 :: [9; 9]))
      device_at_wraparound = Some s' /\
    g_rx_state s' = ARES_RX_STATE_WAIT_SOP /\
    acknowledged ARESPLOT_CMD_START_MONITOR ARES_STATUS_OK
      device_at_wraparound s' /\
    monitoring_stopped device_at_wraparound s'.
Proof.
  apply (start_monitor_count_zero_stops cast_to_zero [9; 9]
           device_at_wraparound).
  - sizes_ok.
  - reflexivity.
  - vm_compute. reflexivity.
Defined.

(** X9 on a monitoring device that receives a count of 2 with the
    declaration of one variable only. *)
Lemma start_monitor_wrong_length_stops_witness :
  exists s',
    feed_bytes cast_to_zero
      (frame_of ARESPLOT_CMD_START_MONITOR (2 :: [0; 0; 0; 0x20; 6]))
      device_at_wraparound = Some s' /\
    g_rx_state s' = ARES_RX_STATE_WAIT_SOP /\
    acknowledged ARESPLOT_CMD_START_MONITOR
      ARES_STATUS_ERROR_INVALID_PAYLOAD device_at_wraparound s' /\
    monitoring_stopped device_at_wraparound s'.
Proof.
  apply (start_monitor_wrong_length_stops cast_to_zero 2 [0; 0; 0; 0x20; 6]
           device_at_wraparound).
  - sizes_ok.
  - reflexivity.
  - vm_compute. reflexivity.
  - vm_compute. split; discriminate.
  - vm_compute. discriminate.
Defined.

(** X10 on the declaration of a float at 0x20000000 and of a 16-bit
    integer at 0x20000004. *)
Lemma start_monitor_fills_table_witness :
  let payload := Z.of_nat 2 :: [0; 0; 0; 0x20; 6; 4; 0; 0; 0x20; 2] in
  exists s',
    feed_bytes cast_to_zero (frame_of ARESPLOT_CMD_START_MONITOR payload)
      idle_device = Some s' /\
    g_rx_state s' = ARES_RX_STATE_WAIT_SOP /\
    acknowledged ARESPLOT_CMD_START_MONITOR ARES_STATUS_OK idle_device s' /\
    g_num_monitor_vars s' = Z.of_nat 2 /\
    g_monitoring_active s' = 1 /\
    (forall i, (i < 2)%nat ->
       exists v, declared_var payload i = Some v /\
                 g_monitor_vars s' !! i = Some v) /\
    (forall i, (2 <= i)%nat ->
       g_monitor_vars s' !! i = g_monitor_vars idle_device !! i) /\
    g_last_sample_time_ms s'
    = u32 (tick_source idle_device (tick_reads idle_device)) /\
    tick_reads s' = S (tick_reads idle_device) /\
    g_sample_period_ms s' = g_sample_period_ms idle_device /\
    memory s' = memory idle_device /\
    sent_packets s' = sent_packets idle_device.
Proof.
  apply (start_monitor_fills_table cast_to_zero 2
           [0; 0; 0; 0x20; 6; 4; 0; 0; 0x20; 2] idle_device).
  - sizes_ok.
  - reflexivity.
  - lia.
  - vm_compute. discriminate.
  - reflexivity.
Defined.

(** X11 on a device whose sample is due: two readings. *)
Lemma service_tick_clock_reads_witness :
  exists s',
    aresplot_service_tick device_at_wraparound = Some s' /\
    tick_reads s'
    = (tick_reads device_at_wraparound + clock_reads device_at_wraparound)%nat.
Proof.
  apply (service_tick_clock_reads device_at_wraparound).
  - sizes_ok.
  - vm_compute. discriminate.
Defined.

(** X12 on a device just started, served three times. *)
Lemma idle_service_is_silent_witness :
  run cast_to_zero (replicate 3 ServiceTick) idle_device = Some idle_device.
Proof.
  apply (idle_service_is_silent cast_to_zero 3 idle_device).
  - reflexivity.
  - left. reflexivity.
Defined.

(** X13 on a device that monitors one variable and whose sample is
    due. *)
Lemma sampling_call_sends_data_frame_witness :
  let s := device_at_wraparound in
  exists s' f,
    aresplot_service_tick s = Some s' /\
    last (sent_packets s') = Some f /\
    Z.of_nat (length f) = 10 + 4 * g_num_monitor_vars s /\
    take 4 f = [ARESPLOT_SOP; ARESPLOT_CMD_MONITOR_DATA;
                4 + 4 * g_num_monitor_vars s; 0] /\
    take 4 (drop 4 f) = le32_bytes (u32 (tick_source s (S (tick_reads s)))) /\
    (forall i v,
       Z.of_nat i < g_num_monitor_vars s ->
       g_monitor_vars s !! i = Some v ->
       take 4 (drop (8 + 4 * i) f)
       = le32_bytes (temp_float_val_of (memory s) v)) /\
    g_last_sample_time_ms s' = u32 (tick_source s (tick_reads s)).
Proof.
  apply (sampling_call_sends_data_frame device_at_wraparound).
  - sizes_ok.
  - vm_compute. discriminate.
  - vm_compute. reflexivity.
Defined.

(** X15 on a 2-byte payload. *)
Lemma transmitter_capacity_witness :
  exists s',
    assemble_and_send_frame_internal ARESPLOT_CMD_ACK [1; 0]
      (Z.of_nat (length [1; 0])) idle_device = Some s' /\
    sent_packets s'
    = sent_packets idle_device ++
      (if Z.of_nat (length [1; 0]) <=? 122
       then [frame_of ARESPLOT_CMD_ACK [1; 0]] else []) /\
    (122 < Z.of_nat (length [1; 0]) -> s' = idle_device).
Proof.
  apply (transmitter_capacity ARESPLOT_CMD_ACK [1; 0] idle_device).
  - vm_compute. reflexivity.
  - vm_compute. discriminate.
Defined.

(** X14 on a device with an acknowledgement pending and a sample due:
    two packets. *)
Lemma service_call_sends_engine_packets_witness :
  let s := queue_ack_response ARESPLOT_CMD_SET_SAMPLE_RATE ARES_STATUS_OK
             device_at_wraparound in
  exists s' pkts,
    aresplot_service_tick s = Some s' /\
    sent_packets s' = sent_packets s ++ pkts /\
    (length pkts <= 2)%nat /\
    Forall engine_packet pkts /\
    length pkts = 2%nat.
Proof.
  apply (service_call_sends_engine_packets
           (queue_ack_response ARESPLOT_CMD_SET_SAMPLE_RATE ARES_STATUS_OK
              device_at_wraparound)).
  - sizes_ok.
  - vm_compute. discriminate.
Defined.

(** X16 on the length 65535, with a payload of 65535 zero bytes. *)
Lemma transmitter_length_wraps_witness :
  let payload := replicate (Z.to_nat 65535) 0 in
  let header := [ARESPLOT_SOP; ARESPLOT_CMD_ACK; 255; 255] in
  let filled :=
    write_at (g_tx_assembly_buffer idle_device) 0
      (header ++ take 124 payload) in
  u16 (1 + 1 + 2 + 65535 + 1 + 1) = 5 /\
  (ARESPLOT_SHARED_BUFFER_SIZE <? u16 (1 + 1 + 2 + 65535 + 1 + 1)) = false /\
  memcpy (write_at (g_tx_assembly_buffer idle_device) 0 header) 4 payload 124
  = Some filled /\
  length filled = 128%nat /\
  (exists b, load payload 124 = Some b /\ store filled (4 + 124) b = None) /\
  assemble_and_send_frame_internal ARESPLOT_CMD_ACK payload 65535 idle_device
  = None.
Proof.
  cbv zeta.
  destruct (transmitter_length_wraps ARESPLOT_CMD_ACK
              (replicate (Z.to_nat 65535) 0) 65535 idle_device)
    as (_ & H2 & H3 & H4 & H5 & H6).
  - vm_compute. reflexivity.
  - lia.
  - rewrite length_replicate. lia.
  - split; [reflexivity|]. split; [exact H2|]. split; [exact H3|].
    split; [exact H4|]. split; [exact H5|exact H6].
Defined.

(** X18 on a 16-bit integer at 0x20000000 set to 123.456
    (0x42F6E979): the float truncates to 123, and the sample is 123.0
    (0x42F60000). *)
Lemma set_then_sample_witness :
  ieee754_truncates_to 0x42F6E979 123 = true /\
  exists s',
    feed_bytes cast_to_zero
      (frame_of ARESPLOT_CMD_SET_VARIABLE
         (set_variable_payload 0x20000000 ARES_TYPE_INT16 0x42F6E979))
      idle_device = Some s' /\
    temp_float_val_of (memory s') (VarInfo 0x20000000 ARES_TYPE_INT16)
    = 0x42F60000.
Proof.
  split; [vm_compute; reflexivity|].
  destruct (set_then_sample cast_to_zero 0x20000000 ARES_TYPE_INT16
              0x42F6E979 idle_device) as (s' & Hf & _ & _ & Hint).
  - sizes_ok.
  - reflexivity.
  - split; reflexivity.
  - split; [vm_compute; discriminate|reflexivity].
  - exists s'. split; [exact Hf|].
    rewrite (Hint (-32768) 32767 123).
    + vm_compute. reflexivity.
    + reflexivity.
    + vm_compute. reflexivity.
    + lia.
Defined.

(** X19 on a set-sample-rate frame for 100 Hz. *)
Lemma every_frame_is_acknowledged_witness :
  exists s1 s2 status,
    feed_bytes cast_to_zero
      (frame_of ARESPLOT_CMD_SET_SAMPLE_RATE [100; 0; 0; 0]) idle_device
    = Some s1 /\
    aresplot_service_tick s1 = Some s2 /\
    sent_packets s2
    = sent_packets idle_device
      ++ ack_frame ARESPLOT_CMD_SET_SAMPLE_RATE status
        :: (if samples s1 then [data_frame s1] else []) /\
    g_ack_pending s2 = 0.
Proof.
  apply (every_frame_is_acknowledged cast_to_zero ARESPLOT_CMD_SET_SAMPLE_RATE
           [100; 0; 0; 0] idle_device).
  - sizes_ok.
  - reflexivity.
  - vm_compute. discriminate.
  - vm_compute. discriminate.
Defined.

(** X20 on the start marker received by a device just started. *)
Lemma only_the_end_marker_dispatches_witness :
  let s := idle_device in
  let s' := after_bytes [ARESPLOT_SOP] idle_device in
  untouched s s' /\ log_dispatched s' = log_dispatched s /\
  (g_rx_state s <> ARES_RX_STATE_WAIT_CHECKSUM \/
   ARESPLOT_SOP = g_rx_checksum_calculated s ->
   log_acks s' = log_acks s /\ g_ack_pending s' = g_ack_pending s).
Proof.
  apply (only_the_end_marker_dispatches cast_to_zero ARESPLOT_SOP idle_device
           (after_bytes [ARESPLOT_SOP] idle_device)).
  - vm_compute. reflexivity.
  - left. vm_compute. discriminate.
Defined.
